(* ===== verification/_CoqProject ===== *)
-Q . S2P
Prelude.v
Http.v
Config.v
Banner.v
BasicAuth.v
DirList.v
Handler.v
Vfs.v
Locks.v
Props.v
Engine.v
TreeWf.v
StoreWf.v
System.v
