(* ===== verification/Prelude.v ===== *)
(** * A verification development of webdav-server-debug

    The repository is a small Go daemon ([src/main.go], 115 lines) that
    serves a directory tree over WebDAV.  Its own logic is a thin wrapper
    around the WebDAV engine of [golang.org/x/net/webdav]:

    - command-line configuration ([flag] variables, lines 20-29);
    - [main] builds the engine ([webdav.Handler] over [webdav.Dir] and
      [webdav.NewMemLS], lines 40-43) and registers one closure on ["/"]
      (lines 45-69) that (1) enforces HTTP Basic authentication when both
      [-user] and [-password] are set, (2) answers a [GET] on a
      collection with an HTML directory listing, (3) in [-read-only] mode
      refuses six mutating verbs with 403, and (4) otherwise delegates to
      the engine ([fs.ServeHTTP]);
    - the listing itself ([handleDirList], lines 89-115);
    - the start-up banner (lines 71-79) and the choice between HTTP and
      HTTPS (lines 81-85).

    The engine is not part of the repository: the specification
    ([spec.md]) describes it (path resolver, lock manager, property store,
    method dispatcher, status table) and those parts are modelled from the
    specification, behind the same interfaces the Go code uses.

    ** Files (in dependency order)

    - [Prelude] (this file): the [webdav_scope] notations ([==s], [+s]),
      the [destruct_streqb] tactic, the [webdav] and [webdav_rw] hint
      databases and generic lemmas on strings, lists and bit operations.
    - [Http]: the slice of [net/http] the closure touches: requests,
      header maps with [textproto]'s key canonicalisation, the
      [ResponseWriter] as an explicit state record (the first
      [WriteHeader] wins, an implicit 200 on the first [Write]), and
      [http.Error]; the writer invariant [writer_ok] (every header key is
      in canonical form) and its preservation by each writer operation.
    - [Config]: the eight flag declarations (lines 20-29) and the
      [Flags] record, [flag.Parse] of line 39 ([parse_one] is
      [FlagSet.parseOne], [parse_loop] the [for] loop of [FlagSet.Parse]
      around it, [parse_args] the same parse as one structural recursion;
      [strconv.ParseBool], exit codes of [ExitOnError]),
      the usage text [init] installs (lines 31-36, [flag.PrintDefaults]
      with [%q]), the authentication switch of line 46 and the
      listen-mode choice of lines 81-85.
    - [Banner]: the start-up banner of lines 71-79, [banner_domain] and
      [banner_line], over a model of the [net/url] code it runs (Go 1.21)
      on the input ["http://" + addr]: [parse_http] ([url.Parse] with
      [parseAuthority], [parseHost], [unescape] and its per-mode checks),
      [Hostname]/[Port] ([splitHostPort]) and [url_string]
      ([URL.String] with [escape], [EscapedPath], [EscapedFragment]).
    - [BasicAuth]: [req.BasicAuth()] of line 47: the [Basic ] prefix
      (ASCII case-insensitive), the base64 decoder with Go's bit packing
      on [Z], and [strings.Cut] at the first colon; the headers it
      accepts, and the bound on the decoded length.
    - [DirList]: [handleDirList] against the type class [WebdavFS], which
      plays Go's [webdav.FileSystem] interface ([OpenFile], [Stat],
      [Readdir]).
    - [Handler]: the closure of lines 45-69 as [handler], proved in a
      Section against the class [DavServer] (the [webdav.Handler] the code
      builds); its theorems hold for any engine implementing the class.
      The access policy [policy] (refuse, list, forbid or delegate) is
      the closure's contract, and [realizes] says what each verdict does.
    - [Vfs], [Locks], [Props], [Engine] (from the specification): the
      path resolver and tree, the lock manager with lazy expiry, the
      property store (live properties computed from the node, dead ones
      in insertion order, the atomic [ps_patch]), and the method
      dispatcher [serve] with the response encoder; [Engine] provides the
      [DavServer] instance.
    - [TreeWf]: every request preserves the tree invariant [fs_wf],
      COPY and MOVE included.
    - [StoreWf]: every request keeps the property store attached to the
      tree ([props_wf]); MOVE carries the dead properties.
    - [System]: [main_handler], the closure over the engine as [main]
      wires it, the step relation [sys_step] of the running server (a
      request through [main_handler], or one unit of time), and the
      end-to-end theorems; [startup_banner], the banner for the [-http]
      flag; [main_run], the whole of [main] (lines 38-87): [flag.Parse],
      the banner, then the listener, which either serves ([sys_step]) or
      returns an error that [main] drops; the concrete runs that witness
      the claims about the server.

    ** What the theorems show

    - authentication (C1, C9-C11, C23): with both credentials configured
      no request passes without the exact user name and password, and
      the state is unchanged on refusal; the two refusals are pinned to
      the byte (the challenge header of line 49, or [http.Error]'s 401
      without it); [req.BasicAuth] accepts exactly a case-insensitive
      [Basic ] prefix and the base64 of [user:password] with a colon-free
      user, so the standard header round-trips and a user name with a
      colon can never log in; an empty flag disables the check;
    - read-only mode (C2-C4, C6, C7): the six verbs of line 63 are refused
      with 403 before the engine runs; other verbs behave as without the
      flag; over any run the tree only gains empty files, which LOCK
      creates;
    - listing (C8, C17): a [GET] of a collection is answered with one
      anchor line per entry and the HTML content type; a [Readdir] error
      falls through to the engine;
    - engine behaviour through the closure (C5, C13-C16): PUT then GET,
      MKCOL of a parent then a child, DELETE under a lock and DELETE
      then GET, conflicting LOCKs before the timeout; the root collection
      cannot be deleted (C37);
    - engine behaviour over longer runs (C19-C21): MOVE then GET, a LOCK
      after the conflicting lock expired, UNLOCK then LOCK;
    - invariants of every run (C12, C18, C22): the lock table and the tree
      stay well formed and every stored path is the resolution of a
      request path, by induction over [rtc sys_step];
    - refinement (C24): [handler] implements the access policy [policy]
      on every request, whatever the engine;
    - base64 bounds (C25): a decoded credential fits the [DecodedLen]
      buffer Go allocates, and an accepted input is whole quanta;
    - the banner (C26-C28): [host:port] and [[ip]:port] are printed back,
      an empty host becomes [127.0.0.1], a non-numeric port makes
      [url.Parse] fail and the raw address is printed;
    - termination (C29): the [for] loop of [FlagSet.Parse] stops after at
      most one more [parseOne] call than there are arguments, with the
      result of the structural [parse_args];
    - the property store (C30-C33): PROPPATCH through the closure is all
      or nothing, with one status per instruction; over every run only
      resources carry dead properties; MOVE carries them; PROPPATCH then
      PROPFIND reports the patched properties;
    - the command line and [main] (C34-C36): started with the line that
      sets every flag as [-name=value], [main] prints the banner of that
      address and serves with exactly that configuration on the listener
      [-https-mode] selects, or exits with status 0 when the listener
      does not come up; a boolean flag followed by a non-flag argument
      ends the parse; an undeclared flag exits with status 2 and the
      usage text.

    ** Bounds and fuel

    One definition uses fuel: [parse_loop], the [for] loop of
    [FlagSet.Parse], which calls [parseOne] until it reports no flag.
    Every call that reports a flag consumes at least one argument
    ([parse_one_seen_shrinks]), so [length args + 1] calls are enough;
    C29 proves that this fuel always gives a result, equal to that of
    [parse_args], and [flag_parse] uses [parse_args].  Every other
    recursion is structural (on strings, lists or paths) and every other
    loop of the code is a fold over a finite list.  Time is a natural
    number advanced by [tick]; lock expiry compares it with
    [now + timeout], with the default timeout of 3600 of
    [parse_timeout].  Integers of the base64 decoder are [Z] values of at
    most 24 bits, as Go's [uint] quantities never exceed that width;
    [byte(...)] is [Z.land _ 255].  Byte-level facts of the URL code are
    checked by evaluation over all 256 values of [ascii]
    ([ascii_forall]).

    ** Findings recorded in the manifest

    - read-only mode lets LOCK through, and a LOCK on an unmapped path
      creates an empty file (C4);
    - credentials are only checked when both flags are non-empty (C11);
    - a user name containing a colon can never authenticate (C10);
    - wrong credentials get a 401 without [WWW-Authenticate] (C1);
    - the listing writes names into HTML without escaping (C8), with
      hrefs relative to the request URL, which for a collection
      requested without a trailing slash point into its parent;
    - a [Readdir] failure is logged with the writer as the message
      ([log.Print(w, ...)]) and the request falls through to the engine
      (C17);
    - the banner keeps the port as given, so [-http :0] announces port 0
      (C26), and a service-name port ([:http]) is printed raw (C27);
    - [main] never checks [flag.NArg()]: [-read-only false -user u
      -password p] starts a read-only server without authentication
      (C35);
    - [main] drops the error of [ListenAndServe]: when the address is
      taken or the certificate does not load, the process exits with
      status 0 after printing the banner (C34);
    - the specification contradicts itself on PROPPATCH (4.3: all or
      nothing; 7 and 8: settable properties applied beside a forbidden
      one); the model follows 4.3 and RFC 4918 (C30).

    ** Not modelled

    TLS, sockets and the accept loop of [http.ListenAndServe] (I/O inside
    [net/http] and [crypto/tls]: whether the listener comes up is the
    parameter [listen_ok] of [main_run], and the loop is [sys_step]); reading [os.Args] and the
    writes to standard error themselves (the model gives their text:
    [banner_line], [usage_text], the [Exit] of [flag_parse]); the
    branches of [url.Parse] that the input ["http://" + addr] cannot reach (scheme scanning errors, opaque URLs,
    [OmitHost]); the engine's XML wire format: a PROPPATCH body is read as
    one [set]/[remove] instruction per line, and names and values are
    written into bodies without XML escaping; modification times (no
    [getlastmodified] live property).
*)

From stdpp Require Export base strings list gmap.
From Stdlib Require Export String Ascii ZArith Lia.

(** Notations of the development live in their own scope. *)
Declare Scope webdav_scope.
Delimit Scope webdav_scope with dav.
Open Scope webdav_scope.

(** Go's string comparison [a == b], as a boolean. *)
Notation "a ==s b" := (String.eqb a b) (at level 70, no associativity) : webdav_scope.
(** Go's string concatenation. *)
Notation "a +s b" := (String.append a b) (at level 60, right associativity) : webdav_scope.

(** The double quote character, as a one-character string (the Go escape backslash-quote). *)
Definition dq : string := String "034"%char EmptyString.
(** The newline character (Go's [\n]). *)
Definition nl : string := String "010"%char EmptyString.

Create HintDb webdav.
Create Rewrite HintDb webdav_rw.

(** Membership of a string in a list of string literals, as Go's
    [switch s { case "A", "B", ...: }] tests it. *)
Definition str_mem (s : string) (l : list string) : bool :=
  existsb (fun t => t ==s s) l.

(** Concatenation of a list of strings, as successive [Write] calls
    produce it. *)
Definition concat_str (l : list string) : string :=
  foldr String.append EmptyString l.

(** ** Strings *)

Lemma streqb_refl (s : string) : (s ==s s) = true.
Proof. apply String.eqb_refl. Qed.

Lemma streqb_true (a b : string) : (a ==s b) = true <-> a = b.
Proof. apply String.eqb_eq. Qed.

Lemma streqb_false (a b : string) : (a ==s b) = false <-> a <> b.
Proof. apply String.eqb_neq. Qed.

Lemma streqb_ne (a b : string) : a <> b -> (a ==s b) = false.
Proof. apply streqb_false. Qed.

(** stdpp makes [String.append] opaque to [simpl]; this is its
    defining equation on a non-empty left argument. *)
Lemma string_app_cons (x : ascii) (a b : string) :
  String x a +s b = String x (a +s b).
Proof. reflexivity. Qed.

Lemma string_app_nil_l (a : string) : EmptyString +s a = a.
Proof. reflexivity. Qed.

Lemma string_app_assoc (a b c : string) : (a +s b) +s c = a +s (b +s c).
Proof. induction a as [|x a IH]; [done|]. by rewrite !string_app_cons, IH. Qed.

Lemma string_app_nil_r (a : string) : a +s EmptyString = a.
Proof. induction a as [|x a IH]; [done|]. by rewrite string_app_cons, IH. Qed.

Lemma string_length_app (a b : string) :
  String.length (a +s b) = String.length a + String.length b.
Proof. induction a as [|x a IH]; [done|]. rewrite string_app_cons. simpl. by rewrite IH. Qed.

(** Appending the same suffix is injective. *)
Lemma string_app_inj_r (a b c : string) : a +s c = b +s c -> a = b.
Proof.
  revert b. induction a as [|x a IH]; intros [|y b] H; rewrite ?string_app_cons in H; try done.
  - apply (f_equal String.length) in H. rewrite string_app_nil_l in H. simpl in H.
    rewrite string_length_app in H. lia.
  - apply (f_equal String.length) in H. rewrite string_app_nil_l in H. simpl in H.
    rewrite string_length_app in H. lia.
  - injection H as -> H. by rewrite (IH b H).
Qed.

#[export] Hint Rewrite streqb_refl string_app_nil_l string_app_nil_r string_app_cons : webdav_rw.
#[export] Hint Resolve streqb_refl streqb_ne : webdav.

(** Case analysis on every Go string comparison in the goal. *)
Ltac destruct_streqb :=
  repeat match goal with
  | |- context [String.eqb ?a ?b] =>
      destruct (String.eqb_spec a b); subst; try congruence
  | H : context [String.eqb ?a ?b] |- _ =>
      destruct (String.eqb_spec a b); subst; try congruence
  end.

Lemma str_mem_spec (s : string) (l : list string) :
  str_mem s l = true <-> s ∈ l.
Proof.
  unfold str_mem. rewrite existsb_exists, list_elem_of_In. split.
  - intros (t & Hin & Heq). apply streqb_true in Heq. by subst.
  - intros Hin. exists s. split; [done | apply streqb_refl].
Qed.

Lemma str_mem_false (s : string) (l : list string) :
  str_mem s l = false <-> s ∉ l.
Proof.
  rewrite <- str_mem_spec. destruct (str_mem s l); split; congruence || done.
Qed.

Lemma str_mem_bool_decide (s : string) (l : list string) : str_mem s l = bool_decide (s ∈ l).
Proof. destruct (str_mem s l) eqn:E; symmetry; [apply bool_decide_eq_true, str_mem_spec, E | apply bool_decide_eq_false, str_mem_false, E]. Qed.

(** ** Lists *)

(** Mapping keeps a sublist a sublist. *)
Lemma fmap_sublist {A B : Type} (f : A -> B) (l1 l2 : list A) :
  l1 `sublist_of` l2 -> f <$> l1 `sublist_of` f <$> l2.
Proof. induction 1; cbn; by constructor. Qed.

Lemma concat_str_app (l1 l2 : list string) :
  concat_str (l1 ++ l2) = concat_str l1 +s concat_str l2.
Proof.
  induction l1 as [|s l1 IH]; simpl; [done|]. by rewrite IH, string_app_assoc.
Qed.

#[export] Hint Rewrite concat_str_app : webdav_rw.

(** ** Machine integers: disjoint bit fields

    Go packs bit fields with [|] and [<<]; when the fields do not
    overlap the packing is an addition. *)

Lemma lor_disjoint (x y : Z) : Z.land x y = 0%Z -> Z.lor x y = (x + y)%Z.
Proof. intros H. pose proof (Z.add_lor_land x y). lia. Qed.

Lemma land_mul_pow2_small (a b k : Z) :
  (0 <= k)%Z -> (0 <= b < 2 ^ k)%Z -> Z.land (a * 2 ^ k) b = 0%Z.
Proof.
  intros Hk Hb. rewrite <- (Z.mod_small b (2 ^ k)) by lia.
  rewrite <- Z.land_ones by lia. rewrite (Z.land_comm b), Z.land_assoc, Z.land_ones by lia.
  rewrite Z.mod_mul by lia. apply Z.land_0_l.
Qed.

Lemma lor_mul_pow2 (a b k : Z) :
  (0 <= k)%Z -> (0 <= b < 2 ^ k)%Z -> Z.lor (a * 2 ^ k) b = (a * 2 ^ k + b)%Z.
Proof. intros. apply lor_disjoint, land_mul_pow2_small; lia. Qed.

Lemma lor_mul_pow2_shift (a b j k : Z) :
  (0 <= j)%Z -> (0 <= k)%Z -> (0 <= b < 2 ^ j)%Z ->
  Z.lor (a * 2 ^ (j + k)) (b * 2 ^ k) = ((a * 2 ^ j + b) * 2 ^ k)%Z.
Proof.
  intros. rewrite Z.pow_add_r, Z.mul_assoc by lia.
  rewrite <- !Z.shiftl_mul_pow2 by lia. rewrite <- Z.shiftl_lor.
  rewrite !Z.shiftl_mul_pow2 by lia. rewrite lor_mul_pow2; lia.
Qed.
