(* ===== verification/Http.v ===== *)
(** * The slice of Go's [net/http] that [src/main.go] touches

    Requests as the handler reads them ([req.Method], [req.URL.Path],
    [req.Header]), header maps with [textproto]'s key canonicalisation,
    the [ResponseWriter] as an explicit state record, and [http.Error].
    The handler of [main.go] is a sequence of writer operations; this file
    gives those operations and their laws, and the invariant [writer_ok]
    (every header key in canonical form) that each of them preserves. *)

From S2P Require Import Prelude.

(** ** Status codes used by [main.go] (Go's [http.Status*] constants) *)

Definition StatusOK : nat := 200.
Definition StatusUnauthorized : nat := 401.
Definition StatusForbidden : nat := 403.

(** ** Header keys

    [Header.Set] and [Header.Get] canonicalise their key with
    [textproto.CanonicalMIMEHeaderKey]: when every byte is a token byte,
    the first letter and every letter after a dash is upper-cased and the
    others lower-cased; otherwise the key is used unchanged. *)

Definition is_token_char (c : ascii) : bool :=
  let n := nat_of_ascii c in
  (48 <=? n) && (n <=? 57) || (65 <=? n) && (n <=? 90) || (97 <=? n) && (n <=? 122)
  || str_mem (String c EmptyString)
       ["!"; "#"; "$"; "%"; "&"; "'"; "*"; "+"; "-"; "."; "^"; "_"; "`"; "|"; "~"].

Definition ascii_upper (c : ascii) : ascii :=
  let n := nat_of_ascii c in
  if (97 <=? n) && (n <=? 122) then ascii_of_nat (n - 32) else c.

Definition ascii_lower (c : ascii) : ascii :=
  let n := nat_of_ascii c in
  if (65 <=? n) && (n <=? 90) then ascii_of_nat (n + 32) else c.

(** The rewriting loop of [canonicalMIMEHeaderKey]; [upper] says the
    previous byte was a dash (or this is the first byte). *)
Fixpoint canon_loop (upper : bool) (s : string) : string :=
  match s with
  | EmptyString => EmptyString
  | String c s' =>
      let c' := if upper then ascii_upper c else ascii_lower c in
      String c' (canon_loop (Ascii.eqb c' "-"%char) s')
  end.

Fixpoint all_token (s : string) : bool :=
  match s with
  | EmptyString => true
  | String c s' => is_token_char c && all_token s'
  end.

Definition CanonicalMIMEHeaderKey (s : string) : string :=
  if all_token s then canon_loop true s else s.

(** ** Header maps: Go's [map[string][]string] *)

Abbreviation Header := (gmap string (list string)).

(** [Header.Set(key, value)]: the canonical key now maps to [value] only. *)
Definition header_set (k v : string) (h : Header) : Header :=
  <[CanonicalMIMEHeaderKey k := [v]]> h.

(** [Header.Del(key)]. *)
Definition header_del (k : string) (h : Header) : Header :=
  delete (CanonicalMIMEHeaderKey k) h.

(** [Header.Get(key)]: the first value, or the empty string. *)
Definition header_get (k : string) (h : Header) : string :=
  match h !! CanonicalMIMEHeaderKey k with
  | Some (v :: _) => v
  | _ => EmptyString
  end.

(** ** Requests *)

Record Request := mkRequest {
  req_method : string;   (** [req.Method] *)
  req_path : string;     (** [req.URL.Path] *)
  req_header : Header;   (** [req.Header] *)
  req_body : string      (** the bytes of [req.Body] *)
}.

(** ** The response writer

    [w_header] is the mutable map [w.Header()] returns; [w_sent] records
    the status and the header snapshot taken by the first [WriteHeader]
    (explicit or implied by a [Write]); later calls are superfluous and
    ignored, as Go's server does; [w_body] is what [Write] appended. *)

Record Writer := mkWriter {
  w_header : Header;
  w_sent : option (nat * Header);
  w_body : string
}.

Definition empty_writer : Writer := mkWriter ∅ None EmptyString.

(** [w.Header().Set(k, v)]. *)
Definition w_set_header (k v : string) (w : Writer) : Writer :=
  mkWriter (header_set k v (w_header w)) (w_sent w) (w_body w).

(** [w.Header().Del(k)]. *)
Definition w_del_header (k : string) (w : Writer) : Writer :=
  mkWriter (header_del k (w_header w)) (w_sent w) (w_body w).

(** [w.WriteHeader(code)]: only the first call has an effect. *)
Definition write_header (code : nat) (w : Writer) : Writer :=
  match w_sent w with
  | Some _ => w
  | None => mkWriter (w_header w) (Some (code, w_header w)) (w_body w)
  end.

(** [w.Write(s)] (also [fmt.Fprintf(w, ...)]): implies [WriteHeader(200)]
    when no status was written yet. *)
Definition write (s : string) (w : Writer) : Writer :=
  let w' := write_header StatusOK w in
  mkWriter (w_header w') (w_sent w') (w_body w' +s s).

(** The status the client receives: the written one, or 200 when the
    handler returned without writing anything. *)
Definition resp_status (w : Writer) : nat :=
  match w_sent w with Some (c, _) => c | None => StatusOK end.

(** The header the client receives: the snapshot, or the final map. *)
Definition resp_header (w : Writer) : Header :=
  match w_sent w with Some (_, h) => h | None => w_header w end.

(** [http.Error(w, error, code)]. *)
Definition http_error (msg : string) (code : nat) (w : Writer) : Writer :=
  let w := w_del_header "Content-Length" w in
  let w := w_set_header "Content-Type" "text/plain; charset=utf-8" w in
  let w := w_set_header "X-Content-Type-Options" "nosniff" w in
  let w := write_header code w in
  write (msg +s nl) w.

(** ** The type invariant of header maps

    [Header.Set] and [Header.Del] canonicalise the key they are given,
    so a map built by them holds canonical keys only; a writer is well
    formed when its live map and its sent snapshot are. *)

Definition canonical_keys (h : Header) : Prop :=
  forall k v, h !! k = Some v -> CanonicalMIMEHeaderKey k = k.

Definition writer_ok (w : Writer) : Prop :=
  canonical_keys (w_header w) /\ (forall c h, w_sent w = Some (c, h) -> canonical_keys h).

(** ** Laws of headers and writers *)

Lemma canon_loop_length (u : bool) (s : string) :
  String.length (canon_loop u s) = String.length s.
Proof. revert u. induction s as [|c s IH]; intros u; simpl; [done | by rewrite IH]. Qed.

(** A header set under a key is read back under that key. *)
Lemma header_get_set (k v : string) (h : Header) :
  header_get k (header_set k v h) = v.
Proof. unfold header_get, header_set. by rewrite lookup_insert_eq. Qed.

(** Keys with the same canonical form name the same entry. *)
Lemma header_get_set_canon (k k' v : string) (h : Header) :
  CanonicalMIMEHeaderKey k = CanonicalMIMEHeaderKey k' ->
  header_get k' (header_set k v h) = v.
Proof. intros Hk. unfold header_get, header_set. by rewrite Hk, lookup_insert_eq. Qed.

Lemma header_get_set_ne (k k' v : string) (h : Header) :
  CanonicalMIMEHeaderKey k <> CanonicalMIMEHeaderKey k' ->
  header_get k' (header_set k v h) = header_get k' h.
Proof. intros Hk. unfold header_get, header_set. by rewrite lookup_insert_ne. Qed.

Lemma write_header_sent (c : nat) (w : Writer) :
  w_sent w = None -> w_sent (write_header c w) = Some (c, w_header w).
Proof. unfold write_header. by intros ->. Qed.

Lemma write_header_again (c : nat) (w : Writer) :
  w_sent w <> None -> write_header c w = w.
Proof. unfold write_header. destruct (w_sent w); congruence. Qed.

Lemma write_body (s : string) (w : Writer) : w_body (write s w) = w_body w +s s.
Proof. unfold write, write_header. by destruct (w_sent w). Qed.

Lemma write_sent_some (s : string) (w : Writer) : w_sent (write s w) <> None.
Proof. unfold write, write_header. destruct (w_sent w) eqn:E; simpl; congruence. Qed.

Lemma write_write (s1 s2 : string) (w : Writer) :
  write s2 (write s1 w) = write (s1 +s s2) w.
Proof.
  unfold write, write_header. destruct (w_sent w) eqn:E; simpl; rewrite ?E; simpl; by rewrite string_app_assoc.
Qed.

#[export] Hint Rewrite header_get_set write_body write_write : webdav_rw.
#[export] Hint Resolve write_sent_some : webdav.

(** The status written by a first [WriteHeader] survives any further
    writes. *)
Lemma resp_status_write (s : string) (w : Writer) :
  w_sent w <> None -> resp_status (write s w) = resp_status w.
Proof. unfold resp_status, write, write_header. destruct (w_sent w) as [[]|] eqn:E; simpl; rewrite ?E; congruence. Qed.

(** [http.Error] on a fresh writer: the status is the one given, the body
    is the message and a newline, and the content type is plain text. *)
Lemma http_error_fresh (msg : string) (code : nat) (w : Writer) :
  w_sent w = None ->
  resp_status (http_error msg code w) = code /\
  w_body (http_error msg code w) = w_body w +s msg +s nl /\
  header_get "Content-Type" (resp_header (http_error msg code w))
    = "text/plain; charset=utf-8".
Proof.
  intros Hn. unfold http_error, write, write_header, resp_status, resp_header.
  simpl. rewrite Hn. simpl. split; [done|]. split; [done|].
  rewrite header_get_set_ne; [apply header_get_set | by vm_compute].
Qed.

(** ** Canonical keys *)

Lemma ascii_upper_idem (c : ascii) : ascii_upper (ascii_upper c) = ascii_upper c.
Proof. destruct c as [[] [] [] [] [] [] [] []]; reflexivity. Qed.

Lemma ascii_lower_idem (c : ascii) : ascii_lower (ascii_lower c) = ascii_lower c.
Proof. destruct c as [[] [] [] [] [] [] [] []]; reflexivity. Qed.

Lemma is_token_char_upper (c : ascii) : is_token_char (ascii_upper c) = is_token_char c.
Proof. destruct c as [[] [] [] [] [] [] [] []]; reflexivity. Qed.

Lemma is_token_char_lower (c : ascii) : is_token_char (ascii_lower c) = is_token_char c.
Proof. destruct c as [[] [] [] [] [] [] [] []]; reflexivity. Qed.

Lemma canon_loop_idem (u : bool) (s : string) : canon_loop u (canon_loop u s) = canon_loop u s.
Proof.
  revert u. induction s as [|c s IH]; intros u; [done|]. simpl.
  destruct u; rewrite ?ascii_upper_idem, ?ascii_lower_idem; by rewrite IH.
Qed.

Lemma all_token_canon_loop (u : bool) (s : string) : all_token (canon_loop u s) = all_token s.
Proof.
  revert u. induction s as [|c s IH]; intros u; [done|]. simpl.
  destruct u; by rewrite ?is_token_char_upper, ?is_token_char_lower, IH.
Qed.

(** Canonicalising twice is canonicalising once. *)
Lemma CanonicalMIMEHeaderKey_idem (k : string) :
  CanonicalMIMEHeaderKey (CanonicalMIMEHeaderKey k) = CanonicalMIMEHeaderKey k.
Proof.
  unfold CanonicalMIMEHeaderKey. destruct (all_token k) eqn:Ht; [|by rewrite Ht].
  by rewrite all_token_canon_loop, Ht, canon_loop_idem.
Qed.

Lemma canonical_keys_empty : canonical_keys ∅.
Proof. intros k v. by rewrite lookup_empty. Qed.

Lemma header_set_canonical (k v : string) (h : Header) :
  canonical_keys h -> canonical_keys (header_set k v h).
Proof.
  intros Hh k' v'. unfold header_set. rewrite lookup_insert.
  case_decide as E; [intros _; subst; apply CanonicalMIMEHeaderKey_idem | apply Hh].
Qed.

Lemma header_del_canonical (k : string) (h : Header) :
  canonical_keys h -> canonical_keys (header_del k h).
Proof. intros Hh k' v'. unfold header_del. rewrite lookup_delete. case_decide; [done | apply Hh]. Qed.

Lemma writer_ok_empty : writer_ok empty_writer.
Proof. split; [apply canonical_keys_empty | done]. Qed.

Lemma w_set_header_ok (k v : string) (w : Writer) : writer_ok w -> writer_ok (w_set_header k v w).
Proof. intros [Hh Hs]. split; [by apply header_set_canonical | exact Hs]. Qed.

Lemma w_del_header_ok (k : string) (w : Writer) : writer_ok w -> writer_ok (w_del_header k w).
Proof. intros [Hh Hs]. split; [by apply header_del_canonical | exact Hs]. Qed.

Lemma write_header_ok (c : nat) (w : Writer) : writer_ok w -> writer_ok (write_header c w).
Proof.
  intros [Hh Hs]. unfold write_header. destruct (w_sent w) eqn:E; [split; [exact Hh | by rewrite E]|].
  split; [exact Hh|]. simpl. by intros ? ? [= _ <-].
Qed.

Lemma write_ok (s : string) (w : Writer) : writer_ok w -> writer_ok (write s w).
Proof. intros Hw. pose proof (write_header_ok StatusOK w Hw) as [Hh Hs]. split; [exact Hh | exact Hs]. Qed.

Lemma http_error_ok (msg : string) (code : nat) (w : Writer) : writer_ok w -> writer_ok (http_error msg code w).
Proof.
  intros Hw. unfold http_error.
  apply write_ok, write_header_ok, w_set_header_ok, w_set_header_ok, w_del_header_ok, Hw.
Qed.

#[export] Hint Resolve writer_ok_empty w_set_header_ok w_del_header_ok write_header_ok write_ok
  http_error_ok : webdav.
