(* ===== verification/Config.v ===== *)
(** * Command-line configuration of [src/main.go]

    The eight [flag] variables of lines 20-29 as one immutable record
    (the [flag.Parse] call fills it once before the server starts), their
    default values, the authentication switch of line 46 and the choice
    between [ListenAndServeTLS] and [ListenAndServe] of lines 81-85.
    The [flag] package as [main] uses it: the declarations as data
    ([flag_decls]), [flag.Parse] of line 39 ([parse_one] for [parseOne],
    [parse_loop] for the loop of [FlagSet.Parse], the structural
    [parse_args] equal to it, and [flag_parse] with [ExitOnError]), and the usage text that
    [init] installs (lines 31-36) through [flag.PrintDefaults]. *)

From S2P Require Import Prelude.

Record Flags := mkFlags {
  flagRootDir : string;    (** [-dir] *)
  flagHttpAddr : string;   (** [-http] *)
  flagHttpsMode : bool;    (** [-https-mode] *)
  flagCertFile : string;   (** [-https-cert-file] *)
  flagKeyFile : string;    (** [-https-key-file] *)
  flagUserName : string;   (** [-user] *)
  flagPassword : string;   (** [-password] *)
  flagReadonly : bool      (** [-read-only] *)
}.

(** The defaults of the [flag.String] / [flag.Bool] declarations. *)
Definition default_flags : Flags := {|
  flagRootDir := "./data/";
  flagHttpAddr := ":8061";
  flagHttpsMode := false;
  flagCertFile := "cert.pem";
  flagKeyFile := "key.pem";
  flagUserName := "";
  flagPassword := "";
  flagReadonly := false
|}.

(** Line 46: [*flagUserName != "" && *flagPassword != ""]. *)
Definition auth_enabled (f : Flags) : bool :=
  negb (flagUserName f ==s "") && negb (flagPassword f ==s "").

(** The same configuration with [-read-only] set to [b]. *)
Definition set_readonly (b : bool) (f : Flags) : Flags :=
  mkFlags (flagRootDir f) (flagHttpAddr f) (flagHttpsMode f) (flagCertFile f) (flagKeyFile f)
          (flagUserName f) (flagPassword f) b.

(** Lines 81-85: what the process listens with. *)
Inductive Listener :=
  | ListenTLS (addr cert key : string)
  | ListenPlain (addr : string).

Definition listener (f : Flags) : Listener :=
  if flagHttpsMode f then ListenTLS (flagHttpAddr f) (flagCertFile f) (flagKeyFile f)
  else ListenPlain (flagHttpAddr f).

(** ** The [flag] package: declarations, [flag.Parse], [flag.Usage] *)

Inductive FlagKind := FString | FBool.

(** One [flag.String] / [flag.Bool] declaration: name, kind, default
    value as [Flag.DefValue] holds it, usage text. *)
Record FlagDecl := mkDecl {
  fd_name : string;
  fd_kind : FlagKind;
  fd_default : string;
  fd_usage : string
}.

(** Lines 20-29, in declaration order. *)
Definition flag_decls : list FlagDecl := [
  mkDecl "dir" FString "./data/" "webdav root dir";
  mkDecl "http" FString ":8061" "http or https address";
  mkDecl "https-mode" FBool "false" "use https mode";
  mkDecl "https-cert-file" FString "cert.pem" "https cert file";
  mkDecl "https-key-file" FString "key.pem" "https key file";
  mkDecl "user" FString "" "user name";
  mkDecl "password" FString "" "user password";
  mkDecl "read-only" FBool "false" "read only"].

Definition lookup_decl (name : string) : option FlagDecl :=
  List.find (fun d => fd_name d ==s name) flag_decls.

(** [Value.Set] of the string flags and of the boolean flags. *)
Definition set_string (f : Flags) (name v : string) : Flags :=
  let '(mkFlags d h m c k u p r) := f in
  if name ==s "dir" then mkFlags v h m c k u p r
  else if name ==s "http" then mkFlags d v m c k u p r
  else if name ==s "https-cert-file" then mkFlags d h m v k u p r
  else if name ==s "https-key-file" then mkFlags d h m c v u p r
  else if name ==s "user" then mkFlags d h m c k v p r
  else if name ==s "password" then mkFlags d h m c k u v r
  else f.

Definition set_bool (f : Flags) (name : string) (b : bool) : Flags :=
  let '(mkFlags d h m c k u p r) := f in
  if name ==s "https-mode" then mkFlags d h b c k u p r
  else if name ==s "read-only" then mkFlags d h m c k u p b
  else f.

(** [strconv.ParseBool]. *)
Definition parse_bool (s : string) : option bool :=
  if str_mem s ["1"; "t"; "T"; "TRUE"; "true"; "True"] then Some true
  else if str_mem s ["0"; "f"; "F"; "FALSE"; "false"; "False"] then Some false
  else None.

(** [%q] of [fmt] ([strconv.Quote]) on bytes: printable ASCII as is,
    the quote and the backslash escaped, the C escapes, [\x] and two
    lower-case hex digits for the other bytes. *)
Definition bslash : string := String "092" EmptyString.

Definition lowerhex (n : nat) : ascii := default "0"%char (String.get n "0123456789abcdef").

Definition quote_byte (c : ascii) : string :=
  let n := nat_of_ascii c in
  if Ascii.eqb c "034" then bslash +s dq
  else if Ascii.eqb c "092" then bslash +s bslash
  else if (32 <=? n) && (n <? 127) then String c EmptyString
  else if n =? 7 then bslash +s "a" else if n =? 8 then bslash +s "b"
  else if n =? 12 then bslash +s "f" else if n =? 10 then bslash +s "n"
  else if n =? 13 then bslash +s "r" else if n =? 9 then bslash +s "t"
  else if n =? 11 then bslash +s "v"
  else bslash +s String "x" (String (lowerhex (n / 16)) (String (lowerhex (n mod 16)) EmptyString)).

Fixpoint quote_body (s : string) : string :=
  match s with EmptyString => EmptyString | String c s' => quote_byte c +s quote_body s' end.

Definition go_quote (s : string) : string := dq +s quote_body s +s dq.

(** The outcome of [flag.Parse] on the command line. *)
Inductive ParseOutcome :=
  | Parsed (f : Flags) (rest : list string)
  | ParseHelp
  | ParseFailed (msg : string).

(** The loop of [parseOne] that splits [name=value] at the first [=]
    after the first byte. *)
Fixpoint split_eq (r : string) : string * option string :=
  match r with
  | EmptyString => (EmptyString, None)
  | String c r' =>
      if Ascii.eqb c "=" then (EmptyString, Some r')
      else let '(a, v) := split_eq r' in (String c a, v)
  end.

Definition split_value (name : string) : string * option string :=
  match name with
  | EmptyString => (EmptyString, None)
  | String c r => let '(a, v) := split_eq r in (String c a, v)
  end.

Definition starts_dash_or_eq (s : string) : bool :=
  match s with String c _ => Ascii.eqb c "-" || Ascii.eqb c "=" | EmptyString => false end.

(** [FlagSet.Parse] of [flag.CommandLine]: [parseOne] until the first
    argument that is not a flag or after [--]; a boolean flag takes a
    value only as [-name=value], a string flag takes [-name=value] or
    the next argument, whatever it is. *)
Fixpoint parse_args (f : Flags) (args : list string) : ParseOutcome :=
  match args with
  | [] => Parsed f []
  | s :: rest =>
      match s with
      | String c0 s1 =>
          let body :=
            match s1 with
            | EmptyString => None
            | String c1 s2 =>
                if Ascii.eqb c1 "-" then (if s2 ==s "" then Some None else Some (Some s2))
                else Some (Some s1)
            end in
          match (if Ascii.eqb c0 "-" then body else None) with
          | None => Parsed f args
          | Some None => Parsed f rest
          | Some (Some nm) =>
              if (nm ==s "") || starts_dash_or_eq nm then ParseFailed ("bad flag syntax: " +s s)
              else
                let '(name, hv) := split_value nm in
                match lookup_decl name with
                | None =>
                    if (name ==s "help") || (name ==s "h") then ParseHelp
                    else ParseFailed ("flag provided but not defined: -" +s name)
                | Some d =>
                    match fd_kind d with
                    | FBool =>
                        match hv with
                        | None => parse_args (set_bool f name true) rest
                        | Some v =>
                            match parse_bool v with
                            | Some b => parse_args (set_bool f name b) rest
                            | None => ParseFailed ("invalid boolean value " +s go_quote v +s " for -" +s name
                                                   +s ": parse error")
                            end
                        end
                    | FString =>
                        match hv with
                        | Some v => parse_args (set_string f name v) rest
                        | None =>
                            match rest with
                            | v :: rest' => parse_args (set_string f name v) rest'
                            | [] => ParseFailed ("flag needs an argument: -" +s name)
                            end
                        end
                    end
                end
          end
      | EmptyString => Parsed f args
      end
  end.

(** The error [parseOne] returns: [ErrHelp] after [-help] or [-h], or
    the message [failf] printed. *)
Inductive ParseErr := ErrHelp | ErrFailf (msg : string).

(** The three results of [parseOne], with the [f.args] it leaves:
    [(true, nil)] after setting a flag, [(false, nil)] at the end of the
    flags and [(false, err)]. *)
Inductive OneResult :=
  | OneSeen (f : Flags) (args : list string)
  | OneDone (args : list string)
  | OneErr (e : ParseErr).

(** [FlagSet.parseOne]: one flag read from the front of [f.args]. *)
Definition parse_one (f : Flags) (args : list string) : OneResult :=
  match args with
  | [] => OneDone []
  | s :: rest =>
      match s with
      | String c0 (String c1 s2) =>
          if negb (Ascii.eqb c0 "-") then OneDone args
          else if Ascii.eqb c1 "-" && (s2 ==s "") then OneDone rest
          else
            let nm := if Ascii.eqb c1 "-" then s2 else String c1 s2 in
            if (nm ==s "") || starts_dash_or_eq nm then OneErr (ErrFailf ("bad flag syntax: " +s s))
            else
              let '(name, hv) := split_value nm in
              match lookup_decl name with
              | None =>
                  if (name ==s "help") || (name ==s "h") then OneErr ErrHelp
                  else OneErr (ErrFailf ("flag provided but not defined: -" +s name))
              | Some d =>
                  match fd_kind d with
                  | FBool =>
                      match hv with
                      | None => OneSeen (set_bool f name true) rest
                      | Some v =>
                          match parse_bool v with
                          | Some b => OneSeen (set_bool f name b) rest
                          | None => OneErr (ErrFailf ("invalid boolean value " +s go_quote v +s " for -" +s name
                                                      +s ": parse error"))
                          end
                      end
                  | FString =>
                      match hv, rest with
                      | Some v, _ => OneSeen (set_string f name v) rest
                      | None, v :: rest' => OneSeen (set_string f name v) rest'
                      | None, [] => OneErr (ErrFailf ("flag needs an argument: -" +s name))
                      end
                  end
              end
      | _ => OneDone args
      end
  end.

(** The [for] loop of [FlagSet.Parse]: [parseOne] again while it reports
    a flag seen, with at most [fuel] calls ([None] when they run out). *)
Fixpoint parse_loop (fuel : nat) (f : Flags) (args : list string) : option ParseOutcome :=
  match fuel with
  | O => None
  | S n =>
      match parse_one f args with
      | OneSeen f' args' => parse_loop n f' args'
      | OneDone args' => Some (Parsed f args')
      | OneErr ErrHelp => Some ParseHelp
      | OneErr (ErrFailf msg) => Some (ParseFailed msg)
      end
  end.

(** [flag.PrintDefaults]: one entry per flag, in the order of the names. *)
Fixpoint insert_decl (d : FlagDecl) (l : list FlagDecl) : list FlagDecl :=
  match l with
  | [] => [d]
  | d' :: l' => if String.ltb (fd_name d) (fd_name d') then d :: l else d' :: insert_decl d l'
  end.

Definition sort_decls (l : list FlagDecl) : list FlagDecl := foldr insert_decl [] l.

Definition tab : string := String "009" EmptyString.
Definition nl : string := String "010" EmptyString.

Fixpoint replace_nl (s : string) : string :=
  match s with
  | EmptyString => EmptyString
  | String c s' => (if Ascii.eqb c "010" then nl +s "    " +s tab else String c EmptyString) +s replace_nl s'
  end.

Definition print_default (d : FlagDecl) : string :=
  let head := "  -" +s fd_name d +s (match fd_kind d with FString => " string" | FBool => "" end) in
  head +s (if String.length head <=? 4 then tab else nl +s "    " +s tab) +s replace_nl (fd_usage d)
  +s (match fd_kind d with
      | FString => if fd_default d ==s "" then "" else " (default " +s go_quote (fd_default d) +s ")"
      | FBool => if fd_default d ==s "false" then "" else " (default " +s fd_default d +s ")"
      end)
  +s nl.

(** The [flag.Usage] that [init] installs (lines 31-36). *)
Definition usage_text : string :=
  "Usage of WebDAV Server" +s nl +s concat_str (map print_default (sort_decls flag_decls)).

(** Line 39: [flag.Parse] with [ExitOnError]: the server runs with the
    parsed flags, or the process exits, 0 after [-help], 2 after an
    error, with what it wrote to standard error. *)
Inductive Startup := Run (f : Flags) (positional : list string) | Exit (code : nat) (stderr : string).

Definition flag_parse (args : list string) : Startup :=
  match parse_args default_flags args with
  | Parsed f rest => Run f rest
  | ParseHelp => Exit 0 usage_text
  | ParseFailed msg => Exit 2 (msg +s nl +s usage_text)
  end.

(** An argument [parseOne] reads as a flag: a dash and at least one more byte. *)
Definition is_flag_arg (a : string) : bool :=
  match a with String c (String _ _) => Ascii.eqb c "-" | _ => false end.

Definition has_eq (s : string) : bool := existsb (Ascii.eqb "=") (list_ascii_of_string s).

(** A command line that sets every flag with [-name=value]. *)
Definition bool_text (b : bool) : string := if b then "true" else "false".

Definition render_args (f : Flags) : list string :=
  ["-dir=" +s flagRootDir f; "-http=" +s flagHttpAddr f; "-https-mode=" +s bool_text (flagHttpsMode f);
   "-https-cert-file=" +s flagCertFile f; "-https-key-file=" +s flagKeyFile f;
   "-user=" +s flagUserName f; "-password=" +s flagPassword f; "-read-only=" +s bool_text (flagReadonly f)].

(** ** Facts about the configuration *)

Lemma auth_enabled_iff (f : Flags) :
  auth_enabled f = true <-> flagUserName f <> "" /\ flagPassword f <> "".
Proof.
  unfold auth_enabled. rewrite andb_true_iff, !negb_true_iff, !streqb_false. done.
Qed.

Lemma auth_disabled_iff (f : Flags) :
  auth_enabled f = false <-> flagUserName f = "" \/ flagPassword f = "".
Proof.
  unfold auth_enabled. rewrite andb_false_iff, !negb_false_iff, !streqb_true. done.
Qed.

#[export] Hint Resolve <- auth_enabled_iff : webdav.

(** ** [flag.Parse] *)

Lemma set_bool_readonly (f : Flags) (b : bool) : set_bool f "read-only" b = set_readonly b f.
Proof. by destruct f. Qed.

Lemma split_eq_none (r : string) : has_eq r = false -> split_eq r = (r, None).
Proof.
  unfold has_eq. induction r as [|c r IH]; [done|]. cbn [split_eq existsb list_ascii_of_string]. intros H.
  apply orb_false_iff in H as [Hc Hr]. rewrite Ascii.eqb_sym, Hc, IH by done. done.
Qed.

Lemma split_value_none (name : string) : has_eq name = false -> split_value name = (name, None).
Proof.
  destruct name as [|c r]; [done|]. unfold has_eq. cbn [split_value existsb list_ascii_of_string].
  intros [_ Hr]%orb_false_iff. by rewrite split_eq_none.
Qed.

(** [parse_args] takes one [parseOne] step and goes on as the loop does. *)
Lemma parse_args_unfold (f : Flags) (args : list string) :
  parse_args f args =
  match parse_one f args with
  | OneSeen f' args' => parse_args f' args'
  | OneDone args' => Parsed f args'
  | OneErr ErrHelp => ParseHelp
  | OneErr (ErrFailf msg) => ParseFailed msg
  end.
Proof.
  destruct args as [|s rest]; [done|]. destruct s as [|c0 [|c1 s2]]; [done|cbn; by destruct (Ascii.eqb c0 "-")|].
  cbn [parse_args parse_one]. destruct (Ascii.eqb c0 "-"); [|done]. cbn [negb].
  destruct (Ascii.eqb c1 "-"); cbv beta iota zeta; destruct (s2 ==s "") eqn:Hs2; cbv beta iota zeta delta [andb].
  all: rewrite ?Hs2; cbv beta iota zeta delta [orb]; try reflexivity.
  all: match goal with |- context [if ?b then ParseFailed _ else _] => destruct b; [reflexivity|] end.
  all: match goal with |- context [split_value ?nm] => destruct (split_value nm) as [name hv] end.
  all: destruct (lookup_decl name) as [d|]; [|destruct (name ==s "help"), (name ==s "h"); reflexivity].
  all: destruct (fd_kind d), hv as [v|]; try destruct (parse_bool v); try destruct rest; reflexivity.
Qed.

(** Each flag [parseOne] reads consumes at least one argument. *)
Lemma parse_one_seen_shrinks (f f' : Flags) (args args' : list string) :
  parse_one f args = OneSeen f' args' -> List.length args' < List.length args.
Proof.
  unfold parse_one. destruct args as [|s rest]; [done|]. destruct s as [|c0 [|c1 s2]]; [done|done|].
  repeat (case_match; try done); intros Heq; simplify_eq; cbn; lia.
Qed.

(** C29: the [for] loop of [FlagSet.Parse] terminates: with one more
    call of [parseOne] than there are arguments it always stops, and with
    the outcome of the structural [parse_args]. *)
Theorem parse_loop_total (fuel : nat) (f : Flags) (args : list string) :
  List.length args < fuel -> parse_loop fuel f args = Some (parse_args f args).
Proof.
  revert f args. induction fuel as [|n IH]; intros f args Hlen; [lia|].
  cbn [parse_loop]. rewrite parse_args_unfold.
  destruct (parse_one f args) as [f' args'|args'|[|msg]] eqn:Hone; try done.
  apply IH. apply parse_one_seen_shrinks in Hone. lia.
Qed.

(** [flag.Parse] reads back every configuration from the command line
    that sets each flag as [-name=value]. *)
Lemma flag_parse_render (f : Flags) : flag_parse (render_args f) = Run f [].
Proof. destruct f as [d h m c k u p r]. by destruct m, r. Qed.

(** C35: a boolean flag never takes the next argument as its value:
    [-read-only] followed by a non-flag argument such as [false] sets
    read-only mode and ends the parsing, so every flag after it is
    ignored. *)
Theorem parse_bool_flag_then_positional (f : Flags) (a : string) (rest : list string) :
  is_flag_arg a = false ->
  parse_args f ("-read-only" :: a :: rest) = Parsed (set_readonly true f) (a :: rest).
Proof.
  intros Ha.
  change (parse_args f ("-read-only" :: a :: rest)) with (parse_args (set_bool f "read-only" true) (a :: rest)).
  rewrite set_bool_readonly. destruct a as [|c0 [|c1 s2]]; cbn; [done | by destruct (Ascii.eqb c0 "-") |].
  cbn in Ha. by rewrite Ha.
Qed.

(** C36: an undeclared flag stops the server before it starts: exit
    status 2, the error and the usage text of [init] on standard error. *)
Theorem flag_parse_undefined (name : string) (rest : list string) :
  name <> "" -> starts_dash_or_eq name = false -> has_eq name = false -> lookup_decl name = None ->
  (name ==s "help") = false -> (name ==s "h") = false ->
  flag_parse (("-" +s name) :: rest) =
  Exit 2 ("flag provided but not defined: -" +s name +s nl +s usage_text).
Proof.
  intros Hne Hd He Hl Hh1 Hh2. unfold flag_parse. rewrite string_app_cons, string_app_nil_l.
  cbn -[lookup_decl split_value starts_dash_or_eq String.eqb].
  destruct name as [|c1 s2]; [done|].
  assert (Hc1 : Ascii.eqb c1 "-" = false).
  { cbn in Hd. by apply orb_false_iff in Hd as [-> _]. }
  rewrite Hc1. cbn -[lookup_decl split_value starts_dash_or_eq String.eqb].
  rewrite Hd, split_value_none, Hl, Hh1, Hh2 by done. done.
Qed.

(** ** Witnesses *)

(** [-read-only false -user alice -password pw]: read-only mode is on and
    the credentials are never read, so authentication is off. *)
Lemma parse_bool_flag_then_positional_witness :
  is_flag_arg "false" = false /\
  parse_args default_flags ["-read-only"; "false"; "-user"; "alice"; "-password"; "pw"] =
    Parsed (set_readonly true default_flags) ["false"; "-user"; "alice"; "-password"; "pw"] /\
  auth_enabled (set_readonly true default_flags) = false.
Proof.
  split; [reflexivity|]. split; [|reflexivity].
  apply (parse_bool_flag_then_positional default_flags "false" ["-user"; "alice"; "-password"; "pw"]).
  reflexivity.
Defined.

Lemma flag_parse_undefined_witness :
  flag_parse ["-x"; "-user=alice"] = Exit 2 ("flag provided but not defined: -x" +s nl +s usage_text).
Proof. apply (flag_parse_undefined "x" ["-user=alice"]); first [done | reflexivity]. Defined.

Lemma parse_loop_total_witness :
  List.length ["-dir"; "/srv"; "-read-only"; "x"] < 5 /\
  parse_loop 5 default_flags ["-dir"; "/srv"; "-read-only"; "x"] =
    Some (Parsed (set_readonly true (set_string default_flags "dir" "/srv")) ["x"]).
Proof.
  split; [cbn; lia|]. rewrite (parse_loop_total 5 default_flags ["-dir"; "/srv"; "-read-only"; "x"]) by (cbn; lia).
  reflexivity.
Defined.
