(* ===== verification/Banner.v ===== *)
(** * The start-up banner (lines 71-79)

    [main] prints the address the server answers on: it parses
    ["http://" + *flagHttpAddr] with [url.Parse], replaces an empty host
    name by [127.0.0.1] (keeping the port), and prints the URL back with
    [URL.String]; when parsing fails the raw string is printed.

    This file models the [net/url] functions of that path (Go 1.21) for
    the one shape of input the program gives them, ["http://" + addr]:
    the scheme is always [http], so the scheme scanner, the opaque-URL
    branch and the [OmitHost] case of [url.parse] are not reachable and
    are left out.  Everything [addr] can contain is handled: control
    bytes, a fragment, a query ([ForceQuery] included), a path, user
    information, bracketed IPv6 hosts with zones, percent-escapes and
    their validation per encoding mode, and the re-escaping of
    [URL.String]. *)

From S2P Require Import Prelude.

(** ** Bytes *)

Definition code (c : ascii) : nat := nat_of_ascii c.

Definition is_alnum (c : ascii) : bool :=
  let n := code c in
  (48 <=? n) && (n <=? 57) || (65 <=? n) && (n <=? 90) || (97 <=? n) && (n <=? 122).

Definition is_digit (c : ascii) : bool := (48 <=? code c) && (code c <=? 57).

Definition char_in (c : ascii) (cs : list ascii) : bool := existsb (Ascii.eqb c) cs.

(** [stringContainsCTLByte]: a byte below 0x20 or 0x7f. *)
Definition is_ctl (c : ascii) : bool := (code c <? 32) || (code c =? 127).

Fixpoint has_ctl (s : string) : bool :=
  match s with
  | EmptyString => false
  | String c s' => is_ctl c || has_ctl s'
  end.

Fixpoint all_chars (f : ascii -> bool) (s : string) : bool :=
  match s with
  | EmptyString => true
  | String c s' => f c && all_chars f s'
  end.

Definition all_digits (s : string) : bool := all_chars is_digit s.

(** ** Splitting strings *)

(** [strings.Cut(s, c)] for a one-byte separator: the part before the
    first [c] and the part after it, or [None]. *)
Fixpoint cut_char (c : ascii) (s : string) : option (string * string) :=
  match s with
  | EmptyString => None
  | String x s' =>
      if Ascii.eqb x c then Some (EmptyString, s')
      else match cut_char c s' with
           | Some (a, b) => Some (String x a, b)
           | None => None
           end
  end.

(** The split at the last [c] ([strings.LastIndex]). *)
Fixpoint cut_last (c : ascii) (s : string) : option (string * string) :=
  match s with
  | EmptyString => None
  | String x s' =>
      match cut_last c s' with
      | Some (a, b) => Some (String x a, b)
      | None => if Ascii.eqb x c then Some (EmptyString, s') else None
      end
  end.

(** [strings.Index(s, "%25")]: the part before the first [%25] and the
    rest from it on. *)
Fixpoint cut_pct25 (s : string) : option (string * string) :=
  match s with
  | EmptyString => None
  | String x s' =>
      if Ascii.eqb x "%" && String.prefix "25" s' then Some (EmptyString, s)
      else match cut_pct25 s' with
           | Some (a, b) => Some (String x a, b)
           | None => None
           end
  end.

Fixpoint count_char (c : ascii) (s : string) : nat :=
  match s with
  | EmptyString => 0
  | String x s' => (if Ascii.eqb x c then 1 else 0) + count_char c s'
  end.

Definition last_char (s : string) : option ascii := String.get (String.length s - 1) s.

Definition drop_last (s : string) : string := String.substring 0 (String.length s - 1) s.

(** ** Escaping ([shouldEscape], [escape], [unescape], [validEncoded]) *)

Inductive encoding := encodePath | encodeHost | encodeZone | encodeUserPassword | encodeFragment.

Definition host_sub_delims : list ascii :=
  ["!"; "$"; "&"; "'"; "("; ")"; "*"; "+"; ","; ";"; "="; ":"; "["; "]"; "<"; ">"; "034"]%char.

Definition reserved : list ascii := ["$"; "&"; "+"; ","; "/"; ":"; ";"; "="; "?"; "@"]%char.

Definition shouldEscape (c : ascii) (mode : encoding) : bool :=
  if is_alnum c then false
  else if match mode with encodeHost | encodeZone => char_in c host_sub_delims | _ => false end then false
  else if char_in c ["-"; "_"; "."; "~"]%char then false
  else if char_in c reserved then
    match mode with
    | encodePath => Ascii.eqb c "?"
    | encodeUserPassword => char_in c ["@"; "/"; "?"; ":"]%char
    | encodeFragment => false
    | encodeHost | encodeZone => true
    end
  else match mode with
       | encodeFragment => negb (char_in c ["!"; "("; ")"; "*"]%char)
       | _ => true
       end.

Definition is_hex (c : ascii) : bool :=
  is_digit c || (97 <=? code c) && (code c <=? 102) || (65 <=? code c) && (code c <=? 70).

Definition unhex (c : ascii) : nat :=
  let n := code c in
  if is_digit c then n - 48 else if (97 <=? n) && (n <=? 102) then n - 87 else n - 55.

Definition is_host_mode (mode : encoding) : bool :=
  match mode with encodeHost | encodeZone => true | _ => false end.

(** The checking pass of [unescape]: every [%] starts two hex digits,
    with the extra rules of host and zone mode, and host and zone mode
    refuse any ASCII byte [shouldEscape] rejects. *)
Fixpoint unescape_ok (mode : encoding) (s : string) : bool :=
  match s with
  | EmptyString => true
  | String c s' =>
      if Ascii.eqb c "%" then
        match s' with
        | String h1 (String h2 r) =>
            let is25 := Ascii.eqb h1 "2" && Ascii.eqb h2 "5" in
            let v := unhex h1 * 16 + unhex h2 in
            is_hex h1 && is_hex h2
            && negb (match mode with encodeHost => (unhex h1 <? 8) && negb is25 | _ => false end)
            && negb (match mode with
                     | encodeZone => negb is25 && negb (v =? 32) && shouldEscape (ascii_of_nat v) encodeHost
                     | _ => false end)
            && unescape_ok mode r
        | _ => false
        end
      else negb (is_host_mode mode && (code c <? 128) && shouldEscape c mode) && unescape_ok mode s'
  end.

(** The decoding pass ([+] stays [+] outside query components). *)
Fixpoint unescape_dec (s : string) : string :=
  match s with
  | EmptyString => EmptyString
  | String c s' =>
      if Ascii.eqb c "%" then
        match s' with
        | String h1 (String h2 r) => String (ascii_of_nat (unhex h1 * 16 + unhex h2)) (unescape_dec r)
        | _ => String c (unescape_dec s')
        end
      else String c (unescape_dec s')
  end.

Definition unescape (s : string) (mode : encoding) : option string :=
  if unescape_ok mode s then Some (unescape_dec s) else None.

Definition upperhex (n : nat) : ascii := default "0"%char (String.get n "0123456789ABCDEF").

Fixpoint escape (s : string) (mode : encoding) : string :=
  match s with
  | EmptyString => EmptyString
  | String c s' =>
      if shouldEscape c mode
      then String "%" (String (upperhex (code c / 16)) (String (upperhex (code c mod 16)) (escape s' mode)))
      else String c (escape s' mode)
  end.

Fixpoint validEncoded (s : string) (mode : encoding) : bool :=
  match s with
  | EmptyString => true
  | String c s' =>
      (char_in c ["!"; "$"; "&"; "'"; "("; ")"; "*"; "+"; ","; ";"; "="; ":"; "@"; "["; "]"; "%"]%char
       || negb (shouldEscape c mode)) && validEncoded s' mode
  end.

(** ** Hosts and authorities *)

(** [validOptionalPort]: empty, or a colon followed by digits. *)
Definition validOptionalPort (port : string) : bool :=
  match port with
  | EmptyString => true
  | String ":" p => all_digits p
  | _ => false
  end.

Definition starts_with (c : ascii) (s : string) : bool :=
  match s with String x _ => Ascii.eqb x c | EmptyString => false end.

(** [parseHost]: a bracketed IPv6 literal with an optional port and an
    optional zone, each part unescaped in its own mode, or a host whose
    part after the last colon is a valid port, unescaped in host mode. *)
Definition parseHost (host : string) : option string :=
  if starts_with "[" host then
    match cut_last "]" host with
    | None => None
    | Some (inner, colonPort) =>
        if negb (validOptionalPort colonPort) then None
        else match cut_pct25 inner with
             | Some (h, zone) =>
                 match unescape h encodeHost, unescape zone encodeZone,
                       unescape (String "]" colonPort) encodeHost with
                 | Some h1, Some h2, Some h3 => Some (h1 +s h2 +s h3)
                 | _, _, _ => None
                 end
             | None => unescape host encodeHost
             end
    end
  else match cut_last ":" host with
       | Some (_, port) => if validOptionalPort (String ":" port) then unescape host encodeHost else None
       | None => unescape host encodeHost
       end.

(** [validUserinfo], byte by byte (a multi-byte rune is refused either way). *)
Fixpoint validUserinfo (s : string) : bool :=
  match s with
  | EmptyString => true
  | String c s' =>
      (is_alnum c || char_in c ["-"; "."; "_"; ":"; "~"; "!"; "$"; "&"; "'"; "("; ")"; "*"; "+"; ","; ";"; "="; "%"; "@"]%char)
      && validUserinfo s'
  end.

(** A [*url.Userinfo]: user name and, when set, password. *)
Definition Userinfo := (string * option string)%type.

(** [parseAuthority]: user information before the last [@], then the host. *)
Definition parseAuthority (authority : string) : option (option Userinfo * string) :=
  match cut_last "@" authority with
  | None => h ← parseHost authority; Some (None, h)
  | Some (userinfo, hostpart) =>
      h ← parseHost hostpart;
      if negb (validUserinfo userinfo) then None
      else match cut_char ":" userinfo with
           | None => u ← unescape userinfo encodeUserPassword; Some (Some (u, None), h)
           | Some (un, pw) =>
               u ← unescape un encodeUserPassword;
               p ← unescape pw encodeUserPassword;
               Some (Some (u, Some p), h)
           end
  end.

(** ** URLs *)

(** The fields of [url.URL] that [url.Parse] sets on ["http://" + addr]
    (the scheme is always [http]). *)
Record URL := mkURL {
  u_user : option Userinfo;
  u_host : string;
  u_path : string;
  u_rawpath : string;
  u_forcequery : bool;
  u_rawquery : string;
  u_fragment : string;
  u_rawfragment : string
}.

Definition set_host (u : URL) (h : string) : URL :=
  mkURL (u_user u) h (u_path u) (u_rawpath u) (u_forcequery u) (u_rawquery u) (u_fragment u) (u_rawfragment u).

(** [setPath] and [setFragment]: the decoded value, and the raw text
    when it is not what escaping the decoded value gives back. *)
Definition set_escaped (raw : string) (mode : encoding) : option (string * string) :=
  v ← unescape raw mode;
  Some (v, if String.eqb (escape v mode) raw then EmptyString else raw).

(** [url.Parse("http://" + addr)]: cut the fragment, refuse control
    bytes before it, cut the query (a lone trailing [?] forces an empty
    one), cut the authority at the first [/], parse it, set path and
    fragment. *)
Definition parse_http (addr : string) : option URL :=
  let '(u, frag) := default (addr, EmptyString) (cut_char "#" addr) in
  if has_ctl u then None
  else
    let '(rest, fq, q) :=
      if (match last_char u with Some "?"%char => true | _ => false end) && (count_char "?" u =? 1)
      then (drop_last u, true, EmptyString)
      else let '(r, q) := default (u, EmptyString) (cut_char "?" u) in (r, false, q) in
    let '(authority, path) :=
      match cut_char "/" rest with Some (a, p) => (a, String "/" p) | None => (rest, EmptyString) end in
    '(user, host) ← parseAuthority authority;
    '(p, rawp) ← set_escaped path encodePath;
    '(f, rawf) ← (if String.eqb frag EmptyString then Some (EmptyString, EmptyString)
                  else set_escaped frag encodeFragment);
    Some (mkURL user host p rawp fq q f rawf).

(** [splitHostPort], behind [URL.Hostname] and [URL.Port]. *)
Definition splitHostPort (hostPort : string) : string * string :=
  let '(host, port) :=
    match cut_last ":" hostPort with
    | Some (h, p) => if validOptionalPort (String ":" p) then (h, p) else (hostPort, EmptyString)
    | None => (hostPort, EmptyString)
    end in
  if starts_with "[" host && (match last_char host with Some "]"%char => true | _ => false end)
  then (String.substring 1 (String.length host - 2) host, port)
  else (host, port).

Definition Hostname (u : URL) : string := fst (splitHostPort (u_host u)).
Definition Port (u : URL) : string := snd (splitHostPort (u_host u)).

(** [EscapedPath] and [EscapedFragment] print the raw text when it is a
    valid encoding of the decoded value, else they escape the value. *)
Definition raw_ok (raw v : string) (mode : encoding) : bool :=
  negb (String.eqb raw EmptyString) && validEncoded raw mode
  && (match unescape raw mode with Some v' => String.eqb v' v | None => false end).

Definition EscapedPath (u : URL) : string :=
  if raw_ok (u_rawpath u) (u_path u) encodePath then u_rawpath u
  else if String.eqb (u_path u) "*" then "*" else escape (u_path u) encodePath.

Definition EscapedFragment (u : URL) : string :=
  if raw_ok (u_rawfragment u) (u_fragment u) encodeFragment then u_rawfragment u
  else escape (u_fragment u) encodeFragment.

Definition userinfo_string (ui : Userinfo) : string :=
  escape (fst ui) encodeUserPassword
  +s match snd ui with Some p => String ":" (escape p encodeUserPassword) | None => EmptyString end.

(** [URL.String] on an [http] URL. *)
Definition url_string (u : URL) : string :=
  "http:"
  +s (if negb (String.eqb (u_host u) EmptyString) || negb (String.eqb (u_path u) EmptyString)
         || bool_decide (u_user u <> None) then "//" else EmptyString)
  +s (match u_user u with Some ui => userinfo_string ui +s "@" | None => EmptyString end)
  +s escape (u_host u) encodeHost
  +s (if negb (String.eqb (u_path u) EmptyString) && negb (starts_with "/" (u_path u))
         && negb (String.eqb (u_host u) EmptyString) then "/" else EmptyString)
  +s EscapedPath u
  +s (if u_forcequery u || negb (String.eqb (u_rawquery u) EmptyString)
      then String "?" (u_rawquery u) else EmptyString)
  +s (if negb (String.eqb (u_fragment u) EmptyString)
      then String "#" (EscapedFragment u) else EmptyString).

(** ** The banner of [main] (lines 71-79) *)

Definition banner_domain (addr : string) : string :=
  match parse_http addr with
  | None => "http://" +s addr
  | Some u =>
      let u' := if String.eqb (Hostname u) EmptyString then set_host u ("127.0.0.1:" +s Port u) else u in
      url_string u'
  end.

Definition banner_line (addr : string) : string :=
  "Start of WebDAV Server to " +s banner_domain addr +s String " " (String "010" EmptyString).

(** ** Character classes used by the theorems *)

(** A host-name byte as people write them: letter, digit, [.], [-], [_], [~]. *)
Definition host_char (c : ascii) : bool := is_alnum c || char_in c ["."; "-"; "_"; "~"]%char.

(** A byte of an IPv6 literal: a hex digit, [:] or [.]. *)
Definition v6_char (c : ascii) : bool := is_hex c || char_in c [":"; "."]%char.

(** A byte [url.Parse] passes through to the authority: no control
    byte, no fragment, query, path or user-information separator. *)
Definition addr_ok (c : ascii) : bool := negb (is_ctl c) && negb (char_in c ["#"; "?"; "/"; "@"]%char).

(** A byte host-mode unescaping accepts as itself and escaping keeps. *)
Definition host_ok (c : ascii) : bool := negb (Ascii.eqb c "%") && negb (shouldEscape c encodeHost).

(** Both, and not a bracket: a byte of a host name or port. *)
Definition plain_ok (c : ascii) : bool := addr_ok c && host_ok c && negb (char_in c ["["; "]"]%char).

Definition no_char (c : ascii) (s : string) : bool := all_chars (fun x => negb (Ascii.eqb x c)) s.

Definition all_ascii : list ascii := map ascii_of_nat (seq 0 256).

(** ** Lemmas *)

Create HintDb banner.
#[export] Hint Opaque is_alnum is_digit host_char v6_char addr_ok host_ok plain_ok shouldEscape : banner.

(** Facts about every byte are checked by evaluation on the 256 of them. *)
Lemma ascii_forall (P : ascii -> bool) : forallb P all_ascii = true -> forall c, P c = true.
Proof.
  intros H c. rewrite forallb_forall in H. apply H.
  rewrite <- (ascii_nat_embedding c). apply in_map, in_seq.
  pose proof (nat_ascii_bounded c). lia.
Qed.

Lemma implb_true (a b : bool) : implb a b = true -> a = true -> b = true.
Proof. by destruct a, b. Qed.

Ltac by_bytes :=
  match goal with c : ascii |- _ => apply implb_true; revert c; apply ascii_forall; by vm_compute end.

Lemma host_char_plain c : host_char c = true -> plain_ok c = true.
Proof. by_bytes. Qed.

Lemma digit_host_char c : is_digit c = true -> host_char c = true.
Proof. by_bytes. Qed.

Lemma all_chars_app f a b : all_chars f (a +s b) = all_chars f a && all_chars f b.
Proof. induction a as [|x a IH]; [done|]. rewrite string_app_cons. cbn. by rewrite IH, andb_assoc. Qed.

Lemma all_chars_impl (f g : ascii -> bool) s :
  (forall c, f c = true -> g c = true) -> all_chars f s = true -> all_chars g s = true.
Proof. intros Hfg. induction s as [|x s IH]; cbn; [done|]. rewrite !andb_true_iff. intuition. Qed.

Lemma no_char_of (f : ascii -> bool) c s : f c = false -> all_chars f s = true -> no_char c s = true.
Proof.
  intros Hc. apply all_chars_impl. intros x Hx.
  destruct (Ascii.eqb_spec x c); subst; [congruence | done].
Qed.

Lemma cut_char_none c s : no_char c s = true -> cut_char c s = None.
Proof.
  induction s as [|x s IH]; cbn; [done|]. rewrite andb_true_iff, negb_true_iff.
  intros [-> H]. by rewrite IH.
Qed.

Lemma cut_last_none c s : no_char c s = true -> cut_last c s = None.
Proof.
  induction s as [|x s IH]; cbn; [done|]. rewrite andb_true_iff, negb_true_iff.
  intros [-> H]. by rewrite IH.
Qed.

Lemma count_char_none c s : no_char c s = true -> count_char c s = 0.
Proof.
  induction s as [|x s IH]; cbn; [done|]. rewrite andb_true_iff, negb_true_iff.
  intros [-> H]. by rewrite IH.
Qed.

Lemma cut_last_app c a b : no_char c b = true -> cut_last c (a +s String c b) = Some (a, b).
Proof.
  intros Hb. induction a as [|x a IH].
  - rewrite string_app_nil_l. cbn. by rewrite cut_last_none, Ascii.eqb_refl.
  - rewrite string_app_cons. cbn. by rewrite IH.
Qed.

Lemma has_ctl_addr s : all_chars addr_ok s = true -> has_ctl s = false.
Proof.
  induction s as [|x s IH]; cbn [has_ctl all_chars]; [done|]. unfold addr_ok.
  rewrite !andb_true_iff, !negb_true_iff. intros [[-> _] H]. by rewrite IH.
Qed.

Lemma escape_id m (f : ascii -> bool) s :
  (forall c, f c = true -> shouldEscape c m = false) -> all_chars f s = true -> escape s m = s.
Proof.
  intros Hf. induction s as [|x s IH]; cbn; [done|]. rewrite andb_true_iff.
  intros [Hx Hs]. by rewrite Hf, IH.
Qed.

Lemma unescape_dec_id s : no_char "%" s = true -> unescape_dec s = s.
Proof.
  induction s as [|x s IH]; cbn; [done|]. rewrite andb_true_iff, negb_true_iff.
  intros [-> H]. by rewrite IH.
Qed.

Lemma cut_pct25_none s : no_char "%" s = true -> cut_pct25 s = None.
Proof.
  induction s as [|x s IH]; cbn; [done|]. rewrite andb_true_iff, negb_true_iff.
  intros [-> H]. by rewrite IH.
Qed.

Lemma host_ok_escape c : host_ok c = true -> shouldEscape c encodeHost = false.
Proof. unfold host_ok. rewrite andb_true_iff, !negb_true_iff. tauto. Qed.

Lemma host_ok_pct c : host_ok c = true -> negb (Ascii.eqb c "%") = true.
Proof. unfold host_ok. rewrite andb_true_iff. tauto. Qed.

Lemma unescape_host s : all_chars host_ok s = true -> unescape s encodeHost = Some s.
Proof.
  intros H. unfold unescape. rewrite unescape_dec_id by (eapply all_chars_impl; [exact host_ok_pct | done]).
  enough (unescape_ok encodeHost s = true) as -> by done.
  induction s as [|x s IH]; cbn in *; [done|].
  apply andb_true_iff in H as [Hx H]. pose proof (host_ok_pct x Hx) as Hp. apply negb_true_iff in Hp.
  rewrite Hp, host_ok_escape by done. rewrite andb_false_r. by apply IH.
Qed.

Lemma plain_addr c : plain_ok c = true -> addr_ok c = true.
Proof. unfold plain_ok. rewrite !andb_true_iff. tauto. Qed.

Lemma plain_host c : plain_ok c = true -> host_ok c = true.
Proof. unfold plain_ok. rewrite !andb_true_iff. tauto. Qed.

Lemma v6_addr c : v6_char c = true -> addr_ok c = true.
Proof. by_bytes. Qed.

Lemma v6_host c : v6_char c = true -> host_ok c = true.
Proof. by_bytes. Qed.

Lemma alnum_host_char c : is_alnum c = true -> host_char c = true.
Proof. unfold host_char. by intros ->. Qed.

#[export] Hint Resolve host_char_plain digit_host_char alnum_host_char plain_addr plain_host
  v6_addr v6_host host_ok_escape : banner.

Ltac no_char_of_class f := apply (no_char_of f); [reflexivity | assumption].

(** Lift a byte-class inclusion to strings. *)
Ltac lift_class :=
  match goal with
  | H : all_chars ?f ?s = true |- all_chars ?g ?s = true => apply (all_chars_impl f g s); [solve [eauto with banner] | exact H]
  end.

Lemma starts_with_plain s : all_chars plain_ok s = true -> starts_with "[" s = false.
Proof. destruct s as [|x s]; cbn; [done|]. rewrite andb_true_iff. intros [Hx _]. by destruct (Ascii.eqb_spec x "["); subst. Qed.

(** On an address without separators [url.Parse] keeps it all as the
    authority, and the authority without [@] is all host. *)
Lemma parse_http_authority addr :
  all_chars addr_ok addr = true ->
  parse_http addr = (h ← parseHost addr; Some (mkURL None h "" "" false "" "" "")).
Proof.
  intros Ha. unfold parse_http.
  rewrite (cut_char_none "#") by no_char_of_class addr_ok. cbn [default].
  rewrite has_ctl_addr, (count_char_none "?") by (done || no_char_of_class addr_ok).
  rewrite andb_false_r, (cut_char_none "?") by no_char_of_class addr_ok. cbn [default].
  rewrite (cut_char_none "/") by no_char_of_class addr_ok.
  unfold parseAuthority. rewrite (cut_last_none "@") by no_char_of_class addr_ok.
  by destruct (parseHost addr).
Qed.

(** [parseHost] on plain bytes: accepted exactly when the part after the
    last colon, if any, is a port of digits. *)
Lemma parseHost_plain h :
  all_chars plain_ok h = true ->
  parseHost h = if match cut_last ":" h with Some (_, p) => all_digits p | None => true end
                then Some h else None.
Proof.
  intros Hh. unfold parseHost. rewrite starts_with_plain by done.
  rewrite unescape_host by lift_class.
  by destruct (cut_last ":" h) as [[? ?]|].
Qed.

Lemma splitHostPort_plain h p :
  all_chars plain_ok h = true -> all_digits p = true ->
  splitHostPort (h +s String ":" p) = (h, p).
Proof.
  intros Hh Hp. unfold splitHostPort.
  rewrite cut_last_app by (apply (no_char_of is_digit); done). cbn [validOptionalPort].
  by rewrite Hp, starts_with_plain.
Qed.

(** [URL.String] of a URL that is only a non-empty host. *)
Lemma url_string_host h :
  all_chars host_ok h = true -> h <> EmptyString ->
  url_string (mkURL None h "" "" false "" "" "") = "http://" +s h.
Proof.
  intros Hh Hne. unfold url_string, EscapedPath. cbn [u_host u_path u_user u_rawpath u_forcequery u_rawquery u_fragment].
  rewrite (escape_id _ host_ok), (streqb_ne h) by (done || exact host_ok_escape).
  cbn. by rewrite !string_app_nil_r.
Qed.

Lemma all_digits_host_ok p : all_digits p = true -> all_chars host_ok p = true.
Proof. intros H. unfold all_digits in H. apply (all_chars_impl is_digit); [|done]. eauto with banner. Qed.

(** The port [splitHostPort] returns is always a (possibly empty) string of digits. *)
Lemma splitHostPort_port_digits hp : all_digits (snd (splitHostPort hp)) = true.
Proof.
  unfold splitHostPort.
  destruct (cut_last ":" hp) as [[h p]|]; [destruct (validOptionalPort (String ":" p)) eqn:E|];
    case_match; cbn [snd]; first [exact E | reflexivity].
Qed.

Lemma splitHostPort_empty : splitHostPort EmptyString = (EmptyString, EmptyString).
Proof. reflexivity. Qed.

(** The banner of an address [url.Parse] reads as a host alone. *)
Lemma banner_domain_host addr h :
  parse_http addr = Some (mkURL None h "" "" false "" "" "") -> all_chars host_ok h = true ->
  banner_domain addr = if fst (splitHostPort h) ==s EmptyString
                       then "http://127.0.0.1:" +s snd (splitHostPort h) else "http://" +s h.
Proof.
  intros Hp Hh. unfold banner_domain, Hostname, Port. rewrite Hp. cbn [u_host].
  pose proof (splitHostPort_port_digits h) as Hd.
  destruct (splitHostPort h) as [hn port] eqn:E. cbn [fst snd] in *.
  destruct (hn ==s EmptyString) eqn:Ehn.
  - apply url_string_host; [|by rewrite string_app_cons].
    by rewrite all_chars_app, (all_digits_host_ok port Hd).
  - apply url_string_host; [done|]. intros ->. rewrite splitHostPort_empty in E.
    injection E as <- _. discriminate Ehn.
Qed.

Lemma plain_of_host_chars s : all_chars host_char s = true -> all_chars plain_ok s = true.
Proof. intros H. lift_class. Qed.

Lemma plain_of_digits s : all_digits s = true -> all_chars plain_ok s = true.
Proof. intros H. unfold all_digits in H. apply (all_chars_impl is_digit); [|done]. eauto with banner. Qed.

Lemma plain_host_port h p :
  all_chars host_char h = true -> all_chars plain_ok p = true -> all_chars plain_ok (h +s String ":" p) = true.
Proof. intros Hh Hp. rewrite all_chars_app. cbn [all_chars]. by rewrite plain_of_host_chars, Hp. Qed.

#[export] Hint Resolve plain_of_host_chars plain_of_digits plain_host_port all_digits_host_ok : banner.

Lemma last_char_snoc s c : last_char (s +s String c EmptyString) = Some c.
Proof.
  unfold last_char. rewrite string_length_app. cbn [String.length].
  replace (String.length s + 1 - 1)%nat with (String.length s) by lia.
  induction s as [|x s IH]; [done|]. by rewrite string_app_cons.
Qed.

Lemma substring_prefix s t : String.substring 0 (String.length s) (s +s t) = s.
Proof. induction s as [|x s IH]; [by destruct t|]. rewrite string_app_cons. cbn. by rewrite IH. Qed.

(** [splitHostPort] on a bracketed host with a port strips the brackets. *)
Lemma splitHostPort_bracket ip p :
  no_char ":" p = true -> all_digits p = true ->
  splitHostPort (String "[" (ip +s String "]" EmptyString) +s String ":" p) = (ip, p).
Proof.
  intros Hc Hp. unfold splitHostPort. rewrite cut_last_app by done. cbn [validOptionalPort].
  rewrite Hp. cbn [starts_with]. rewrite <- string_app_cons, last_char_snoc.
  cbn [Ascii.eqb andb Bool.eqb]. f_equal. rewrite string_app_cons. cbn [String.length].
  rewrite string_length_app. cbn [String.length].
  replace (S (String.length ip + 1) - 2)%nat with (String.length ip) by lia.
  apply substring_prefix.
Qed.

(** Escaping a byte gives two hex digits that decode back to it. *)
Lemma escape_byte c :
  is_hex (upperhex (code c / 16)) && is_hex (upperhex (code c mod 16))
  && Ascii.eqb (ascii_of_nat (unhex (upperhex (code c / 16)) * 16 + unhex (upperhex (code c mod 16)))) c = true.
Proof. revert c. apply ascii_forall. by vm_compute. Qed.

Lemma pct_shouldEscape m : shouldEscape "%" m = true.
Proof. by destruct m. Qed.

(** The banner itself. *)

(** C26: for an address [host:port] with a host name of letters, digits,
    [.], [-], [_], [~] (possibly empty) and a port of digits, the banner
    shows [http://host:port], with [127.0.0.1] when the host is empty. *)
Theorem banner_domain_host_port (h p : string) :
  all_chars host_char h = true -> all_digits p = true ->
  banner_domain (h +s String ":" p) =
  "http://" +s (if h ==s EmptyString then "127.0.0.1" else h) +s String ":" p.
Proof.
  intros Hh Hp.
  assert (Hpl : all_chars plain_ok (h +s String ":" p) = true) by eauto with banner.
  assert (Hnc : no_char ":" p = true) by (apply (no_char_of is_digit); done).
  rewrite (banner_domain_host _ (h +s String ":" p)).
  - rewrite splitHostPort_plain by eauto with banner. cbn [fst snd]. by destruct (h ==s EmptyString).
  - rewrite parse_http_authority, parseHost_plain, cut_last_app, Hp by (done || lift_class). done.
  - lift_class.
Qed.

(** C27: when the part after the last colon is not a port of digits
    (a service name such as [:http], say), [url.Parse] fails and the
    banner falls back to the raw ["http://" + addr]. *)
Theorem banner_domain_bad_port (h p : string) :
  all_chars host_char h = true -> all_chars is_alnum p = true -> all_digits p = false ->
  banner_domain (h +s String ":" p) = "http://" +s (h +s String ":" p).
Proof.
  intros Hh Hp Hd.
  assert (Hpl : all_chars plain_ok p = true) by lift_class.
  assert (Ha : all_chars plain_ok (h +s String ":" p) = true) by eauto with banner.
  unfold banner_domain.
  rewrite parse_http_authority, parseHost_plain, cut_last_app, Hd by (done || lift_class || no_char_of_class is_alnum).
  done.
Qed.

Lemma bracket_form ip p :
  String "[" (ip +s String "]" (String ":" p)) = String "[" (ip +s String "]" EmptyString) +s String ":" p.
Proof. by rewrite string_app_cons, string_app_assoc. Qed.

(** C28: for a bracketed IPv6 literal [[ip]:port] (hex digits, colons,
    dots), the banner shows it unchanged, and [127.0.0.1:port] for the
    empty literal [[]]. *)
Theorem banner_domain_ipv6 (ip p : string) :
  all_chars v6_char ip = true -> all_digits p = true ->
  banner_domain (String "[" (ip +s String "]" (String ":" p))) =
  if ip ==s EmptyString then "http://127.0.0.1:" +s p else "http://[" +s ip +s "]:" +s p.
Proof.
  intros Hip Hp.
  assert (Hnc : no_char ":" p = true) by (apply (no_char_of is_digit); done).
  assert (Hho : all_chars host_ok ip = true) by lift_class.
  assert (Had : all_chars addr_ok ip = true) by lift_class.
  rewrite (banner_domain_host _ (String "[" (ip +s String "]" (String ":" p)))).
  - rewrite bracket_form, splitHostPort_bracket by done. cbn [fst snd].
    destruct (ip ==s EmptyString); [done|]. by rewrite (string_app_cons "["), string_app_assoc.
  - rewrite parse_http_authority.
    + unfold parseHost. cbn [starts_with Ascii.eqb Bool.eqb].
      rewrite <- string_app_cons, cut_last_app by exact (no_char_of is_digit "]" p eq_refl Hp).
      cbn [validOptionalPort]. rewrite Hp.
      rewrite cut_pct25_none by (cbn [no_char all_chars]; by apply (no_char_of v6_char)).
      rewrite string_app_cons, unescape_host; [done|].
      cbn [all_chars]. rewrite all_chars_app, Hho. cbn [all_chars]. by rewrite all_digits_host_ok.
    + cbn [all_chars]. rewrite all_chars_app, Had. cbn [all_chars].
      apply (all_chars_impl is_digit); [|done]. eauto with banner.
  - cbn [all_chars]. rewrite all_chars_app, Hho. cbn [all_chars]. by rewrite all_digits_host_ok.
Qed.

(** ** Witnesses *)

(** [-http :0] asks the kernel for a free port, and the banner advertises port 0. *)
Lemma banner_domain_host_port_witness :
  all_chars host_char "" = true /\ all_digits "0" = true /\ banner_domain ":0" = "http://127.0.0.1:0".
Proof. split; [reflexivity | split; [reflexivity | apply (banner_domain_host_port EmptyString "0"); reflexivity]]. Defined.

(** A service name as port ([localhost:http], which [net.Listen] accepts)
    is printed raw. *)
Lemma banner_domain_bad_port_witness :
  all_chars is_alnum "http" = true /\ banner_domain "localhost:http" = "http://localhost:http".
Proof. split; [reflexivity | apply (banner_domain_bad_port "localhost" "http"); reflexivity]. Defined.

Lemma banner_domain_ipv6_witness :
  all_chars v6_char "::1" = true /\ banner_domain "[::1]:8080" = "http://[::1]:8080".
Proof. split; [reflexivity | apply (banner_domain_ipv6 "::1" "8080"); reflexivity]. Defined.

