(* ===== verification/BasicAuth.v ===== *)
(** * HTTP Basic credentials: [req.BasicAuth()] (line 47)

    The handler asks [net/http] for the credentials of the request.  Go
    reads the [Authorization] header, checks the [Basic ] prefix ASCII
    case-insensitively, decodes the rest with [base64.StdEncoding] and
    splits the result at its first colon ([strings.Cut]).  Bytes are
    [ascii] characters and the 6-bit and 24-bit quantities of the decoder
    are [Z] values combined with the same shifts and masks as Go's
    [decodeQuantum].  The encoder ([Encoding.Encode]) is given too, as a
    client would build the header, for the round-trip theorem.  The
    theorems characterise the headers [BasicAuth] accepts, and show that
    the decoded credential fits Go's [DecodedLen] buffer. *)

From S2P Require Import Prelude Http.

Local Open Scope Z_scope.

(** ** Bytes as integers *)

Definition byte_val (c : ascii) : Z := Z.of_N (N_of_ascii c).
Definition byte_of (z : Z) : ascii := ascii_of_N (Z.to_N (Z.land z 255)).

(** ** [ascii.EqualFold] *)

Fixpoint EqualFold (s t : string) : bool :=
  match s, t with
  | EmptyString, EmptyString => true
  | String a s', String b t' => Ascii.eqb (ascii_lower a) (ascii_lower b) && EqualFold s' t'
  | _, _ => false
  end.

(** ** [base64.StdEncoding] *)

(** [decodeMap]: the 6-bit value of an alphabet byte. *)
Definition b64_val (c : ascii) : option Z :=
  let n := byte_val c in
  if (65 <=? n) && (n <=? 90) then Some (n - 65)
  else if (97 <=? n) && (n <=? 122) then Some (n - 71)
  else if (48 <=? n) && (n <=? 57) then Some (n + 4)
  else if n =? 43 then Some 62
  else if n =? 47 then Some 63
  else None.

Definition is_pad (c : ascii) : bool := Ascii.eqb c "=".

(** [decodeQuantum] skips [\r] and [\n] wherever they occur, and they do
    not count towards a quantum; removing them first yields the same
    bytes and the same success. *)
Fixpoint strip_crlf (s : string) : string :=
  match s with
  | EmptyString => EmptyString
  | String c s' =>
      if Ascii.eqb c "010"%char || Ascii.eqb c "013"%char then strip_crlf s'
      else String c (strip_crlf s')
  end.

(** The 24-bit value of four 6-bit digits and its three bytes. *)
Definition quantum_val (a b c d : Z) : Z :=
  Z.lor (Z.lor (Z.lor (Z.shiftl a 18) (Z.shiftl b 12)) (Z.shiftl c 6)) d.

Definition quantum_bytes (v : Z) : ascii * ascii * ascii :=
  (byte_of (Z.shiftr v 16), byte_of (Z.shiftr v 8), byte_of v).

(** One padded or full quantum of four characters, then the rest.  A
    padding byte ends the input: two of them leave one byte, one leaves
    two; anything after the padding, a short final quantum (the standard
    encoding requires padding) or a byte outside the alphabet is an
    error. *)
Fixpoint b64_decode (s : string) : option string :=
  match s with
  | EmptyString => Some EmptyString
  | String a (String b (String c (String d rest))) =>
      match b64_val a, b64_val b with
      | Some va, Some vb =>
          if is_pad c then
            if is_pad d then
              match rest with
              | EmptyString =>
                  let '(x, _, _) := quantum_bytes (quantum_val va vb 0 0) in
                  Some (String x EmptyString)
              | _ => None
              end
            else None
          else
            match b64_val c with
            | None => None
            | Some vc =>
                if is_pad d then
                  match rest with
                  | EmptyString =>
                      let '(x, y, _) := quantum_bytes (quantum_val va vb vc 0) in
                      Some (String x (String y EmptyString))
                  | _ => None
                  end
                else
                  match b64_val d with
                  | None => None
                  | Some vd =>
                      let '(x, y, z) := quantum_bytes (quantum_val va vb vc vd) in
                      match b64_decode rest with
                      | Some out => Some (String x (String y (String z out)))
                      | None => None
                      end
                  end
            end
      | _, _ => None
      end
  | _ => None
  end.

(** [StdEncoding.DecodeString]. *)
Definition DecodeString (s : string) : option string := b64_decode (strip_crlf s).

(** [encodeStd] and [Encoding.Encode] (used by clients). *)
Definition encodeStd : string :=
  "ABCDEFGHIJKLMNOPQRSTUVWXYZabcdefghijklmnopqrstuvwxyz0123456789+/".

Definition b64_char (v : Z) : ascii :=
  match String.get (Z.to_nat (Z.land v 63)) encodeStd with
  | Some c => c
  | None => "A"%char
  end.

Fixpoint b64_encode (s : string) : string :=
  match s with
  | String x (String y (String z rest)) =>
      let v := Z.lor (Z.lor (Z.shiftl (byte_val x) 16) (Z.shiftl (byte_val y) 8)) (byte_val z) in
      String (b64_char (Z.shiftr v 18)) (String (b64_char (Z.shiftr v 12))
        (String (b64_char (Z.shiftr v 6)) (String (b64_char v) (b64_encode rest))))
  | String x (String y EmptyString) =>
      let v := Z.lor (Z.shiftl (byte_val x) 16) (Z.shiftl (byte_val y) 8) in
      String (b64_char (Z.shiftr v 18)) (String (b64_char (Z.shiftr v 12))
        (String (b64_char (Z.shiftr v 6)) "="))
  | String x EmptyString =>
      let v := Z.shiftl (byte_val x) 16 in
      String (b64_char (Z.shiftr v 18)) (String (b64_char (Z.shiftr v 12)) "==")
  | EmptyString => EmptyString
  end.

(** ** [strings.Cut(s, ":")] *)

Fixpoint cut_colon (s : string) : option (string * string) :=
  match s with
  | EmptyString => None
  | String c s' =>
      if Ascii.eqb c ":" then Some (EmptyString, s')
      else match cut_colon s' with
           | Some (before, after) => Some (String c before, after)
           | None => None
           end
  end.

(** ** [parseBasicAuth] and [Request.BasicAuth]

    Go returns [("", "", false)] on failure; here that is [None]. *)

Definition basic_prefix : string := "Basic ".

Definition parseBasicAuth (auth : string) : option (string * string) :=
  if (String.length auth <? String.length basic_prefix)%nat then None
  else if negb (EqualFold (String.substring 0 6 auth) basic_prefix) then None
  else match DecodeString (String.substring 6 (String.length auth - 6) auth) with
       | None => None
       | Some cs => cut_colon cs
       end.

Definition BasicAuth (r : Request) : option (string * string) :=
  let auth := header_get "Authorization" (req_header r) in
  if auth ==s "" then None else parseBasicAuth auth.

(** The header a client sends for [user:password]. *)
Definition basic_header (user password : string) : string :=
  basic_prefix +s b64_encode (user +s ":" +s password).

(** ** Base64 digits and quanta *)

(** The four digits of a 24-bit value, as the encoder extracts them. *)
Definition digit (v k : Z) : Z := Z.land (Z.shiftr v k) 63.

(** The 24-bit value of three bytes. *)
Definition pack3 (x y z : ascii) : Z := byte_val x * 2 ^ 16 + byte_val y * 2 ^ 8 + byte_val z.

Lemma byte_val_bound (c : ascii) : 0 <= byte_val c < 256.
Proof. unfold byte_val. pose proof (N_ascii_bounded c). lia. Qed.

Lemma byte_of_val (c : ascii) : byte_of (byte_val c) = c.
Proof.
  unfold byte_of. rewrite (Z.land_ones _ 8), Z.mod_small by (pose proof (byte_val_bound c); lia).
  unfold byte_val. by rewrite N2Z.id, ascii_N_embedding.
Qed.

(** Every digit the encoder emits decodes back to the six bits it
    encodes: a check of the 64 alphabet bytes. *)
Lemma b64_digits_ok :
  forallb (fun n => match b64_val (b64_char (Z.of_nat n)) with
                    | Some m => m =? Z.of_nat n
                    | None => false
                    end && negb (is_pad (b64_char (Z.of_nat n)))
                        && negb (Ascii.eqb (b64_char (Z.of_nat n)) "010"%char
                                 || Ascii.eqb (b64_char (Z.of_nat n)) "013"%char))
          (seq 0 64) = true.
Proof. vm_compute. reflexivity. Qed.

Lemma b64_char_land (v : Z) : b64_char v = b64_char (Z.land v 63).
Proof. unfold b64_char. by rewrite <- Z.land_assoc. Qed.

Lemma b64_digit (v : Z) :
  b64_val (b64_char v) = Some (Z.land v 63) /\ is_pad (b64_char v) = false /\
  (Ascii.eqb (b64_char v) "010"%char || Ascii.eqb (b64_char v) "013"%char) = false.
Proof.
  pose proof b64_digits_ok as H. rewrite forallb_forall in H.
  assert (Hb : 0 <= Z.land v 63 < 64) by (rewrite (Z.land_ones _ 6) by lia; apply Z.mod_pos_bound; lia).
  specialize (H (Z.to_nat (Z.land v 63)) ltac:(apply in_seq; lia)).
  rewrite Z2Nat.id in H by lia. rewrite b64_char_land.
  destruct (b64_val _); [|done].
  apply andb_true_iff in H as [[Hv Hp]%andb_true_iff Hc].
  apply Z.eqb_eq in Hv. apply negb_true_iff in Hp, Hc. by subst.
Qed.

Lemma quantum_val_eq (a b c d : Z) :
  0 <= b < 64 -> 0 <= c < 64 -> 0 <= d < 64 ->
  quantum_val a b c d = a * 2 ^ 18 + b * 2 ^ 12 + c * 2 ^ 6 + d.
Proof.
  intros. unfold quantum_val. rewrite !Z.shiftl_mul_pow2 by lia.
  change (2 ^ 18) with (2 ^ (6 + 12)). rewrite lor_mul_pow2_shift by lia.
  change (2 ^ 12) with (2 ^ (6 + 6)). rewrite lor_mul_pow2_shift by lia.
  rewrite lor_mul_pow2 by lia. lia.
Qed.

Lemma pack3_eq (x y z : Z) :
  0 <= y < 256 -> 0 <= z < 256 ->
  Z.lor (Z.lor (Z.shiftl x 16) (Z.shiftl y 8)) z = x * 2 ^ 16 + y * 2 ^ 8 + z.
Proof.
  intros. rewrite !Z.shiftl_mul_pow2 by lia.
  change (2 ^ 16) with (2 ^ (8 + 8)). rewrite lor_mul_pow2_shift by lia.
  rewrite lor_mul_pow2 by lia. lia.
Qed.

(** The arithmetic heart of the round trip: splitting 24 bits into four
    digits and packing them again gives the three bytes back. *)
Lemma quantum_roundtrip (x y z : Z) :
  0 <= x < 256 -> 0 <= y < 256 -> 0 <= z < 256 ->
  let v := x * 2 ^ 16 + y * 2 ^ 8 + z in
  let v' := quantum_val (Z.land (Z.shiftr v 18) 63) (Z.land (Z.shiftr v 12) 63)
                        (Z.land (Z.shiftr v 6) 63) (Z.land v 63) in
  Z.land (Z.shiftr v' 16) 255 = x /\ Z.land (Z.shiftr v' 8) 255 = y /\ Z.land v' 255 = z.
Proof.
  intros Hx Hy Hz v v'. subst v'.
  change 63 with (Z.ones 6). change 255 with (Z.ones 8).
  rewrite !Z.land_ones, !Z.shiftr_div_pow2 by lia.
  rewrite quantum_val_eq by (split; [apply Z.mod_pos_bound | apply Z.mod_pos_bound]; lia).
  subst v. simpl.
  split; [|split]; Z.div_mod_to_equations; lia.
Qed.

Lemma ascii_of_byte_val (c : ascii) : ascii_of_N (Z.to_N (byte_val c)) = c.
Proof. unfold byte_val. by rewrite N2Z.id, ascii_N_embedding. Qed.

Lemma quantum_decode_bytes (x y z : ascii) :
  let v := pack3 x y z in
  quantum_bytes (quantum_val (digit v 18) (digit v 12) (digit v 6) (digit v 0)) = (x, y, z).
Proof.
  intros v. unfold digit, v, pack3. rewrite Z.shiftr_0_r.
  destruct (quantum_roundtrip (byte_val x) (byte_val y) (byte_val z)) as (H1 & H2 & H3);
    try apply byte_val_bound.
  unfold quantum_bytes, byte_of. by rewrite H1, H2, H3, !ascii_of_byte_val.
Qed.

Lemma byte_val_zero : byte_val "000"%char = 0.
Proof. reflexivity. Qed.

Lemma digit_low_zero (x y : ascii) : digit (pack3 x y "000"%char) 0 = 0.
Proof.
  unfold digit, pack3. rewrite byte_val_zero, Z.shiftr_0_r. change 63 with (Z.ones 6).
  rewrite Z.land_ones by lia. pose proof (byte_val_bound x). pose proof (byte_val_bound y).
  Z.div_mod_to_equations. lia.
Qed.

Lemma digit_mid_zero (x : ascii) : digit (pack3 x "000"%char "000"%char) 6 = 0.
Proof.
  unfold digit, pack3. rewrite byte_val_zero, Z.shiftr_div_pow2 by lia. change 63 with (Z.ones 6).
  rewrite Z.land_ones by lia. pose proof (byte_val_bound x). Z.div_mod_to_equations. lia.
Qed.

Lemma b64_char_digit (v k : Z) : b64_char (Z.shiftr v k) = b64_char (digit v k).
Proof. apply b64_char_land. Qed.

Ltac b64_digits :=
  repeat match goal with
  | |- context [b64_val (b64_char ?v)] => rewrite (proj1 (b64_digit v))
  | |- context [is_pad (b64_char ?v)] => rewrite (proj1 (proj2 (b64_digit v)))
  end.

(** ** Round trips *)

(** How the decoder consumes one full quantum of alphabet digits. *)
Lemma b64_decode_full (c1 c2 c3 c4 : ascii) (rest : string) (va vb vc vd : Z) :
  b64_val c1 = Some va -> b64_val c2 = Some vb -> b64_val c3 = Some vc -> b64_val c4 = Some vd ->
  is_pad c3 = false -> is_pad c4 = false ->
  b64_decode (String c1 (String c2 (String c3 (String c4 rest)))) =
    let '(x, y, z) := quantum_bytes (quantum_val va vb vc vd) in
    option_map (fun out => String x (String y (String z out))) (b64_decode rest).
Proof.
  intros H1 H2 H3 H4 P3 P4. cbn [b64_decode]. rewrite H1, H2, P3, H3, P4, H4.
  destruct (quantum_bytes _) as [[x y] z]. by destruct (b64_decode rest).
Qed.

Lemma b64_decode_pad1 (c1 c2 c3 : ascii) (va vb vc : Z) :
  b64_val c1 = Some va -> b64_val c2 = Some vb -> b64_val c3 = Some vc -> is_pad c3 = false ->
  b64_decode (String c1 (String c2 (String c3 "="))) =
    let '(x, y, _) := quantum_bytes (quantum_val va vb vc 0) in Some (String x (String y EmptyString)).
Proof.
  intros H1 H2 H3 P3. cbn [b64_decode]. rewrite H1, H2, P3, H3. reflexivity.
Qed.

Lemma b64_decode_pad2 (c1 c2 : ascii) (va vb : Z) :
  b64_val c1 = Some va -> b64_val c2 = Some vb ->
  b64_decode (String c1 (String c2 "==")) =
    let '(x, _, _) := quantum_bytes (quantum_val va vb 0 0) in Some (String x EmptyString).
Proof. intros H1 H2. cbn [b64_decode]. rewrite H1, H2. reflexivity. Qed.

Lemma b64_encode_full (x y z : ascii) (rest : string) :
  b64_encode (String x (String y (String z rest))) =
    let v := pack3 x y z in
    String (b64_char (Z.shiftr v 18)) (String (b64_char (Z.shiftr v 12))
      (String (b64_char (Z.shiftr v 6)) (String (b64_char (Z.shiftr v 0)) (b64_encode rest)))).
Proof.
  cbn [b64_encode]. unfold pack3. rewrite Z.shiftr_0_r, pack3_eq by apply byte_val_bound.
  reflexivity.
Qed.

Lemma b64_encode_two (x y : ascii) :
  b64_encode (String x (String y EmptyString)) =
    let v := pack3 x y "000"%char in
    String (b64_char (Z.shiftr v 18)) (String (b64_char (Z.shiftr v 12))
      (String (b64_char (Z.shiftr v 6)) "=")).
Proof.
  cbn [b64_encode]. unfold pack3. rewrite byte_val_zero, Z.add_0_r.
  rewrite !Z.shiftl_mul_pow2 by lia. change (2 ^ 16) with (2 ^ (8 + 8)).
  rewrite lor_mul_pow2_shift by (lia || apply byte_val_bound). by rewrite Z.mul_add_distr_r, <- Z.mul_assoc.
Qed.

Lemma b64_encode_one (x : ascii) :
  b64_encode (String x EmptyString) =
    let v := pack3 x "000"%char "000"%char in
    String (b64_char (Z.shiftr v 18)) (String (b64_char (Z.shiftr v 12)) "==").
Proof.
  cbn [b64_encode]. unfold pack3. rewrite byte_val_zero, Z.mul_0_l, !Z.add_0_r.
  by rewrite Z.shiftl_mul_pow2 by lia.
Qed.

Lemma b64_decode_encode (s : string) : b64_decode (b64_encode s) = Some s.
Proof.
  induction s as [s IH] using (induction_ltof1 _ String.length). unfold ltof in IH.
  destruct s as [|x [|y [|z rest]]]; [done | | |].
  - rewrite b64_encode_one. cbv zeta.
    rewrite (b64_decode_pad2 _ _ (digit (pack3 x "000" "000") 18) (digit (pack3 x "000" "000") 12))
      by apply b64_digit.
    rewrite <- (digit_mid_zero x) at 1. rewrite <- (digit_low_zero x "000").
    by rewrite quantum_decode_bytes.
  - rewrite b64_encode_two. cbv zeta.
    rewrite (b64_decode_pad1 _ _ _ (digit (pack3 x y "000") 18) (digit (pack3 x y "000") 12)
               (digit (pack3 x y "000") 6)) by apply b64_digit.
    rewrite <- (digit_low_zero x y). by rewrite quantum_decode_bytes.
  - rewrite b64_encode_full. cbv zeta.
    rewrite (b64_decode_full _ _ _ _ _ (digit (pack3 x y z) 18) (digit (pack3 x y z) 12)
               (digit (pack3 x y z) 6) (digit (pack3 x y z) 0)) by apply b64_digit.
    rewrite quantum_decode_bytes, IH; [done | simpl; lia].
Qed.

Lemma strip_crlf_keep (c : ascii) (s : string) :
  (Ascii.eqb c "010"%char || Ascii.eqb c "013"%char) = false ->
  strip_crlf (String c s) = String c (strip_crlf s).
Proof. intros H. cbn [strip_crlf]. by rewrite H. Qed.

Ltac strip_digits :=
  repeat (rewrite strip_crlf_keep; [| apply b64_digit || reflexivity]).

(** The encoder never emits a line break, so [DecodeString] sees its
    output unchanged. *)
Lemma strip_crlf_encode (s : string) : strip_crlf (b64_encode s) = b64_encode s.
Proof.
  induction s as [s IH] using (induction_ltof1 _ String.length). unfold ltof in IH.
  destruct s as [|x [|y [|z rest]]]; [done | | |].
  - rewrite b64_encode_one. cbv zeta. by strip_digits.
  - rewrite b64_encode_two. cbv zeta. by strip_digits.
  - rewrite b64_encode_full. cbv zeta. strip_digits. rewrite IH; [done | simpl; lia].
Qed.

Lemma DecodeString_encode (s : string) : DecodeString (b64_encode s) = Some s.
Proof. unfold DecodeString. by rewrite strip_crlf_encode, b64_decode_encode. Qed.

(** [strings.Cut] splits at the first colon. *)
Lemma cut_colon_app (u p : string) :
  cut_colon u = None -> cut_colon (u +s ":" +s p) = Some (u, p).
Proof.
  induction u as [|c u IH]; intros Hu; [done|].
  rewrite string_app_cons. cbn [cut_colon] in *.
  destruct (Ascii.eqb c ":"); [done|]. destruct (cut_colon u) as [[]|]; [done|].
  rewrite IH; done.
Qed.

Lemma cut_colon_some (s u p : string) :
  cut_colon s = Some (u, p) -> cut_colon u = None /\ s = u +s ":" +s p.
Proof.
  revert u. induction s as [|c s IH]; intros u H; [done|]. cbn [cut_colon] in H.
  destruct (Ascii.eqb c ":") eqn:Ec.
  - injection H as <- <-. apply Ascii.eqb_eq in Ec. by subst.
  - destruct (cut_colon s) as [[b a]|] eqn:E; [|done]. injection H as <- <-.
    destruct (IH b eq_refl) as [Hb ->]. split; [cbn [cut_colon]; by rewrite Ec, Hb | by rewrite string_app_cons].
Qed.

Lemma substring_0_length (s : string) : String.substring 0 (String.length s) s = s.
Proof. induction s as [|c s IH]; [done|]. simpl. by rewrite IH. Qed.

Lemma substring_app_l (pre rest : string) :
  String.substring 0 (String.length pre) (pre +s rest) = pre.
Proof. induction pre as [|c pre IH]; [by destruct rest|]. rewrite string_app_cons. simpl. by rewrite IH. Qed.

Lemma substring_app_r (pre rest : string) :
  String.substring (String.length pre) (String.length (pre +s rest) - String.length pre) (pre +s rest)
  = rest.
Proof.
  rewrite string_length_app, Nat.add_sub_swap, Nat.sub_diag, Nat.add_0_l by lia.
  induction pre as [|c pre IH]; [apply substring_0_length|]. rewrite string_app_cons. exact IH.
Qed.

Lemma substring_split (n : nat) (s : string) :
  (n <= String.length s)%nat ->
  String.substring 0 n s +s String.substring n (String.length s - n) s = s.
Proof.
  revert s. induction n as [|n IH]; intros s Hn.
  - rewrite Nat.sub_0_r. destruct s; [done|]. cbn. rewrite string_app_nil_l. f_equal. apply substring_0_length.
  - destruct s as [|c s]; cbn in Hn; [lia|]. cbn [String.substring String.length].
    rewrite string_app_cons. f_equal. apply IH. lia.
Qed.

Lemma substring_0_length_le (n : nat) (s : string) :
  (n <= String.length s)%nat -> String.length (String.substring 0 n s) = n.
Proof.
  revert s. induction n as [|n IH]; intros [|c s] Hn; cbn in *; [done|done|lia|]. f_equal. apply IH. lia.
Qed.

Lemma parseBasicAuth_prefixed (pre rest : string) :
  String.length pre = 6%nat -> EqualFold pre basic_prefix = true ->
  parseBasicAuth (pre +s rest) =
    match DecodeString rest with None => None | Some cs => cut_colon cs end.
Proof.
  intros Hl Hf. unfold parseBasicAuth.
  replace (String.length basic_prefix) with (String.length pre) by done.
  rewrite string_length_app. destruct (Nat.ltb_spec (String.length pre + String.length rest)
    (String.length pre)); [lia|].
  rewrite <- Hl at 1. rewrite substring_app_l, Hf. simpl negb. cbv iota.
  rewrite <- Hl at 1 2. rewrite <- string_length_app. by rewrite substring_app_r.
Qed.

Lemma basic_header_prefixed (u p : string) :
  parseBasicAuth (basic_header u p) =
    match DecodeString (b64_encode (u +s ":" +s p)) with None => None | Some cs => cut_colon cs end.
Proof. apply parseBasicAuth_prefixed; reflexivity. Qed.

Lemma basic_header_nonempty (u p : string) : (basic_header u p ==s "") = false.
Proof. reflexivity. Qed.

(** ** Properties of [req.BasicAuth()] *)

(** ** Widths and lengths of the decoder *)

Lemma b64_val_range (c : ascii) (v : Z) : b64_val c = Some v -> 0 <= v < 64.
Proof.
  unfold b64_val. pose proof (byte_val_bound c).
  repeat case_match; intros [= <-]; rewrite ?andb_true_iff, ?Z.leb_le, ?Z.eqb_eq in *; lia.
Qed.

Lemma byte_val_of (z : Z) : byte_val (byte_of z) = z mod 256.
Proof.
  unfold byte_val, byte_of. change 255 with (Z.ones 8). rewrite Z.land_ones by lia. change (2 ^ 8) with 256.
  pose proof (Z.mod_pos_bound z 256 ltac:(lia)).
  rewrite N_ascii_embedding; [rewrite Z2N.id; lia|]. change 256%N with (Z.to_N 256).
  apply Z2N.inj_lt; lia.
Qed.

Lemma strip_crlf_length (s : string) : (String.length (strip_crlf s) <= String.length s)%nat.
Proof. induction s as [|c s IH]; simpl; [lia|]. case_match; simpl; lia. Qed.

(** Every accepted input is whole quanta, and each quantum of four
    characters gives at most three bytes. *)
Lemma b64_decode_length (t out : string) :
  b64_decode t = Some out ->
  (4 * String.length out <= 3 * String.length t)%nat /\ (String.length t mod 4 = 0)%nat.
Proof.
  revert out. induction t as [t IH] using (induction_ltof1 _ String.length). unfold ltof in IH.
  intros out. destruct t as [|a [|b [|c [|d rest]]]]; cbn [b64_decode];
    try (intros [= <-]; cbn; split; [lia | reflexivity]); try (intros; discriminate).
  specialize (IH rest ltac:(cbn; lia)).
  repeat case_match; intros Heq; simplify_eq; try (cbn; split; [lia | reflexivity]).
  destruct (IH _ eq_refl) as [Hl4 Hm4].
  cbn [String.length]. split; [lia|].
  replace (S (S (S (S (String.length rest))))) with (String.length rest + 1 * 4)%nat by lia.
  by rewrite Nat.Div0.mod_add.
Qed.

(** C9: a request whose [Authorization] header is the standard Basic
    encoding of [user:password], for a user name without a colon, yields
    exactly that user name and password: Go's base64 decoder inverts the
    encoder and [strings.Cut] splits at the separator the client put in. *)
Theorem BasicAuth_roundtrip (r : Request) (u p : string) :
  cut_colon u = None ->
  header_get "Authorization" (req_header r) = basic_header u p ->
  BasicAuth r = Some (u, p).
Proof.
  intros Hu Hh. unfold BasicAuth. rewrite Hh, basic_header_nonempty, basic_header_prefixed.
  rewrite DecodeString_encode. by apply cut_colon_app.
Qed.

Lemma BasicAuth_roundtrip_witness :
  cut_colon "alice" = None /\
  BasicAuth (mkRequest "GET" "/" (header_set "Authorization" (basic_header "alice" "s3cret:x") ∅) "")
  = Some ("alice", "s3cret:x").
Proof.
  split; [reflexivity|]. apply BasicAuth_roundtrip; [reflexivity | apply header_get_set].
Defined.

(** C10: whatever the header, the user name [BasicAuth] reports never
    contains a colon.  So a server started with a [-user] that contains a
    colon can never authenticate anybody. *)
Theorem BasicAuth_user_no_colon (r : Request) (u p : string) :
  BasicAuth r = Some (u, p) -> cut_colon u = None.
Proof.
  unfold BasicAuth, parseBasicAuth. intros H.
  repeat (case_match; try discriminate). by apply cut_colon_some in H as [? _].
Qed.

Lemma BasicAuth_user_no_colon_witness :
  BasicAuth (mkRequest "GET" "/" (header_set "Authorization" (basic_header "bob" "pw") ∅) "")
    = Some ("bob", "pw") /\ cut_colon "bob" = None.
Proof.
  assert (H : BasicAuth (mkRequest "GET" "/" (header_set "Authorization" (basic_header "bob" "pw") ∅) "")
            = Some ("bob", "pw")) by (vm_compute; reflexivity).
  split; [exact H | exact (BasicAuth_user_no_colon _ _ _ H)].
Defined.

(** C23: [req.BasicAuth] reports [(u, p)] exactly when the
    [Authorization] header is six bytes equal to [Basic ] up to ASCII
    case, followed by a payload that Go's [StdEncoding] decodes to
    [u:p] with no colon in [u]. *)
Theorem BasicAuth_iff (r : Request) (u p : string) :
  BasicAuth r = Some (u, p) <->
  exists pre payload,
    header_get "Authorization" (req_header r) = pre +s payload /\
    String.length pre = 6%nat /\ EqualFold pre basic_prefix = true /\
    DecodeString payload = Some (u +s ":" +s p) /\ cut_colon u = None.
Proof.
  unfold BasicAuth. set (auth := header_get "Authorization" (req_header r)). split.
  - unfold parseBasicAuth. intros H.
    destruct (auth ==s "") eqn:He; [done|].
    destruct (Nat.ltb_spec (String.length auth) (String.length basic_prefix)); [done|].
    destruct (EqualFold (String.substring 0 6 auth) basic_prefix) eqn:Hf; [|done]. cbn [negb] in H.
    destruct (DecodeString _) as [cs|] eqn:Hd; [|done].
    apply cut_colon_some in H as [Hu ->].
    exists (String.substring 0 6 auth), (String.substring 6 (String.length auth - 6) auth).
    split; [symmetry; apply substring_split; cbn in *; lia|].
    split; [apply substring_0_length_le; cbn in *; lia|]. done.
  - intros (pre & payload & Ha & Hl & Hf & Hd & Hu). rewrite Ha.
    assert (Hne : (pre +s payload ==s "") = false).
    { destruct pre; [done|]. reflexivity. }
    rewrite Hne, parseBasicAuth_prefixed, Hd by done. by apply cut_colon_app.
Qed.

(** C25: the credentials [DecodeString] returns always fit the buffer Go
    allocates for them, [DecodedLen(len(s)) = len(s) / 4 * 3] bytes, and
    an accepted input (line breaks removed) is made of whole quanta. *)
Theorem DecodeString_fits_buffer (s out : string) :
  DecodeString s = Some out ->
  (String.length out <= String.length s / 4 * 3)%nat /\ (String.length (strip_crlf s) mod 4 = 0)%nat.
Proof.
  unfold DecodeString. intros (H1 & H2)%b64_decode_length. split; [|done].
  pose proof (strip_crlf_length s). set (n := String.length (strip_crlf s)) in *.
  pose proof (Nat.div_mod_eq n 4). pose proof (Nat.Div0.div_le_mono n (String.length s) 4 ltac:(lia)). lia.
Qed.

Lemma DecodeString_fits_buffer_witness :
  (String.length "alice:pw" <= String.length "YWxpY2U6cHc=" / 4 * 3)%nat /\
  (String.length (strip_crlf "YWxpY2U6cHc=") mod 4 = 0)%nat.
Proof. apply DecodeString_fits_buffer. vm_compute. reflexivity. Defined.
