(* ===== verification/DirList.v ===== *)
(** * The directory listing: [handleDirList] (lines 89-115)

    [handleDirList] reads the engine's file system through Go's
    [webdav.FileSystem] interface: [OpenFile] (an error or a [File]),
    [File.Stat] (a [FileInfo], [nil] on error) and [File.Readdir(-1)]
    (all entries, or an error).  The class [WebdavFS] states that
    interface; the listing is proved against it, and [Vfs] provides the
    engine's instance.  The result is the boolean the Go function returns
    and the writer after its writes. *)

From S2P Require Import Prelude Http.

(** [os.FileInfo], reduced to what the listing reads. *)
Record FileInfo := mkFileInfo {
  fi_name : string;   (** [Name()] *)
  fi_is_dir : bool    (** [IsDir()] *)
}.

(** An opened [webdav.File]: the results of its [Stat] and [Readdir(-1)]
    calls; [None] is a non-nil [error] (with a [nil] [FileInfo] for
    [Stat]). *)
Record File := mkFile {
  f_stat : option FileInfo;
  f_readdir : option (list FileInfo)
}.

(** Go's [webdav.FileSystem], as far as [handleDirList] uses it:
    [OpenFile(ctx, name, os.O_RDONLY, 0)]. *)
Class WebdavFS (S : Type) := {
  OpenFile : S -> string -> option File
}.

(** Lines 107-110: a directory's name gets a trailing slash. *)
Definition entry_name (d : FileInfo) : string :=
  if fi_is_dir d then fi_name d +s "/" else fi_name d.

(** Line 111: [fmt.Fprintf(w, "<a href=\"%s\">%s</a>\n", name, name)]. *)
Definition entry_line (d : FileInfo) : string :=
  "<a href=" +s dq +s entry_name d +s dq +s ">" +s entry_name d +s "</a>" +s nl.

(** Lines 104-113: the header and the writes of a successful listing. *)
Definition write_listing (dirs : list FileInfo) (w : Writer) : Writer :=
  let w := w_set_header "Content-Type" "text/html; charset=utf-8" w in
  let w := write ("<pre>" +s nl) w in
  let w := fold_left (fun w d => write (entry_line d) w) dirs w in
  write ("</pre>" +s nl) w.

(** Lines 89-115.  A failed [OpenFile], a [Stat] that reports a
    non-directory, and a failed [Readdir] (whose [log.Print] goes to the
    process log, not to [w]) all return [false] with the writer
    untouched; a [Stat] error does not stop the listing. *)
Definition handleDirList {St : Type} `{WebdavFS St} (s : St) (w : Writer) (req : Request) : bool * Writer :=
  match OpenFile s (req_path req) with
  | None => (false, w)
  | Some f =>
      let listing :=
        match f_readdir f with
        | None => (false, w)
        | Some dirs => (true, write_listing dirs w)
        end in
      match f_stat f with
      | Some fi => if negb (fi_is_dir fi) then (false, w) else listing
      | None => listing
      end
  end.

(** The body of a listing, as one string. *)
Definition listing_body (dirs : list FileInfo) : string :=
  "<pre>" +s nl +s concat_str (map entry_line dirs) +s "</pre>" +s nl.

(** A path segment: no slash in it. *)
Fixpoint slash_free (s : string) : bool :=
  match s with
  | EmptyString => true
  | String c s' => negb (Ascii.eqb c "/") && slash_free s'
  end.

(** The condition of line 96 under which the listing goes on. *)
Definition stat_allows (f : File) : Prop :=
  match f_stat f with Some fi => fi_is_dir fi = true | None => True end.

(** What [handleDirList] would list: the entries of a path that opens,
    is not reported as a non-directory, and can be read. *)
Definition listable {St : Type} `{WebdavFS St} (s : St) (req : Request) : option (list FileInfo) :=
  match OpenFile s (req_path req) with
  | None => None
  | Some f =>
      match f_stat f with
      | Some fi => if fi_is_dir fi then f_readdir f else None
      | None => f_readdir f
      end
  end.

(** ** Lemmas *)

Lemma fold_write (dirs : list FileInfo) (w : Writer) :
  fold_left (fun w d => write (entry_line d) w) dirs w
  = match dirs with [] => w | _ => write (concat_str (map entry_line dirs)) w end.
Proof.
  revert w. induction dirs as [|d dirs IH]; intros w; [done|]. simpl. rewrite IH.
  destruct dirs as [|d' dirs']; simpl; [by rewrite string_app_nil_r | by rewrite write_write].
Qed.

Lemma write_listing_eq (dirs : list FileInfo) (w : Writer) :
  write_listing dirs w
  = write (listing_body dirs) (w_set_header "Content-Type" "text/html; charset=utf-8" w).
Proof.
  unfold write_listing, listing_body. rewrite fold_write.
  destruct dirs as [|d dirs]; simpl; rewrite !write_write; f_equal; by rewrite ?string_app_assoc.
Qed.

(** ** Properties of [handleDirList] *)

(** The listing writes only through [Header.Set] and [Write]. *)
Lemma write_listing_ok (dirs : list FileInfo) (w : Writer) : writer_ok w -> writer_ok (write_listing dirs w).
Proof.
  intros Hw. unfold write_listing. apply write_ok.
  assert (Hf : forall l w0, writer_ok w0 -> writer_ok (fold_left (fun w d => write (entry_line d) w) l w0)).
  { induction l as [|d l IH]; intros w0 H0; simpl; [done|]. by apply IH, write_ok. }
  by apply Hf, write_ok, w_set_header_ok.
Qed.

Section DirListProps.
Context {St : Type} `{WebdavFS St}.

(** When the path opens, [Stat] does not report a non-directory
    and [Readdir] succeeds, [handleDirList] reports [true] and has set
    the HTML content type and written exactly the listing body: one
    anchor line per entry, in [Readdir] order. *)
Lemma handleDirList_lists (s : St) (w : Writer) (req : Request) (f : File) (dirs : list FileInfo) :
  OpenFile s (req_path req) = Some f -> stat_allows f -> f_readdir f = Some dirs ->
  handleDirList s w req
    = (true, write (listing_body dirs) (w_set_header "Content-Type" "text/html; charset=utf-8" w)).
Proof.
  intros Ho Hs Hr. unfold handleDirList, stat_allows in *. rewrite Ho, Hr, write_listing_eq.
  destruct (f_stat f) as [fi|]; [by rewrite Hs | done].
Qed.

(** Exactly one of the two outcomes of the function. *)
Lemma handleDirList_cases (s : St) (w : Writer) (req : Request) :
  (exists f dirs, OpenFile s (req_path req) = Some f /\ stat_allows f /\
     f_readdir f = Some dirs /\ handleDirList s w req = (true, write_listing dirs w)) \/
  (handleDirList s w req = (false, w) /\
     ~ exists f dirs, OpenFile s (req_path req) = Some f /\ stat_allows f /\ f_readdir f = Some dirs).
Proof.
  unfold handleDirList, stat_allows.
  destruct (OpenFile s (req_path req)) as [f|]; [|right; split; [done | naive_solver]].
  destruct (f_readdir f) as [dirs|] eqn:Hr.
  - destruct (f_stat f) as [fi|] eqn:Hs; [destruct (fi_is_dir fi) eqn:Hd|].
    + left. exists f, dirs. by rewrite Hs, Hr.
    + right. split; [done|]. intros (f' & d' & [= <-] & Ha & _). by rewrite Hs, Hd in Ha.
    + left. exists f, dirs. by rewrite Hs, Hr.
  - right. split; [by destruct (f_stat f) as [[? []]|] | naive_solver].
Qed.

(** Whenever [handleDirList] returns [false] it has written
    nothing, so the request reaches the WebDAV engine with a fresh
    writer; and it returns [true] exactly in the case of [handleDirList_lists]. *)
Lemma handleDirList_false_untouched (s : St) (w : Writer) (req : Request) :
  (fst (handleDirList s w req) = false -> snd (handleDirList s w req) = w) /\
  (fst (handleDirList s w req) = true <->
     exists f dirs, OpenFile s (req_path req) = Some f /\ stat_allows f /\ f_readdir f = Some dirs).
Proof.
  destruct (handleDirList_cases s w req) as [(f & dirs & Ho & Hs & Hr & ->) | [-> Hn]];
    simpl; [split; [done | split; [intros _; eauto 10 | done]] | split; [done | split; [done | done]]].
Qed.
Lemma handleDirList_writer_ok (s : St) (w : Writer) (req : Request) :
  writer_ok w -> writer_ok (snd (handleDirList s w req)).
Proof.
  intros Hw. destruct (handleDirList_cases s w req) as [(f & dirs & _ & _ & _ & ->) | [-> _]]; [|done].
  by apply write_listing_ok.
Qed.
Lemma handleDirList_listable (s : St) (w : Writer) (req : Request) :
  handleDirList s w req =
    match listable s req with Some dirs => (true, write_listing dirs w) | None => (false, w) end.
Proof.
  unfold handleDirList, listable. destruct (OpenFile s (req_path req)) as [f|]; [|done].
  by destruct (f_stat f) as [[? []]|], (f_readdir f).
Qed.
End DirListProps.
