(* ===== verification/Handler.v ===== *)
(** * The request handler of [main] (lines 45-69)

    [main] builds a [webdav.Handler] (a file system and a lock system)
    and registers one closure for every path.  The closure is modelled as
    [handler]: the engine's state is threaded explicitly, the response is
    the [Writer] of [Http].  The engine enters only through the class
    [DavServer]: its file system view ([WebdavFS], used by the listing)
    and its [ServeHTTP].  Every theorem of this file holds for any engine;
    [Engine] provides the one of the specification.  The closure's
    contract is the access policy [policy] (refuse, list, forbid or
    delegate) with [realizes], and [handler] refines it. *)

From S2P Require Import Prelude Http Config BasicAuth DirList.

(** The [webdav.Handler] value [fs] of line 40. *)
Class DavServer (St : Type) := {
  dav_fs :: WebdavFS St;
  ServeHTTP : St -> Writer -> Request -> Writer * St
}.

(** Line 63: the verbs refused in read-only mode. *)
Definition readonly_methods : list string :=
  ["PUT"; "DELETE"; "PROPPATCH"; "MKCOL"; "COPY"; "MOVE"].

(** Line 49: the challenge header value. *)
Definition basic_realm : string := "Basic realm=" +s dq +s "Restricted" +s dq.

(** The outcome of lines 46-57: go on, or the response already written. *)
Inductive AuthResult :=
  | AuthOK
  | AuthRefused (w : Writer).

(** Lines 46-57. *)
Definition check_auth (cfg : Flags) (req : Request) (w : Writer) : AuthResult :=
  if auth_enabled cfg then
    match BasicAuth req with
    | None =>
        AuthRefused (write_header StatusUnauthorized (w_set_header "WWW-Authenticate" basic_realm w))
    | Some (username, password) =>
        if negb (username ==s flagUserName cfg) || negb (password ==s flagPassword cfg)
        then AuthRefused (http_error "WebDAV: need authorized!" StatusUnauthorized w)
        else AuthOK
    end
  else AuthOK.

(** Lines 61-67: [Some] response when read-only mode refuses the verb. *)
Definition readonly_guard (cfg : Flags) (req : Request) (w : Writer) : option Writer :=
  if flagReadonly cfg && str_mem (req_method req) readonly_methods
  then Some (http_error "WebDAV: Read Only!!!" StatusForbidden w)
  else None.

Section WithServer.
Context {St : Type} `{DavServer St}.

(** Lines 58-68: the listing for [GET] (the [&&] does not call
    [handleDirList] for other verbs), the read-only guard, the engine. *)
Definition serve_after_auth (cfg : Flags) (s : St) (w : Writer) (req : Request) : Writer * St :=
  let '(listed, w) := if req_method req ==s "GET" then handleDirList s w req else (false, w) in
  if listed then (w, s)
  else match readonly_guard cfg req w with
       | Some w' => (w', s)
       | None => ServeHTTP s w req
       end.

(** Lines 45-69: the closure given to [http.HandleFunc]. *)
Definition handler (cfg : Flags) (s : St) (w : Writer) (req : Request) : Writer * St :=
  match check_auth cfg req w with
  | AuthRefused w' => (w', s)
  | AuthOK => serve_after_auth cfg s w req
  end.

(** A sequence of requests served one after the other, each with a
    fresh writer; the responses in order and the final state. *)
Fixpoint serve_all (cfg : Flags) (s : St) (reqs : list Request) : list Writer * St :=
  match reqs with
  | [] => ([], s)
  | r :: rs =>
      let '(w, s') := handler cfg s empty_writer r in
      let '(ws, s'') := serve_all cfg s' rs in
      (w :: ws, s'')
  end.

(** The states the server can reach from [s0] under configuration
    [cfg]. *)
Inductive reachable (cfg : Flags) (s0 : St) : St -> Prop :=
  | reach_init : reachable cfg s0 s0
  | reach_step s w req :
      reachable cfg s0 s -> reachable cfg s0 (snd (handler cfg s w req)).
(** ** The access policy the closure implements

    The decision of spec 1 and 4.4, without its effects: refuse without
    the configured credentials, list a readable collection on [GET],
    refuse a mutating verb in read-only mode, and otherwise hand the
    request to the engine. *)
Inductive Verdict :=
  | VRefused
  | VListed (dirs : list FileInfo)
  | VForbidden
  | VDelegated.

Definition credentials_ok (cfg : Flags) (req : Request) : bool :=
  negb (auth_enabled cfg) || bool_decide (BasicAuth req = Some (flagUserName cfg, flagPassword cfg)).

Definition policy (cfg : Flags) (s : St) (req : Request) : Verdict :=
  if negb (credentials_ok cfg req) then VRefused
  else match (if req_method req ==s "GET" then listable s req else None) with
       | Some dirs => VListed dirs
       | None => if flagReadonly cfg && bool_decide (req_method req ∈ readonly_methods)
                 then VForbidden else VDelegated
       end.

(** What each verdict means for the response and the state. *)
Definition realizes (v : Verdict) (s : St) (w : Writer) (req : Request) (r : Writer * St) : Prop :=
  match v with
  | VRefused => snd r = s /\ (w_sent w = None -> resp_status (fst r) = StatusUnauthorized)
  | VListed dirs =>
      r = (write (listing_body dirs) (w_set_header "Content-Type" "text/html; charset=utf-8" w), s)
  | VForbidden => r = (http_error "WebDAV: Read Only!!!" StatusForbidden w, s)
  | VDelegated => r = ServeHTTP s w req
  end.
End WithServer.

(** ** Authentication (lines 46-57) *)

Lemma check_auth_ok_iff (cfg : Flags) (req : Request) (w : Writer) :
  check_auth cfg req w = AuthOK <->
  auth_enabled cfg = false \/ BasicAuth req = Some (flagUserName cfg, flagPassword cfg).
Proof.
  unfold check_auth. destruct (auth_enabled cfg); [|naive_solver].
  destruct (BasicAuth req) as [[u p]|]; [|naive_solver].
  destruct (String.eqb_spec u (flagUserName cfg)), (String.eqb_spec p (flagPassword cfg));
    simpl; split; intros Hc; subst; try naive_solver; destruct Hc as [|Hc]; congruence.
Qed.

Lemma check_auth_refused_status (cfg : Flags) (req : Request) (w w' : Writer) :
  w_sent w = None -> check_auth cfg req w = AuthRefused w' -> resp_status w' = StatusUnauthorized.
Proof.
  intros Hn. unfold check_auth.
  destruct (auth_enabled cfg); [|done]. destruct (BasicAuth req) as [[u p]|].
  - case_match; intros [= <-]. by apply http_error_fresh.
  - intros [= <-]. unfold resp_status, write_header, w_set_header. by rewrite Hn.
Qed.

Lemma check_auth_disabled (cfg : Flags) (req : Request) (w : Writer) :
  auth_enabled cfg = false -> check_auth cfg req w = AuthOK.
Proof. unfold check_auth. by intros ->. Qed.

#[export] Hint Resolve check_auth_disabled : webdav.

(** ** The read-only guard (lines 61-67) *)

Lemma readonly_guard_none (cfg : Flags) (req : Request) (w : Writer) :
  readonly_guard cfg req w = None <->
  flagReadonly cfg = false \/ req_method req ∉ readonly_methods.
Proof.
  unfold readonly_guard. rewrite <- str_mem_false.
  destruct (flagReadonly cfg), (str_mem _ _); simpl; naive_solver.
Qed.

Lemma readonly_guard_some (cfg : Flags) (req : Request) (w : Writer) :
  flagReadonly cfg = true -> req_method req ∈ readonly_methods ->
  readonly_guard cfg req w = Some (http_error "WebDAV: Read Only!!!" StatusForbidden w).
Proof. unfold readonly_guard. intros -> Hm%str_mem_spec. by rewrite Hm. Qed.

Lemma readonly_not_get (m : string) : m ∈ readonly_methods -> (m ==s "GET") = false.
Proof. intros Hm. apply streqb_ne. intros ->. unfold readonly_methods in Hm. set_solver. Qed.

(** ** Properties of the handler, for any engine *)

Section HandlerProps.
Context {St : Type} `{DavServer St}.

Lemma handler_refused (cfg : Flags) (s : St) (w w' : Writer) (req : Request) :
  check_auth cfg req w = AuthRefused w' -> handler cfg s w req = (w', s).
Proof. unfold handler. by intros ->. Qed.

Lemma handler_ok (cfg : Flags) (s : St) (w : Writer) (req : Request) :
  check_auth cfg req w = AuthOK -> handler cfg s w req = serve_after_auth cfg s w req.
Proof. unfold handler. by intros ->. Qed.

Lemma serve_after_auth_not_listed (cfg : Flags) (s : St) (w : Writer) (req : Request) :
  (req_method req ==s "GET") = false \/ fst (handleDirList s w req) = false ->
  serve_after_auth cfg s w req =
    match readonly_guard cfg req w with Some w' => (w', s) | None => ServeHTTP s w req end.
Proof.
  unfold serve_after_auth. destruct (req_method req ==s "GET"); intros [Hg | Hl]; try done.
  destruct (handleDirList s w req) as [[] w1] eqn:E; simpl in Hl; [done|].
  pose proof (proj1 (handleDirList_false_untouched s w req)) as Hu.
  rewrite E in Hu. simpl in Hu. by rewrite Hu.
Qed.

(** C1: with both credentials configured, a request that does not
    carry exactly the configured user name and password is answered
    401 (on a fresh writer) and neither the listing nor the engine
    runs: the state is unchanged.  On an untouched writer the answer is
    exactly one of the two refusals of lines 48-55: without credentials,
    the single header [Www-Authenticate: Basic realm="Restricted"] (its
    key in Go's canonical form) and an empty body; with credentials that
    do not match, [http.Error]'s [Content-Type] and
    [X-Content-Type-Options] headers, the body [WebDAV: need authorized!]
    and no challenge header. *)
Theorem handler_requires_credentials (cfg : Flags) (s : St) (w : Writer) (req : Request) :
  auth_enabled cfg = true ->
  BasicAuth req <> Some (flagUserName cfg, flagPassword cfg) ->
  w_sent w = None ->
  let h1 : Header := {[ "Www-Authenticate" := ["Basic realm=" +s dq +s "Restricted" +s dq] ]} in
  let h2 : Header := {[ "Content-Type" := ["text/plain; charset=utf-8"];
                        "X-Content-Type-Options" := ["nosniff"] ]} in
  snd (handler cfg s w req) = s /\ resp_status (fst (handler cfg s w req)) = StatusUnauthorized /\
  (w = empty_writer ->
   fst (handler cfg s w req) =
     match BasicAuth req with
     | None => mkWriter h1 (Some (StatusUnauthorized, h1)) ""
     | Some _ => mkWriter h2 (Some (StatusUnauthorized, h2)) ("WebDAV: need authorized!" +s nl)
     end).
Proof.
  intros He Hb Hn h1 h2. destruct (check_auth cfg req w) as [|w'] eqn:Hc.
  - apply check_auth_ok_iff in Hc as [Hc | Hc]; congruence.
  - rewrite (handler_refused _ _ _ _ _ Hc). split; [done|]. split; [by eapply check_auth_refused_status|].
    intros ->. cbn [fst]. revert Hc. unfold check_auth. rewrite He.
    destruct (BasicAuth req) as [[u p]|]; [|intros [= <-]; vm_compute; reflexivity].
    destruct (String.eqb_spec u (flagUserName cfg)), (String.eqb_spec p (flagPassword cfg));
      [congruence| | |]; intros [= <-]; vm_compute; reflexivity.
Qed.

(** C2: in read-only mode the six verbs of line 63 never reach the
    engine: the state is unchanged, and an authenticated request is
    answered 403 with the body [WebDAV: Read Only!!!]. *)
Theorem handler_readonly_refuses (cfg : Flags) (s : St) (w : Writer) (req : Request) :
  flagReadonly cfg = true -> req_method req ∈ readonly_methods ->
  snd (handler cfg s w req) = s /\
  (check_auth cfg req w = AuthOK -> w_sent w = None ->
     resp_status (fst (handler cfg s w req)) = StatusForbidden /\
     w_body (fst (handler cfg s w req)) = w_body w +s "WebDAV: Read Only!!!" +s nl).
Proof.
  intros Hr Hm.
  assert (Hs : check_auth cfg req w = AuthOK ->
               handler cfg s w req = (http_error "WebDAV: Read Only!!!" StatusForbidden w, s)).
  { intros Hc. rewrite handler_ok, serve_after_auth_not_listed by (auto using readonly_not_get).
    by rewrite readonly_guard_some. }
  destruct (check_auth cfg req w) as [|w'] eqn:Hc.
  - rewrite Hs by done. cbn [fst snd]. split; [done|]. intros _ Hn.
    by destruct (http_error_fresh "WebDAV: Read Only!!!" StatusForbidden w Hn) as (-> & -> & _).
  - rewrite (handler_refused _ _ _ _ _ Hc). split; [done | discriminate].
Qed.

(** An authenticated request that is neither a listed [GET] nor a
    verb refused by read-only mode is exactly the engine's
    [ServeHTTP] on the untouched writer. *)
Lemma handler_serves (cfg : Flags) (s : St) (w : Writer) (req : Request) :
  check_auth cfg req w = AuthOK ->
  (req_method req ==s "GET") = false \/ fst (handleDirList s w req) = false ->
  flagReadonly cfg = false \/ req_method req ∉ readonly_methods ->
  handler cfg s w req = ServeHTTP s w req.
Proof.
  intros Hc Hl Hr. rewrite handler_ok, serve_after_auth_not_listed by done.
  by rewrite (proj2 (readonly_guard_none cfg req w) Hr).
Qed.

(** C8: an authenticated [GET] on a path the engine opens as a
    readable collection is answered by the listing: one anchor line per
    entry of [Readdir], in its order, with the HTML content type, whatever
    the read-only mode, and the state is unchanged. *)
Theorem handler_lists_collections (cfg : Flags) (s : St) (w : Writer) (req : Request)
    (f : File) (dirs : list FileInfo) :
  check_auth cfg req w = AuthOK -> req_method req = "GET" ->
  OpenFile s (req_path req) = Some f -> stat_allows f -> f_readdir f = Some dirs ->
  handler cfg s w req
    = (write (listing_body dirs) (w_set_header "Content-Type" "text/html; charset=utf-8" w), s).
Proof.
  intros Hc Hg Ho Hs Hr. rewrite handler_ok by done. unfold serve_after_auth.
  by rewrite Hg, streqb_refl, (handleDirList_lists s w req f dirs).
Qed.

(** The handler changes the state only by calling the engine on
    an authenticated request whose verb read-only mode lets through;
    otherwise the state is returned as it was. *)
Lemma handler_state_frame (cfg : Flags) (s : St) (w : Writer) (req : Request) :
  snd (handler cfg s w req) = s \/
  (check_auth cfg req w = AuthOK /\
   (flagReadonly cfg = false \/ req_method req ∉ readonly_methods) /\
   handler cfg s w req = ServeHTTP s w req).
Proof.
  destruct (check_auth cfg req w) as [|w'] eqn:Hc; [|left; by rewrite (handler_refused _ _ _ _ _ Hc)].
  rewrite handler_ok by done. unfold serve_after_auth.
  destruct (req_method req ==s "GET") eqn:Hg.
  - destruct (handleDirList s w req) as [[] w1] eqn:E; [by left|].
    pose proof (proj1 (handleDirList_false_untouched s w req)) as Hu.
    rewrite E in Hu. simpl in Hu. rewrite Hu by done.
    destruct (readonly_guard cfg req w) eqn:Hr; [by left|].
    right. split; [done|]. split; [by apply readonly_guard_none in Hr | done].
  - destruct (readonly_guard cfg req w) eqn:Hr; [by left|].
    right. split; [done|]. split; [by apply readonly_guard_none in Hr | done].
Qed.

(** C7: in read-only mode, any property of the state that the engine
    preserves on every verb outside line 63's list holds in every state
    the server reaches, whatever the requests and credentials. *)
Theorem readonly_reachable_invariant (cfg : Flags) (Inv : St -> Prop) (s0 s : St) :
  flagReadonly cfg = true ->
  (forall s w req, Inv s -> req_method req ∉ readonly_methods -> Inv (snd (ServeHTTP s w req))) ->
  Inv s0 -> reachable cfg s0 s -> Inv s.
Proof.
  intros Hro Hpres Hinit Hreach. induction Hreach as [|s w req _ IH]; [done|].
  destruct (handler_state_frame cfg s w req) as [-> | (_ & [Hf | Hm] & ->)]; [done | congruence |].
  by apply Hpres.
Qed.

(** C11: when either credential flag is empty the closure never looks
    at the request's credentials: it behaves as lines 58-68 alone.  In
    particular [-user] without [-password] leaves the server open. *)
Theorem handler_open_without_password (cfg : Flags) (s : St) (w : Writer) (req : Request) :
  flagPassword cfg = "" -> handler cfg s w req = serve_after_auth cfg s w req.
Proof.
  intros Hp. apply handler_ok, check_auth_disabled, auth_disabled_iff. by right.
Qed.
(** C6: read-only mode is invisible to every verb outside line 63's
    list: [GET], [HEAD], [PROPFIND], [LOCK], ... are handled exactly as
    with the flag off. *)
Theorem handler_readonly_transparent (cfg : Flags) (s : St) (w : Writer) (req : Request) :
  req_method req ∉ readonly_methods ->
  handler cfg s w req = handler (set_readonly false cfg) s w req.
Proof.
  intros Hm.
  assert (Hg : forall w', readonly_guard cfg req w' = readonly_guard (set_readonly false cfg) req w').
  { intros w'. unfold readonly_guard. cbn [flagReadonly set_readonly].
    pose proof (proj2 (str_mem_false _ _) Hm) as Hf. rewrite Hf. by destruct (flagReadonly cfg). }
  assert (Hc : check_auth (set_readonly false cfg) req w = check_auth cfg req w) by (by destruct cfg).
  unfold handler. rewrite Hc. destruct (check_auth cfg req w); [|done].
  unfold serve_after_auth.
  destruct (if req_method req ==s "GET" then handleDirList s w req else (false, w)) as [[] w1]; [done|].
  by rewrite Hg.
Qed.
(** C17: when [Readdir] fails on a path that opens (lines 99-102), the
    closure answers nothing itself: [log.Print(w, ...)] only logs, no 500
    is written, and the [GET] is handed to the engine's [ServeHTTP] on
    the untouched writer. *)
Theorem handler_readdir_error_falls_through (cfg : Flags) (s : St) (w : Writer) (req : Request) (f : File) :
  check_auth cfg req w = AuthOK -> req_method req = "GET" ->
  OpenFile s (req_path req) = Some f -> f_readdir f = None ->
  handler cfg s w req = ServeHTTP s w req.
Proof.
  intros Hc Hg Ho Hr. apply handler_serves; [done| |right; rewrite Hg; by apply str_mem_false].
  right. destruct (fst (handleDirList s w req)) eqn:Hl; [|done].
  apply (proj2 (handleDirList_false_untouched s w req)) in Hl as (f' & dirs & Ho' & _ & Hr').
  congruence.
Qed.
(** The closure writes only through [Header.Set], [WriteHeader],
    [Write] and [http.Error], and the engine's writes: headers stay
    canonical when the engine keeps them so. *)
Lemma handler_writer_ok (cfg : Flags) (s : St) (w : Writer) (req : Request) :
  (forall s w req, writer_ok w -> writer_ok (fst (ServeHTTP s w req))) ->
  writer_ok w -> writer_ok (fst (handler cfg s w req)).
Proof.
  intros Hserve Hw.
  assert (Ha : writer_ok (fst (serve_after_auth cfg s w req))).
  { unfold serve_after_auth.
    assert (Hl : writer_ok (snd (if req_method req ==s "GET" then handleDirList s w req else (false, w))))
      by (case_match; [by apply handleDirList_writer_ok | done]).
    destruct (if req_method req ==s "GET" then _ else _) as [[] w1]; simpl in Hl; [done|].
    unfold readonly_guard. case_match; simpl; [|by apply Hserve]. case_match; simplify_eq; eauto with webdav. }
  unfold handler, check_auth. repeat case_match; simplify_eq/=; eauto with webdav.
Qed.
(** C24: the closure refines the access policy: on every request, in
    every state and configuration, its response and new state are the
    ones the policy's verdict prescribes. *)
Theorem handler_refines_policy (cfg : Flags) (s : St) (w : Writer) (req : Request) :
  realizes (policy cfg s req) s w req (handler cfg s w req).
Proof.
  unfold policy, credentials_ok. destruct (check_auth cfg req w) as [|w'] eqn:Hc.
  - pose proof (proj1 (check_auth_ok_iff _ _ _) Hc) as Hok.
    replace (negb (negb (auth_enabled cfg) || _)) with false
      by (destruct Hok as [-> | ->]; [done | by rewrite bool_decide_true, orb_true_r]).
    rewrite handler_ok by done. unfold serve_after_auth, readonly_guard. rewrite str_mem_bool_decide.
    destruct (req_method req ==s "GET"); [rewrite handleDirList_listable; destruct (listable s req)|];
      simpl; [by rewrite write_listing_eq | |]; by case_match.
  - rewrite (handler_refused _ _ _ _ _ Hc).
    replace (negb (negb (auth_enabled cfg) || _)) with true.
    + split; [done|]. intros Hn. by eapply check_auth_refused_status.
    + symmetry. apply negb_true_iff, orb_false_iff. split.
      * apply negb_false_iff. destruct (auth_enabled cfg) eqn:He; [done|].
        by rewrite check_auth_disabled in Hc by done.
      * apply bool_decide_eq_false. intros Hb.
        assert (check_auth cfg req w = AuthOK) by (apply check_auth_ok_iff; by right). congruence.
Qed.
End HandlerProps.
