(* ===== verification/Vfs.v ===== *)
(** * The engine's path resolver and file tree (spec 4.1, modelled from
    the specification)

    The WebDAV engine of [golang.org/x/net/webdav] is not in the
    repository; the specification describes it.  A request path is
    resolved into a list of segments the way [webdav.Dir] does it
    ([slashClean] = [path.Clean] of the rooted path, a NUL byte refused):
    empty and [.] segments vanish and [..] removes the previous segment,
    never going above the root.  The backing tree is a finite map from
    resolved paths to nodes, with the counter that makes entity tags
    fresh.  The instance [vfs_webdav_fs] answers [OpenFile] for the
    listing of [main.go]. *)

From S2P Require Import Prelude Http DirList.

(** ** Paths *)

Abbreviation Path := (list string).

(** [strings.Split(p, "/")]: the segments between slashes, empty ones
    included. *)
Fixpoint split_path (s : string) : list string :=
  match s with
  | EmptyString => [EmptyString]
  | String c s' =>
      if Ascii.eqb c "/" then EmptyString :: split_path s'
      else match split_path s' with
           | [] => [String c EmptyString]
           | seg :: rest => String c seg :: rest
           end
  end.

(** [path.Clean] on a rooted path, segment by segment; [acc] is the
    cleaned prefix, last segment first. *)
Fixpoint clean_rev (acc : list string) (segs : list string) : list string :=
  match segs with
  | [] => acc
  | seg :: rest =>
      if (seg ==s "") || (seg ==s ".") then clean_rev acc rest
      else if seg ==s ".." then clean_rev (tail acc) rest
      else clean_rev (seg :: acc) rest
  end.

Fixpoint has_nul (s : string) : bool :=
  match s with
  | EmptyString => false
  | String c s' => Ascii.eqb c "000"%char || has_nul s'
  end.

(** [Dir.resolve]: [None] is the refusal of a name with a NUL byte. *)
Definition resolve (p : string) : option Path :=
  if has_nul p then None else Some (rev (clean_rev [] (split_path p))).

(** [strings.Join(segs, "/")]. *)
Fixpoint join_segs (segs : list string) : string :=
  match segs with
  | [] => ""
  | [seg] => seg
  | seg :: rest => seg +s "/" +s join_segs rest
  end.

(** The slash-separated form of a resolved path. *)
Definition join_path (segs : Path) : string := "/" +s join_segs segs.

(** A segment a resolved path may contain. *)
Definition seg_ok (seg : string) : bool :=
  negb (seg ==s "") && negb (seg ==s ".") && negb (seg ==s "..") && slash_free seg
  && negb (has_nul seg).

(** ** The tree *)

Inductive Node :=
  | NDir
  | NFile (content : string) (etag : nat).

Record FS := mkFS {
  fs_nodes : gmap Path Node;
  fs_next_etag : nat
}.

(** The error taxonomy of spec section 7. *)
Inductive DavError :=
  | NotFound
  | Conflict
  | Locked
  | PreconditionFailed
  | Forbidden
  | MethodNotAllowed
  | BadRequest.

Definition parent (p : Path) : Path := removelast p.

Definition fs_get (fs : FS) (p : Path) : option Node := fs_nodes fs !! p.

Definition is_dir (fs : FS) (p : Path) : bool :=
  match fs_get fs p with Some NDir => true | _ => false end.

(** [q] with the prefix [p] removed, when [p] is a prefix of [q]. *)
Fixpoint strip_path (p q : Path) : option Path :=
  match p, q with
  | [], _ => Some q
  | a :: p', b :: q' => if a ==s b then strip_path p' q' else None
  | _ :: _, [] => None
  end.

(** The direct children of [p], in the map's order. *)
Definition fs_children (fs : FS) (p : Path) : list (string * Node) :=
  omap (fun '(q, n) =>
          match strip_path p q with Some [name] => Some (name, n) | _ => None end)
       (map_to_list (fs_nodes fs)).

(** MKCOL: the target must be absent and its parent a collection. *)
Definition fs_mkcol (fs : FS) (p : Path) : DavError + FS :=
  match fs_get fs p with
  | Some _ => inl MethodNotAllowed
  | None =>
      if is_dir fs (parent p) then inr (mkFS (<[p := NDir]> (fs_nodes fs)) (fs_next_etag fs))
      else inl Conflict
  end.

(** PUT: not on a collection, the parent must be a collection; the new
    content gets the next entity tag. *)
Definition fs_put (fs : FS) (p : Path) (content : string) : DavError + FS :=
  match fs_get fs p with
  | Some NDir => inl Conflict
  | _ =>
      if is_dir fs (parent p)
      then inr (mkFS (<[p := NFile content (fs_next_etag fs)]> (fs_nodes fs)) (S (fs_next_etag fs)))
      else inl Conflict
  end.

(** DELETE: the resource and, for a collection, everything below it. *)
Definition fs_delete (fs : FS) (p : Path) : DavError + FS :=
  match fs_get fs p with
  | None => inl NotFound
  | Some _ =>
      match p with
      | [] => inl Forbidden
      | _ => inr (mkFS (filter (fun qn => ~ p `prefix_of` qn.1) (fs_nodes fs)) (fs_next_etag fs))
      end
  end.

(** The empty tree: the root collection only. *)
Definition fs_empty : FS := mkFS {[ [] := NDir ]} 0.

(** ** [OpenFile] of the engine's file system *)

Definition last_name (p : Path) : string := default "/" (last p).

Definition node_info (name : string) (n : Node) : FileInfo :=
  mkFileInfo name (match n with NDir => true | NFile _ _ => false end).

(** A collection opens with its entries; [Readdir] on a regular file
    fails, as it does on an [os.File]. *)
Definition vfs_open (fs : FS) (name : string) : option File :=
  match resolve name with
  | None => None
  | Some p =>
      match fs_get fs p with
      | None => None
      | Some NDir =>
          Some (mkFile (Some (node_info (last_name p) NDir))
                       (Some (map (fun '(n, nd) => node_info n nd) (fs_children fs p))))
      | Some nd => Some (mkFile (Some (node_info (last_name p) nd)) None)
      end
  end.

#[export] Instance vfs_webdav_fs : WebdavFS FS := {| OpenFile := vfs_open |}.

(** The root is a collection, every other node sits in a collection,
    and every entity tag in use is below the counter. *)
Definition fs_wf (fs : FS) : Prop :=
  fs_get fs [] = Some NDir /\
  (forall p n, fs_get fs p = Some n -> p <> [] -> is_dir fs (parent p) = true) /\
  (forall p c e, fs_get fs p = Some (NFile c e) -> e < fs_next_etag fs).

(** ** Path resolution *)

Lemma split_path_slash (s : string) : split_path ("/" +s s) = "" :: split_path s.
Proof. reflexivity. Qed.

Lemma split_path_seg (seg r : string) :
  slash_free seg = true -> split_path (seg +s "/" +s r) = seg :: split_path r.
Proof.
  induction seg as [|c seg IH]; [done|]. cbn [slash_free].
  intros [Hc Hs]%andb_true_iff. apply negb_true_iff in Hc.
  rewrite string_app_cons. cbn [split_path]. by rewrite Hc, IH.
Qed.

Lemma split_path_single (seg : string) : slash_free seg = true -> split_path seg = [seg].
Proof.
  induction seg as [|c seg IH]; [done|]. cbn [slash_free].
  intros [Hc Hs]%andb_true_iff. apply negb_true_iff in Hc. cbn [split_path]. by rewrite Hc, IH.
Qed.

Lemma split_path_join (segs : list string) :
  segs <> [] -> Forall (fun seg => slash_free seg = true) segs -> split_path (join_segs segs) = segs.
Proof.
  induction segs as [|a [|b rest] IH]; intros Hne Hf; [done| |].
  - inversion Hf. by apply split_path_single.
  - inversion Hf as [|? ? Ha Hr]. change (join_segs (a :: b :: rest)) with (a +s "/" +s join_segs (b :: rest)).
    rewrite split_path_seg by done. by rewrite IH.
Qed.

Lemma split_path_slash_free (s : string) : Forall (fun seg => slash_free seg = true) (split_path s).
Proof.
  induction s as [|c s IH]; [by repeat constructor|]. cbn [split_path].
  destruct (Ascii.eqb c "/") eqn:Hc; [by constructor|].
  destruct (split_path s) as [|seg rest].
  { constructor; [|constructor]. cbn. by rewrite Hc. }
  inversion IH. constructor; [|done]. cbn [slash_free]. by rewrite Hc.
Qed.

Lemma split_path_no_nul (s : string) :
  has_nul s = false -> Forall (fun seg => has_nul seg = false) (split_path s).
Proof.
  induction s as [|c s IH]; [by repeat constructor|]. cbn [split_path has_nul].
  intros [Hc Hs]%orb_false_iff. specialize (IH Hs).
  destruct (Ascii.eqb c "/"); [by constructor|].
  destruct (split_path s) as [|seg rest].
  { constructor; [|constructor]. cbn. by rewrite Hc. }
  inversion IH. constructor; [|done]. cbn [has_nul]. by rewrite Hc.
Qed.

Lemma clean_rev_ok (acc segs : list string) :
  Forall (fun seg => seg_ok seg = true) acc ->
  Forall (fun seg => slash_free seg = true /\ has_nul seg = false) segs ->
  Forall (fun seg => seg_ok seg = true) (clean_rev acc segs).
Proof.
  revert acc. induction segs as [|seg rest IH]; intros acc Ha Hs; [done|].
  inversion Hs as [|? ? [Hsf Hn] Hr]; subst. cbn [clean_rev].
  destruct ((seg ==s "") || (seg ==s ".")) eqn:E1; [by apply IH|].
  destruct (seg ==s "..") eqn:E2.
  - apply IH; [|done]. destruct acc; [done|]. by inversion Ha.
  - apply IH; [|done]. constructor; [|done]. apply orb_false_iff in E1 as [E1 E1'].
    unfold seg_ok. by rewrite E1, E1', E2, Hsf, Hn.
Qed.

Lemma clean_rev_all_ok (acc segs : list string) :
  Forall (fun seg => seg_ok seg = true) segs -> clean_rev acc segs = rev segs ++ acc.
Proof.
  revert acc. induction segs as [|seg rest IH]; intros acc Hs; [done|].
  inversion Hs as [|? ? Hseg Hr]; subst. unfold seg_ok in Hseg.
  apply andb_true_iff in Hseg as [Hseg _]. apply andb_true_iff in Hseg as [Hseg _].
  apply andb_true_iff in Hseg as [[H1 H2]%andb_true_iff H3].
  apply negb_true_iff in H1, H2, H3. cbn [clean_rev]. rewrite H1, H2, H3. simpl.
  rewrite IH by done. by rewrite <- app_assoc.
Qed.

Lemma has_nul_app (a b : string) : has_nul (a +s b) = has_nul a || has_nul b.
Proof. induction a as [|c a IH]; [done|]. rewrite string_app_cons. cbn. by rewrite IH, orb_assoc. Qed.

Lemma has_nul_join (segs : list string) :
  Forall (fun seg => seg_ok seg = true) segs -> has_nul (join_path segs) = false.
Proof.
  unfold join_path. rewrite has_nul_app. simpl.
  induction segs as [|a [|b rest] IH]; intros Hf; [done| |].
  - inversion Hf as [|? ? Ha _]. unfold seg_ok in Ha. apply andb_true_iff in Ha as [_ Ha].
    by apply negb_true_iff in Ha.
  - inversion Hf as [|? ? Ha Hr]. change (join_segs (a :: b :: rest)) with (a +s "/" +s join_segs (b :: rest)).
    rewrite !has_nul_app, IH by done. unfold seg_ok in Ha. apply andb_true_iff in Ha as [_ Ha].
    apply negb_true_iff in Ha. by rewrite Ha.
Qed.

Lemma seg_ok_slash_free (seg : string) : seg_ok seg = true -> slash_free seg = true.
Proof. unfold seg_ok. intros H. repeat apply andb_true_iff in H as [H ?]. done. Qed.

(** A path of proper names resolves to itself. *)
Lemma resolve_join (segs : Path) :
  Forall (fun seg => seg_ok seg = true) segs -> resolve (join_path segs) = Some segs.
Proof.
  intros Hok. unfold resolve. rewrite has_nul_join by done. f_equal.
  unfold join_path. rewrite split_path_slash. cbn [clean_rev]. simpl.
  destruct segs as [|a rest]; [done|].
  rewrite split_path_join by (done || (eapply Forall_impl; [exact Hok | apply seg_ok_slash_free])).
  by rewrite clean_rev_all_ok, app_nil_r, rev_involutive.
Qed.

(** A resolved path consists of proper names only. *)
Lemma resolve_confined (p : string) (segs : Path) :
  resolve p = Some segs -> Forall (fun seg => seg_ok seg = true) segs.
Proof.
  unfold resolve. destruct (has_nul p) eqn:Hn; [done|]. intros [= <-].
  apply Forall_rev, clean_rev_ok; [done|].
  apply Forall_and; split; [apply split_path_slash_free | by apply split_path_no_nul].
Qed.

(** A resolved path consists of proper names only (no empty, [.]
    or [..] segment, no slash or NUL inside a segment), so no request
    path, however written, names anything outside the root; and
    resolution is idempotent: the printed form of a resolved path
    resolves to the same path, as [path.Clean] of a clean path. *)
Lemma resolve_confined_idempotent (p : string) (segs : Path) :
  resolve p = Some segs ->
  Forall (fun seg => seg_ok seg = true) segs /\ resolve (join_path segs) = Some segs.
Proof.
  intros Hr. pose proof (resolve_confined p segs Hr) as Hok. split; [done|]. by apply resolve_join.
Qed.


(** ** The tree invariant *)

Lemma fs_empty_wf : fs_wf fs_empty.
Proof.
  split; [done|]. split.
  - intros p n Hp Hne. unfold fs_get in Hp. simpl in Hp.
    apply lookup_singleton_Some in Hp as [<- _]. done.
  - intros p c e Hp. unfold fs_get in Hp. simpl in Hp. by apply lookup_singleton_Some in Hp as [_ ?].
Qed.

Lemma parent_ne (p : Path) : p <> [] -> parent p <> p.
Proof.
  intros Hne Heq. unfold parent in Heq. destruct (exists_last Hne) as (l & a & ->).
  rewrite removelast_last in Heq. apply (f_equal (@List.length string)) in Heq. rewrite length_app in Heq. simpl in Heq. lia.
Qed.

Lemma parent_prefix (p : Path) : parent p `prefix_of` p.
Proof.
  unfold parent. destruct (decide (p = [])) as [->|Hne]; [done|].
  destruct (exists_last Hne) as (l & a & ->). rewrite removelast_last. by exists [a].
Qed.

Lemma parent_snoc (p : Path) (name : string) : parent (p ++ [name]) = p.
Proof. apply removelast_last. Qed.

Lemma is_dir_insert (fs : FS) (p q : Path) (n : Node) (k : nat) :
  is_dir (mkFS (<[p := n]> (fs_nodes fs)) k) q =
    if decide (p = q) then (match n with NDir => true | _ => false end) else is_dir fs q.
Proof. unfold is_dir, fs_get. simpl. rewrite lookup_insert. by case_decide. Qed.

Lemma wf_root_ne (fs : FS) (p : Path) : fs_wf fs -> fs_get fs p = None -> p <> [].
Proof. intros [Hr _] Hp ->. congruence. Qed.

#[export] Hint Resolve parent_ne parent_prefix wf_root_ne : webdav.

(** ** Operations preserve the invariant *)

(** Inserting a node under an existing collection keeps the tree well
    formed, provided a collection is not replaced by a file. *)
Lemma fs_insert_wf (fs : FS) (p : Path) (n : Node) (k : nat) :
  fs_wf fs -> p <> [] -> is_dir fs (parent p) = true ->
  (n = NDir \/ is_dir fs p = false) ->
  (forall c e, n = NFile c e -> e < k) -> fs_next_etag fs <= k ->
  fs_wf (mkFS (<[p := n]> (fs_nodes fs)) k).
Proof.
  intros (Hr & Hp & He) Hne Hd Hn Hk Hle. split; [|split].
  - unfold fs_get. simpl. rewrite lookup_insert_ne; [done | congruence].
  - intros q m Hq Hqne. rewrite is_dir_insert. unfold fs_get in Hq. simpl in Hq.
    rewrite lookup_insert in Hq. case_decide as Hpq; [subst q|].
    + case_decide as Hpp; [by destruct (parent_ne p Hne) | done].
    + case_decide as Hpp; [| by eapply Hp].
      destruct Hn as [-> | Hn]; [done|]. subst p. specialize (Hp q m Hq Hqne). congruence.
  - intros q c e Hq. simpl. unfold fs_get in Hq. simpl in Hq. rewrite lookup_insert in Hq.
    case_decide; [injection Hq as Hq; by eapply Hk | apply He in Hq; lia].
Qed.

Lemma fs_mkcol_wf (fs fs' : FS) (p : Path) : fs_wf fs -> fs_mkcol fs p = inr fs' -> fs_wf fs'.
Proof.
  intros Hwf. unfold fs_mkcol.
  destruct (fs_get fs p) eqn:Hg; [done|]. destruct (is_dir fs (parent p)) eqn:Hd; [|done].
  intros [= <-]. apply fs_insert_wf; eauto with webdav. done.
Qed.

Lemma fs_put_wf (fs fs' : FS) (p : Path) (c : string) : fs_wf fs -> fs_put fs p c = inr fs' -> fs_wf fs'.
Proof.
  intros Hwf. unfold fs_put.
  destruct (fs_get fs p) as [[|c0 e0]|] eqn:Hg; [done| |];
    (destruct (is_dir fs (parent p)) eqn:Hd; [|done]); intros [= <-];
    (apply fs_insert_wf; [done | intros ->; destruct Hwf; congruence | done | | | lia]);
    try (right; unfold is_dir; by rewrite Hg); intros ? ? [= _ <-]; lia.
Qed.

Lemma fs_delete_wf (fs fs' : FS) (p : Path) : fs_wf fs -> fs_delete fs p = inr fs' -> fs_wf fs'.
Proof.
  intros Hwf. pose proof Hwf as (Hr & Hp & He). unfold fs_delete.
  destruct (fs_get fs p) as [n0|] eqn:Hg; [|done]. destruct p as [|a p']; [done|]. intros [= <-].
  split; [|split]; unfold fs_get, is_dir, fs_get in *; simpl.
  - apply map_lookup_filter_Some. split; [done|]. simpl. intros [l Hl]. discriminate.
  - intros q n Hq Hqne. apply map_lookup_filter_Some in Hq as [Hq Hpre].
    specialize (Hp q n Hq Hqne). destruct (fs_nodes fs !! parent q) as [[|]|] eqn:Hpq; try done.
    rewrite map_lookup_filter, Hpq. simpl. rewrite option_guard_True; [done|].
    intros Hpp. apply Hpre. simpl. etrans; [exact Hpp | apply parent_prefix].
  - intros q c e Hq. apply map_lookup_filter_Some in Hq as [Hq _]. by eapply He.
Qed.

(** ** Functional behaviour of the tree operations *)

Lemma strip_path_app (p r : Path) : strip_path p (p ++ r) = Some r.
Proof. induction p as [|a p IH]; [done|]. simpl. by rewrite streqb_refl. Qed.

Lemma strip_path_some (p q r : Path) : strip_path p q = Some r -> q = p ++ r.
Proof.
  revert q. induction p as [|a p IH]; intros q H; [by injection H as ->|].
  destruct q as [|b q]; [done|]. simpl in H. destruct_streqb. by rewrite (IH q H).
Qed.

Lemma strip_path_app_inv (p r1 r2 : Path) : p ++ r1 = p ++ r2 -> r1 = r2.
Proof. apply app_inv_head. Qed.

Lemma fs_children_spec (fs : FS) (p : Path) (name : string) (n : Node) :
  (name, n) ∈ fs_children fs p <-> fs_get fs (p ++ [name]) = Some n.
Proof.
  unfold fs_children, fs_get. rewrite list_elem_of_omap. split.
  - intros ([q m] & Hin%elem_of_map_to_list & Heq).
    destruct (strip_path p q) as [[|nm []]|] eqn:Hs; try done.
    injection Heq as <- <-. by apply strip_path_some in Hs as ->.
  - intros Hl. exists (p ++ [name], n). rewrite elem_of_map_to_list, strip_path_app. done.
Qed.

(** A successful MKCOL creates the collection, and it is listed among
    the children of its parent. *)
Lemma fs_mkcol_listed (fs fs' : FS) (p : Path) (name : string) :
  fs_mkcol fs (p ++ [name]) = inr fs' ->
  fs_get fs' (p ++ [name]) = Some NDir /\ (name, NDir) ∈ fs_children fs' p.
Proof.
  unfold fs_mkcol. destruct (fs_get fs _); [done|]. destruct (is_dir _ _); [|done].
  intros [= <-]. rewrite fs_children_spec. unfold fs_get. simpl. by rewrite lookup_insert_eq.
Qed.

Lemma fs_mkcol_ok (fs : FS) (p : Path) :
  fs_get fs p = None -> is_dir fs (parent p) = true ->
  fs_mkcol fs p = inr (mkFS (<[p := NDir]> (fs_nodes fs)) (fs_next_etag fs)).
Proof. unfold fs_mkcol. by intros -> ->. Qed.

Lemma fs_mkcol_conflict (fs : FS) (p : Path) :
  fs_get fs p = None -> is_dir fs (parent p) = false -> fs_mkcol fs p = inl Conflict.
Proof. unfold fs_mkcol. by intros -> ->. Qed.

(** A successful PUT stores the content under a tag no node had. *)
Lemma fs_put_get (fs fs' : FS) (p : Path) (c : string) :
  fs_wf fs -> fs_put fs p c = inr fs' ->
  fs_get fs' p = Some (NFile c (fs_next_etag fs)) /\
  (forall q c' e, fs_get fs q = Some (NFile c' e) -> e <> fs_next_etag fs) /\
  fs_next_etag fs < fs_next_etag fs'.
Proof.
  intros (_ & _ & He) Hput. unfold fs_put in Hput.
  destruct (fs_get fs p) as [[|]|]; try done;
    (destruct (is_dir fs (parent p)); [|done]); injection Hput as <-;
    unfold fs_get; simpl; rewrite lookup_insert_eq;
    (split; [done | split; [intros q c' e Hq; apply He in Hq; lia | lia]]).
Qed.

Lemma fs_put_lookup (fs fs' : FS) (p q : Path) (c : string) :
  fs_put fs p c = inr fs' ->
  fs_get fs' q = if decide (p = q) then Some (NFile c (fs_next_etag fs)) else fs_get fs q.
Proof.
  unfold fs_put. destruct (fs_get fs p) as [[|]|]; try done;
    (destruct (is_dir fs (parent p)); [|done]); intros [= <-]; unfold fs_get; simpl;
    by rewrite lookup_insert.
Qed.

Lemma fs_put_ok (fs : FS) (p : Path) (c : string) :
  is_dir fs p = false -> is_dir fs (parent p) = true ->
  fs_put fs p c = inr (mkFS (<[p := NFile c (fs_next_etag fs)]> (fs_nodes fs)) (S (fs_next_etag fs))).
Proof. unfold fs_put, is_dir. intros Hp ->. by destruct (fs_get fs p) as [[|]|]. Qed.

(** A successful DELETE removes the resource and everything below it,
    and nothing else. *)
Lemma fs_delete_get (fs fs' : FS) (p : Path) :
  fs_delete fs p = inr fs' ->
  forall q, fs_get fs' q = if decide (p `prefix_of` q) then None else fs_get fs q.
Proof.
  unfold fs_delete. destruct (fs_get fs p); [|done]. destruct p as [|a p]; [done|].
  intros [= <-] q. unfold fs_get. simpl. rewrite map_lookup_filter.
  destruct (fs_nodes fs !! q) eqn:Hq; simpl; case_decide; try done.
  - rewrite option_guard_False; naive_solver.
  - rewrite option_guard_True; naive_solver.
Qed.
