(* ===== verification/Locks.v ===== *)
(** * The engine's lock manager (spec 4.2 and 9, modelled from the
    specification)

    Locks live in a table keyed by their token; a fresh token is the
    table's counter.  Expired locks are purged lazily at the start of
    every operation ([purge]), never by a background sweep.  A lock
    covers its root, and with depth infinity every path below it (a
    prefix test, spec 9).  Two locks are incompatible when one covers the
    other's root and one of them is exclusive.  Time is a natural number
    supplied by the caller. *)

From S2P Require Import Prelude Vfs.

Inductive Scope := Exclusive | Shared.
Inductive Depth := DepthZero | DepthInfinity.

#[export] Instance Scope_eq_dec : EqDecision Scope.
Proof. solve_decision. Defined.
#[export] Instance Depth_eq_dec : EqDecision Depth.
Proof. solve_decision. Defined.

Record Lock := mkLock {
  lk_root : Path;
  lk_scope : Scope;
  lk_depth : Depth;
  lk_owner : string;
  lk_expiry : nat
}.

Record LockTable := mkLT {
  lt_locks : gmap nat Lock;
  lt_next : nat
}.

Definition lt_empty : LockTable := mkLT ∅ 0.

Definition active (now : nat) (l : Lock) : bool := now <? lk_expiry l.

(** The lazy purge of expired locks. *)
Definition purge (now : nat) (lt : LockTable) : LockTable :=
  mkLT (filter (fun tl => active now tl.2 = true) (lt_locks lt)) (lt_next lt).

Definition covers (l : Lock) (p : Path) : bool :=
  bool_decide (lk_root l = p) ||
  (bool_decide (lk_depth l = DepthInfinity) && bool_decide (lk_root l `prefix_of` p)).

Definition incompatible (l1 l2 : Lock) : bool :=
  (covers l1 (lk_root l2) || covers l2 (lk_root l1)) &&
  (bool_decide (lk_scope l1 = Exclusive) || bool_decide (lk_scope l2 = Exclusive)).

(** [acquire(path, scope, depth, timeout)]: the token of the new lock, or
    [Locked] when an unexpired lock is incompatible with it. *)
Definition acquire (now : nat) (p : Path) (sc : Scope) (d : Depth) (owner : string)
    (timeout : nat) (lt : LockTable) : DavError + (nat * LockTable) :=
  let lt := purge now lt in
  let nl := mkLock p sc d owner (now + timeout) in
  if existsb (fun tl => incompatible tl.2 nl) (map_to_list (lt_locks lt)) then inl Locked
  else inr (lt_next lt, mkLT (<[lt_next lt := nl]> (lt_locks lt)) (S (lt_next lt))).

(** [refresh(token)]: a new expiry for an unexpired lock. *)
Definition refresh (now : nat) (tok : nat) (timeout : nat) (lt : LockTable) : DavError + LockTable :=
  let lt := purge now lt in
  match lt_locks lt !! tok with
  | None => inl PreconditionFailed
  | Some l =>
      inr (mkLT (<[tok := mkLock (lk_root l) (lk_scope l) (lk_depth l) (lk_owner l) (now + timeout)]>
                 (lt_locks lt)) (lt_next lt))
  end.

(** [release(token)]. *)
Definition release (now : nat) (tok : nat) (lt : LockTable) : DavError + LockTable :=
  let lt := purge now lt in
  match lt_locks lt !! tok with
  | None => inl NotFound
  | Some _ => inr (mkLT (delete tok (lt_locks lt)) (lt_next lt))
  end.

(** [check(path, tokens)]: a write to [p] (and, with depth infinity, to
    everything below it) is allowed when the request submits the token of
    every unexpired lock that covers a path it touches. *)
Definition lock_check (now : nat) (p : Path) (d : Depth) (tokens : list nat) (lt : LockTable) : bool :=
  forallb (fun tl =>
             if covers tl.2 p || (bool_decide (d = DepthInfinity) && bool_decide (p `prefix_of` lk_root tl.2))
             then bool_decide (tl.1 ∈ tokens) else true)
          (map_to_list (lt_locks (purge now lt))).

(** ** The invariant of the table *)

(** Every token in use is below the counter, and no two unexpired locks
    are incompatible. *)
Definition locks_wf (now : nat) (lt : LockTable) : Prop :=
  (forall t l, lt_locks lt !! t = Some l -> t < lt_next lt) /\
  (forall t1 t2 l1 l2, t1 <> t2 -> lt_locks lt !! t1 = Some l1 -> lt_locks lt !! t2 = Some l2 ->
     active now l1 = true -> active now l2 = true -> incompatible l1 l2 = false).

(** ** Lemmas *)

Inductive lt_step : nat * LockTable -> nat * LockTable -> Prop :=
  | lt_tick now lt : lt_step (now, lt) (S now, lt)
  | lt_acquire now lt p sc d o t tok lt' :
      acquire now p sc d o t lt = inr (tok, lt') -> lt_step (now, lt) (now, lt')
  | lt_refresh now lt tok t lt' :
      refresh now tok t lt = inr lt' -> lt_step (now, lt) (now, lt')
  | lt_release now lt tok lt' :
      release now tok lt = inr lt' -> lt_step (now, lt) (now, lt').

Lemma purge_lookup (now t : nat) (lt : LockTable) (l : Lock) :
  lt_locks (purge now lt) !! t = Some l <-> lt_locks lt !! t = Some l /\ active now l = true.
Proof. unfold purge. simpl. by rewrite map_lookup_filter_Some. Qed.

Lemma existsb_map_to_list {V} (f : nat * V -> bool) (m : gmap nat V) :
  existsb f (map_to_list m) = true <-> exists k v, m !! k = Some v /\ f (k, v) = true.
Proof.
  rewrite existsb_exists. split.
  - intros ([k v] & Hin & Hf). apply list_elem_of_In, elem_of_map_to_list in Hin. eauto.
  - intros (k & v & Hk & Hf). exists (k, v). rewrite <- list_elem_of_In, elem_of_map_to_list. done.
Qed.

Lemma forallb_map_to_list {V} (f : nat * V -> bool) (m : gmap nat V) :
  forallb f (map_to_list m) = true <-> forall k v, m !! k = Some v -> f (k, v) = true.
Proof.
  rewrite forallb_forall. split.
  - intros H k v Hk. apply H, list_elem_of_In, elem_of_map_to_list, Hk.
  - intros H [k v] Hin. apply list_elem_of_In, elem_of_map_to_list in Hin. by apply H.
Qed.

Lemma incompatible_sym (l1 l2 : Lock) : incompatible l1 l2 = incompatible l2 l1.
Proof. unfold incompatible. by rewrite orb_comm, (orb_comm (bool_decide (lk_scope l1 = _))). Qed.

Lemma covers_root (l : Lock) : covers l (lk_root l) = true.
Proof. unfold covers. by rewrite bool_decide_true. Qed.

Lemma active_mono (now now' : nat) (l : Lock) :
  now <= now' -> active now' l = true -> active now l = true.
Proof. unfold active. rewrite !Nat.ltb_lt. lia. Qed.

#[export] Hint Resolve covers_root active_mono : webdav.

(** ** The invariant is preserved *)

Lemma locks_wf_mono (now now' : nat) (lt : LockTable) : now <= now' -> locks_wf now lt -> locks_wf now' lt.
Proof. intros Hle [Ht Hc]. split; [done|]. intros; eapply Hc; eauto with webdav. Qed.

Lemma purge_wf (now : nat) (lt : LockTable) : locks_wf now lt -> locks_wf now (purge now lt).
Proof.
  intros [Ht Hc]. split; simpl.
  - intros t l [Hl _]%purge_lookup. by eapply Ht.
  - intros t1 t2 l1 l2 Hne [H1 _]%purge_lookup [H2 _]%purge_lookup A1 A2. eapply Hc; eauto.
Qed.

Lemma acquire_wf (now : nat) (p : Path) (sc : Scope) (d : Depth) (o : string) (t tok : nat)
    (lt lt' : LockTable) :
  locks_wf now lt -> acquire now p sc d o t lt = inr (tok, lt') -> locks_wf now lt'.
Proof.
  intros Hwf. pose proof (purge_wf now lt Hwf) as [Ht Hc]. unfold acquire.
  destruct (existsb _ _) eqn:Hex; [done|]. intros [= <- <-].
  assert (Hno : forall k v, lt_locks (purge now lt) !! k = Some v ->
                incompatible v (mkLock p sc d o (now + t)) = false).
  { intros k v Hk. destruct (incompatible _ _) eqn:Hi; [|done].
    exfalso. apply not_true_iff_false in Hex. apply Hex, existsb_map_to_list. eauto. }
  split; cbn [lt_locks lt_next].
  - intros t0 l Hl. rewrite lookup_insert in Hl. case_decide; [lia|]. apply Ht in Hl. unfold purge in *; simpl in *; lia.
  - intros t1 t2 l1 l2 Hne H1 H2 A1 A2. rewrite lookup_insert in H1, H2.
    case_decide as E1; case_decide as E2.
    + subst. congruence.
    + first [subst t1; injection H1 as <-; rewrite incompatible_sym; exact (Hno t2 l2 H2)
            |subst t2; injection H2 as <-; exact (Hno t1 l1 H1)].
    + first [subst t1; injection H1 as <-; rewrite incompatible_sym; exact (Hno t2 l2 H2)
            |subst t2; injection H2 as <-; exact (Hno t1 l1 H1)].
    + exact (Hc t1 t2 l1 l2 Hne H1 H2 A1 A2).
Qed.

Lemma release_wf (now tok : nat) (lt lt' : LockTable) :
  locks_wf now lt -> release now tok lt = inr lt' -> locks_wf now lt'.
Proof.
  intros Hwf. pose proof (purge_wf now lt Hwf) as [Ht Hc]. unfold release.
  destruct (lt_locks (purge now lt) !! tok) as [l0|]; [|done]. intros [= <-].
  split; cbn [lt_locks lt_next].
  - intros t l Hl. apply lookup_delete_Some in Hl as [_ Hl]. by eapply Ht.
  - intros t1 t2 l1 l2 Hne H1 H2. apply lookup_delete_Some in H1 as [_ H1], H2 as [_ H2]. intros A1 A2. exact (Hc t1 t2 l1 l2 Hne H1 H2 A1 A2).
Qed.

Lemma refresh_wf (now tok t : nat) (lt lt' : LockTable) :
  locks_wf now lt -> refresh now tok t lt = inr lt' -> locks_wf now lt'.
Proof.
  intros Hwf. pose proof (purge_wf now lt Hwf) as [Ht Hc]. unfold refresh.
  destruct (lt_locks (purge now lt) !! tok) as [l|] eqn:Hl; [|done]. intros [= <-].
  assert (Hla : active now l = true) by (by apply purge_lookup in Hl as [_ ?]).
  assert (Hinc : forall l', incompatible (mkLock (lk_root l) (lk_scope l) (lk_depth l) (lk_owner l) (now + t)) l'
                            = incompatible l l') by (intros; by destruct l).
  split; cbn [lt_locks lt_next].
  - intros t0 l0 H0. rewrite lookup_insert in H0. case_decide; [subst; by eapply Ht | by eapply Ht].
  - intros t1 t2 l1 l2 Hne H1 H2 A1 A2. rewrite lookup_insert in H1, H2.
    case_decide as E1; case_decide as E2.
    + subst. congruence.
    + first [subst t1; injection H1 as <-; rewrite Hinc; exact (Hc _ _ _ _ Hne Hl H2 Hla A2)
            |subst t2; injection H2 as <-; rewrite incompatible_sym, Hinc; exact (Hc _ _ _ _ (not_eq_sym Hne) Hl H1 Hla A1)].
    + first [subst t1; injection H1 as <-; rewrite Hinc; exact (Hc _ _ _ _ Hne Hl H2 Hla A2)
            |subst t2; injection H2 as <-; rewrite incompatible_sym, Hinc; exact (Hc _ _ _ _ (not_eq_sym Hne) Hl H1 Hla A1)].
    + exact (Hc t1 t2 l1 l2 Hne H1 H2 A1 A2).
Qed.

(** ** Functional behaviour *)

Lemma acquire_blocked (now k : nat) (l : Lock) (p : Path) (sc : Scope) (d : Depth) (o : string)
    (t : nat) (lt : LockTable) :
  lt_locks lt !! k = Some l -> active now l = true ->
  incompatible l (mkLock p sc d o (now + t)) = true ->
  acquire now p sc d o t lt = inl Locked.
Proof.
  intros Hk Ha Hi. unfold acquire.
  replace (existsb _ _) with true; [done|]. symmetry. apply existsb_map_to_list.
  exists k, l. split; [by apply purge_lookup | done].
Qed.

Lemma acquire_lookup (now : nat) (p : Path) (sc : Scope) (d : Depth) (o : string) (t tok : nat)
    (lt lt' : LockTable) :
  acquire now p sc d o t lt = inr (tok, lt') ->
  lt_locks lt' !! tok = Some (mkLock p sc d o (now + t)).
Proof.
  unfold acquire. destruct (existsb _ _); [done|]. intros [= <- <-]. simpl. apply lookup_insert_eq.
Qed.

(** Once an exclusive lock on [p] is granted, every request for a
    second lock on [p], exclusive or shared and of any depth, fails with
    [Locked] as long as the first lock has not expired. *)
Lemma acquire_exclusive_blocks (now now' : nat) (p : Path) (d d' : Depth) (sc : Scope)
    (o o' : string) (t t' tok : nat) (lt lt' : LockTable) :
  acquire now p Exclusive d o t lt = inr (tok, lt') ->
  now' < now + t ->
  acquire now' p sc d' o' t' lt' = inl Locked.
Proof.
  intros Ha Hnow. eapply acquire_blocked; [by eapply acquire_lookup | |].
  - unfold active. simpl. by apply Nat.ltb_lt.
  - unfold incompatible, covers. simpl. by rewrite (bool_decide_true (p = p)).
Qed.


(** [check] allows a write exactly when the request submits the
    token of every unexpired lock that covers the target (or, for a
    depth-infinity write, lies below it). *)
Lemma lock_check_spec (now : nat) (p : Path) (d : Depth) (tokens : list nat) (lt : LockTable) :
  lock_check now p d tokens lt = true <->
  (forall k l, lt_locks lt !! k = Some l -> active now l = true ->
     covers l p = true \/ (d = DepthInfinity /\ p `prefix_of` lk_root l) -> k ∈ tokens).
Proof.
  unfold lock_check. rewrite forallb_map_to_list. split.
  - intros H k l Hk Ha Hc. specialize (H k l (proj2 (purge_lookup _ _ _ _) (conj Hk Ha))).
    simpl in H. destruct Hc as [Hc | [-> Hp]].
    + rewrite Hc in H. simpl in H. by apply bool_decide_eq_true in H.
    + rewrite !bool_decide_true, orb_true_r in H by done. by apply bool_decide_eq_true in H.
  - intros H k l [Hk Ha]%purge_lookup. simpl.
    destruct (covers l p) eqn:Hc; simpl.
    + apply bool_decide_eq_true. eauto.
    + destruct (bool_decide (d = DepthInfinity)) eqn:Hd; [|done].
      destruct (bool_decide (p `prefix_of` _)) eqn:Hp; [|done]. simpl.
      apply bool_decide_eq_true. apply bool_decide_eq_true in Hd, Hp. eauto.
Qed.

(** ** The lock table as a state machine *)

Lemma lt_step_wf (c c' : nat * LockTable) : locks_wf c.1 c.2 -> lt_step c c' -> locks_wf c'.1 c'.2.
Proof.
  intros Hwf Hs. destruct Hs; simpl in *.
  - eapply locks_wf_mono; [| exact Hwf]. lia.
  - by eapply acquire_wf.
  - by eapply refresh_wf.
  - by eapply release_wf.
Qed.

Lemma lt_rtc_wf (c c' : nat * LockTable) : rtc lt_step c c' -> locks_wf c.1 c.2 -> locks_wf c'.1 c'.2.
Proof. induction 1; eauto using lt_step_wf. Qed.

(** In every reachable lock table, no two unexpired locks are
    incompatible: at most one exclusive lock covers a resource, and an
    exclusive lock excludes every shared one on it. *)
Lemma lt_reachable_wf (now : nat) (lt : LockTable) :
  rtc lt_step (0, lt_empty) (now, lt) -> locks_wf now lt.
Proof.
  intros Hr. change (locks_wf (now, lt).1 (now, lt).2). eapply lt_rtc_wf; [exact Hr|].
  split; simpl; intros; by rewrite lookup_empty in *.
Qed.

