(* ===== verification/Props.v ===== *)
(** * The property store (spec 4.3, modelled from the specification)

    Every resource has live properties, computed from its node on each
    request ([live_props]: resource type, display name, and for a file
    its length and entity tag), and dead properties, stored verbatim
    whatever their namespace.  The dead properties of one resource are
    an association list in insertion order ([DeadProps]), since spec 4.5
    asks multi-status bodies to keep that order; the store maps each path
    to its list ([PropStore]).  [ps_get] and [ps_patch] are the two
    operations of spec 4.3; PROPPATCH is atomic per resource: a patch
    that touches a live property is refused as a whole, [Forbidden] for
    the live names and [FailedDependency] (RFC 4918, 424) for the others,
    and changes nothing.  [ps_delete] and [ps_copy] keep the store in step
    with DELETE, COPY and MOVE of the tree.  The association list is
    proved to implement the abstract map semantics of a patch
    ([ref_value]).

    The XML body of PROPPATCH is not modelled: a request body is read as
    one instruction per line, [set <ns> <name> <value>] or
    [remove <ns> <name>] ([parse_patch]). *)

From S2P Require Import Prelude Vfs.
From stdpp Require Import pretty.

(** ** Properties *)

(** A property name: namespace and local name. *)
Definition PropName := (string * string)%type.

(** The dead properties of one resource, in insertion order. *)
Abbreviation DeadProps := (list (PropName * string)).

(** The dead properties of every resource, by path. *)
Abbreviation PropStore := (gmap Path DeadProps).

(** One instruction of a [propertyupdate]: [set] or [remove]. *)
Inductive PatchOp :=
  | PSet (n : PropName) (v : string)
  | PRemove (n : PropName).

Definition op_name (o : PatchOp) : PropName := match o with PSet n _ => n | PRemove n => n end.

(** The per-property outcome of a patch. *)
Inductive PropStatus := PropOK | PropForbidden | PropFailedDependency.

#[export] Instance PropStatus_eq_dec : EqDecision PropStatus.
Proof. solve_decision. Defined.

Definition dav_ns : string := "DAV:".

(** The live properties: computed, never stored, protected from PROPPATCH. *)
Definition live_names : list string := ["resourcetype"; "displayname"; "getcontentlength"; "getetag"].

Definition is_live (n : PropName) : bool := (n.1 ==s dav_ns) && str_mem n.2 live_names.

(** An entity tag as the engine writes it: the counter in quotes. *)
Definition etag_string (e : nat) : string := dq +s pretty (N.of_nat e) +s dq.

Definition live_props (p : Path) (n : Node) : list (PropName * string) :=
  ((dav_ns, "resourcetype"), match n with NDir => "<D:collection/>" | NFile _ _ => "" end)
  :: ((dav_ns, "displayname"), last_name p)
  :: match n with
     | NDir => []
     | NFile c e => [((dav_ns, "getcontentlength"), pretty (N.of_nat (String.length c)));
                     ((dav_ns, "getetag"), etag_string e)]
     end.

(** ** Dead properties of one resource *)

Fixpoint dp_lookup (k : PropName) (l : DeadProps) : option string :=
  match l with
  | [] => None
  | kv :: l' => if bool_decide (kv.1 = k) then Some kv.2 else dp_lookup k l'
  end.

(** Setting a present name updates it in place; a new name goes last. *)
Fixpoint dp_set (k : PropName) (v : string) (l : DeadProps) : DeadProps :=
  match l with
  | [] => [(k, v)]
  | kv :: l' => if bool_decide (kv.1 = k) then (k, v) :: l' else kv :: dp_set k v l'
  end.

Definition dp_remove (k : PropName) (l : DeadProps) : DeadProps :=
  filter (fun kv => kv.1 <> k) l.

Definition apply_op (l : DeadProps) (o : PatchOp) : DeadProps :=
  match o with PSet k v => dp_set k v l | PRemove k => dp_remove k l end.

(** Each name at most once. *)
Definition dp_wf (l : DeadProps) : Prop := NoDup l.*1.

(** The abstract meaning of a patch on one name: the last instruction
    on it wins. *)
Fixpoint ref_value (k : PropName) (ops : list PatchOp) (cur : option string) : option string :=
  match ops with
  | [] => cur
  | PSet k' v :: ops' => ref_value k ops' (if bool_decide (k' = k) then Some v else cur)
  | PRemove k' :: ops' => ref_value k ops' (if bool_decide (k' = k) then None else cur)
  end.

(** ** The store *)

Definition props_of (ps : PropStore) (p : Path) : DeadProps := default [] (ps !! p).

(** An empty list is not stored. *)
Definition set_props (ps : PropStore) (p : Path) (l : DeadProps) : PropStore :=
  match l with [] => delete p ps | _ => <[p := l]> ps end.

(** [get(resource)] of spec 4.3: the live properties, then the dead ones
    in insertion order. *)
Definition ps_get (ps : PropStore) (p : Path) (n : Node) : list (PropName * string) :=
  live_props p n ++ props_of ps p.

(** [patch(resource, sets, removes)] of spec 4.3, atomic. *)
Definition ps_patch (ps : PropStore) (p : Path) (ops : list PatchOp)
    : PropStore * list (PropName * PropStatus) :=
  if existsb (fun o => is_live (op_name o)) ops
  then (ps, (fun o => (op_name o, if is_live (op_name o) then PropForbidden else PropFailedDependency)) <$> ops)
  else (set_props ps p (foldl apply_op (props_of ps p) ops), (fun o => (op_name o, PropOK)) <$> ops).

(** The properties of a deleted subtree go with it. *)
Definition ps_delete (ps : PropStore) (p : Path) : PropStore :=
  filter (fun kv => ~ p `prefix_of` kv.1) ps.

(** COPY carries the dead properties of the copied resources: the root
    of the source, and everything below it unless [all] is false
    ([Depth: 0]), as the tree's copy does. *)
Definition ps_copy_step (src dst : Path) (all : bool) (acc : PropStore) (ql : Path * DeadProps) : PropStore :=
  match strip_path src ql.1 with
  | Some rest => if bool_decide (rest = []) || all then <[dst ++ rest := ql.2]> acc else acc
  | None => acc
  end.

Definition ps_copy (ps : PropStore) (src dst : Path) (all : bool) : PropStore :=
  foldl (ps_copy_step src dst all) ps (map_to_list ps).

(** ** The request body *)

(** [strings.Split(s, sep)] for a one-byte separator. *)
Fixpoint split_on (c : ascii) (s : string) : list string :=
  match s with
  | EmptyString => [EmptyString]
  | String x s' =>
      if Ascii.eqb x c then EmptyString :: split_on c s'
      else match split_on c s' with
           | w :: ws => String x w :: ws
           | [] => [String x EmptyString]
           end
  end.

Definition parse_instr (line : string) : option PatchOp :=
  match split_on " " line with
  | "set" :: ns :: name :: value => Some (PSet (ns, name) (String.concat " " value))
  | ["remove"; ns; name] => Some (PRemove (ns, name))
  | _ => None
  end.

Definition parse_patch (body : string) : option (list PatchOp) :=
  if body ==s "" then None else mapM parse_instr (split_on "010" body).

(** ** Dead property lists *)

Lemma dp_lookup_set (k k' : PropName) (v : string) (l : DeadProps) :
  dp_lookup k (dp_set k' v l) = if bool_decide (k' = k) then Some v else dp_lookup k l.
Proof.
  induction l as [|[k0 v0] l IH]; cbn; [done|].
  destruct (decide (k0 = k')) as [->|Hne]; cbn.
  - rewrite !bool_decide_eq_true_2 by done. cbn. by case_bool_decide.
  - rewrite (bool_decide_eq_false_2 (k0 = k')) by done. cbn. rewrite IH.
    case_bool_decide; subst; [|done]. by rewrite bool_decide_eq_false_2.
Qed.

Lemma dp_lookup_remove (k k' : PropName) (l : DeadProps) :
  dp_lookup k (dp_remove k' l) = if bool_decide (k' = k) then None else dp_lookup k l.
Proof.
  unfold dp_remove. induction l as [|[k0 v0] l IH]; [cbn; by case_bool_decide|].
  destruct (decide (k0 = k')) as [->|Hne].
  - rewrite filter_cons_False by naive_solver. rewrite IH. cbn [dp_lookup fst snd]. by case_bool_decide.
  - rewrite filter_cons_True by done. cbn [dp_lookup fst snd]. rewrite IH.
    repeat case_bool_decide; subst; done.
Qed.

(** The names of a list after [dp_set]: unchanged when present, the new
    one last otherwise. *)
Lemma dp_set_names (k : PropName) (v : string) (l : DeadProps) :
  (dp_set k v l).*1 = if bool_decide (k ∈ l.*1) then l.*1 else l.*1 ++ [k].
Proof.
  induction l as [|[k0 v0] l IH]; cbn [dp_set fst].
  - rewrite bool_decide_eq_false_2; [done | set_solver].
  - destruct (decide (k0 = k)) as [->|Hk].
    + rewrite bool_decide_eq_true_2 by done. rewrite !fmap_cons. cbn [fst].
      rewrite bool_decide_eq_true_2; [done | set_solver].
    + rewrite bool_decide_eq_false_2 by done. rewrite !fmap_cons, IH. cbn [fst].
      destruct (decide (k ∈ l.*1));
        [rewrite !bool_decide_eq_true_2 by set_solver | rewrite !bool_decide_eq_false_2 by set_solver]; done.
Qed.

Lemma dp_set_wf (k : PropName) (v : string) (l : DeadProps) : dp_wf l -> dp_wf (dp_set k v l).
Proof.
  unfold dp_wf. rewrite dp_set_names. case_bool_decide; [done|].
  intros Hl. apply NoDup_app. split; [done|]. split; [set_solver|]. apply NoDup_singleton.
Qed.

Lemma dp_remove_wf (k : PropName) (l : DeadProps) : dp_wf l -> dp_wf (dp_remove k l).
Proof. unfold dp_wf, dp_remove. intros Hl. eapply sublist_NoDup; [exact Hl|]. apply fmap_sublist, sublist_filter. Qed.

Lemma apply_ops_wf (l : DeadProps) (ops : list PatchOp) : dp_wf l -> dp_wf (foldl apply_op l ops).
Proof.
  revert l. induction ops as [|[k v|k] ops IH]; intros l Hl; cbn; [done|..]; apply IH.
  - by apply dp_set_wf.
  - by apply dp_remove_wf.
Qed.

Lemma props_of_set (ps : PropStore) (p q : Path) (l : DeadProps) :
  props_of (set_props ps p l) q = if bool_decide (p = q) then l else props_of ps q.
Proof.
  unfold props_of, set_props. case_bool_decide as Hpq.
  - subst. destruct l; cbv iota; [by rewrite lookup_delete_eq | by rewrite lookup_insert_eq].
  - destruct l; cbv iota; [by rewrite lookup_delete_ne | by rewrite lookup_insert_ne].
Qed.

Lemma set_props_other (ps : PropStore) (p q : Path) (l : DeadProps) :
  p <> q -> set_props ps p l !! q = ps !! q.
Proof. intros Hne. unfold set_props. destruct l; cbv iota; [by rewrite lookup_delete_ne | by rewrite lookup_insert_ne]. Qed.

#[export] Hint Resolve dp_set_wf dp_remove_wf apply_ops_wf : webdav.

(** ** The store through DELETE, COPY and MOVE *)

Lemma ps_delete_lookup (ps : PropStore) (p q : Path) :
  ps_delete ps p !! q = if bool_decide (p `prefix_of` q) then None else ps !! q.
Proof.
  unfold ps_delete. rewrite map_lookup_filter.
  destruct (ps !! q); cbn; case_bool_decide; simplify_option_eq; done.
Qed.

Section Copy.
Context (src dst : Path) (all : bool).

Definition ps_copy_cond (rest : Path) : bool := bool_decide (rest = []) || all.

Lemma ps_copy_step_lookup (acc : PropStore) (k : Path) (l : DeadProps) (q : Path) :
  ps_copy_step src dst all acc (k, l) !! q =
    match strip_path src k with
    | Some rest => if ps_copy_cond rest && bool_decide (q = dst ++ rest) then Some l else acc !! q
    | None => acc !! q
    end.
Proof.
  unfold ps_copy_step, ps_copy_cond. cbn [fst snd]. destruct (strip_path src k) as [rest|]; [|done].
  destruct (_ || _); cbn; [|done]. case_bool_decide; subst; [by rewrite lookup_insert_eq | by rewrite lookup_insert_ne].
Qed.

(** The fold leaves alone every path no entry is copied to. *)
Lemma ps_copy_fold_frame (L : list (Path * DeadProps)) (acc : PropStore) (q : Path) :
  (forall k l rest, (k, l) ∈ L -> strip_path src k = Some rest -> q <> dst ++ rest) ->
  foldl (ps_copy_step src dst all) acc L !! q = acc !! q.
Proof.
  revert acc. induction L as [|[k l] L IH]; intros acc HL; [done|]. cbn [foldl].
  rewrite IH by (intros; eapply HL; [by right | done]).
  rewrite ps_copy_step_lookup. destruct (strip_path src k) as [rest|] eqn:Hs; [|done].
  rewrite (bool_decide_eq_false_2 (q = dst ++ rest)), andb_false_r; [done|].
  eapply HL; [by left | done].
Qed.

(** What the fold writes at [dst ++ rest] is the list of [src ++ rest]. *)
Lemma ps_copy_fold_origin (L : list (Path * DeadProps)) (acc : PropStore) (rest : Path) (l : DeadProps) :
  foldl (ps_copy_step src dst all) acc L !! (dst ++ rest) = Some l ->
  acc !! (dst ++ rest) = Some l \/ ((src ++ rest, l) ∈ L /\ ps_copy_cond rest = true).
Proof.
  revert acc. induction L as [|[k l'] L IH]; intros acc Hf; [by left|]. cbn [foldl] in Hf.
  destruct (IH _ Hf) as [Ha | [Hin Hc]]; [|right; split; [by right | done]].
  rewrite ps_copy_step_lookup in Ha. destruct (strip_path src k) as [r|] eqn:Hs; [|by left].
  destruct (ps_copy_cond r) eqn:Hc; cbn in Ha; [|by left].
  case_bool_decide as Hq; [|by left]. apply strip_path_app_inv in Hq as <-.
  apply strip_path_some in Hs as ->. injection Ha as <-. right. split; [by left | done].
Qed.

(** Every selected entry is copied (the entries have distinct paths). *)
Lemma ps_copy_fold_copied (L : list (Path * DeadProps)) (acc : PropStore) (rest : Path) (l : DeadProps) :
  NoDup L.*1 -> (src ++ rest, l) ∈ L -> ps_copy_cond rest = true ->
  foldl (ps_copy_step src dst all) acc L !! (dst ++ rest) = Some l.
Proof.
  revert acc. induction L as [|[k l'] L IH]; intros acc Hnd Hin Hc; [by apply elem_of_nil in Hin|].
  cbn [foldl fmap list_fmap fst] in *. apply NoDup_cons in Hnd as [Hk Hnd].
  apply elem_of_cons in Hin as [[= <- <-] | Hin]; [|by apply IH].
  rewrite ps_copy_fold_frame.
  - rewrite ps_copy_step_lookup, strip_path_app, Hc, bool_decide_true by done. done.
  - intros k2 l2 r2 Hin2 Hs2 Heq. apply strip_path_app_inv in Heq as <-.
    apply strip_path_some in Hs2 as ->. apply Hk, list_elem_of_fmap. by exists (src ++ rest, l2).
Qed.
End Copy.

Lemma ps_copy_frame (ps : PropStore) (src dst : Path) (all : bool) (q : Path) :
  ~ dst `prefix_of` q -> ps_copy ps src dst all !! q = ps !! q.
Proof. intros Hn. apply ps_copy_fold_frame. intros k l rest _ _ ->. apply Hn. by exists rest. Qed.

Lemma ps_copy_origin (ps : PropStore) (src dst : Path) (all : bool) (rest : Path) (l : DeadProps) :
  ps_copy ps src dst all !! (dst ++ rest) = Some l ->
  ps !! (dst ++ rest) = Some l \/ (ps !! (src ++ rest) = Some l /\ ps_copy_cond all rest = true).
Proof.
  intros H. destruct (ps_copy_fold_origin _ _ _ _ _ _ _ H) as [H1 | [Hin Hc]]; [by left|].
  right. split; [by apply elem_of_map_to_list | done].
Qed.

(** The root of the copy carries the source's list, or whatever the
    destination had when the source has none. *)
Lemma ps_copy_root (ps : PropStore) (src dst : Path) (all : bool) :
  ps_copy ps src dst all !! dst = match ps !! src with Some l => Some l | None => ps !! dst end.
Proof.
  destruct (ps !! src) as [l|] eqn:Hs.
  - pose proof (ps_copy_fold_copied src dst all (map_to_list ps) ps [] l (NoDup_fst_map_to_list _)) as Hc.
    rewrite !app_nil_r in Hc. apply Hc; [by apply elem_of_map_to_list | by unfold ps_copy_cond; rewrite bool_decide_true].
  - apply ps_copy_fold_frame. intros k l rest Hin Hk Heq.
    rewrite <- (app_nil_r dst) in Heq at 1. apply strip_path_app_inv in Heq as <-.
    apply strip_path_some in Hk as ->. rewrite app_nil_r in Hin. apply elem_of_map_to_list in Hin. congruence.
Qed.

(** A patch changes at most the resource it targets. *)
Lemma ps_patch_lookup (ps ps' : PropStore) (p q : Path) (ops : list PatchOp) (res : list (PropName * PropStatus)) (l : DeadProps) :
  ps_patch ps p ops = (ps', res) -> ps' !! q = Some l -> q = p \/ ps !! q = Some l.
Proof.
  unfold ps_patch. case_match; intros [= <- _]; [by right|].
  destruct (decide (q = p)) as [->|Hne]; [by left|]. right.
  by rewrite set_props_other in H0 by congruence.
Qed.

(** ** The two operations of spec 4.3 *)

(** The association list implements the abstract semantics of a patch:
    after applying the instructions in order, looking a name up gives
    what the last instruction on that name says, or the old value when
    there is none. *)
Theorem apply_ops_refines (l : DeadProps) (ops : list PatchOp) (k : PropName) :
  dp_lookup k (foldl apply_op l ops) = ref_value k ops (dp_lookup k l).
Proof.
  revert l. induction ops as [|[k' v|k'] ops IH]; intros l; cbn [foldl apply_op ref_value]; [done|..];
    rewrite IH; f_equal; [apply dp_lookup_set | apply dp_lookup_remove].
Qed.

(** PROPPATCH is all or nothing on a resource.  The statuses come
    one per instruction, in request order.  Either some instruction
    names a live property: nothing changes, the live names get
    [Forbidden] and the others [FailedDependency]; or none does: every
    status is [OK], the resource's dead properties are the patched ones
    and no other resource changes. *)
Theorem ps_patch_all_or_nothing (ps : PropStore) (p : Path) (ops : list PatchOp) :
  let '(ps', res) := ps_patch ps p ops in
  res.*1 = op_name <$> ops /\
  ((Exists (fun o => is_live (op_name o) = true) ops /\ ps' = ps /\
    Forall (fun r => r.2 = if is_live r.1 then PropForbidden else PropFailedDependency) res)
   \/
   (Forall (fun o => is_live (op_name o) = false) ops /\ Forall (fun r => r.2 = PropOK) res /\
    (forall k, dp_lookup k (props_of ps' p) = ref_value k ops (dp_lookup k (props_of ps p))) /\
    (forall q, q <> p -> ps' !! q = ps !! q))).
Proof.
  unfold ps_patch. destruct (existsb _ ops) eqn:E; cbn [fst snd].
  - split; [by rewrite <- list_fmap_compose|]. left. split_and!.
    + apply existsb_exists in E as (o & Ho & Hl). apply Exists_exists.
      exists o. split; [by apply list_elem_of_In | done].
    + done.
    + apply Forall_fmap, Forall_forall. by intros o _.
  - split; [by rewrite <- list_fmap_compose|]. right. split_and!.
    + apply Forall_forall. intros o Ho. apply not_true_is_false. intros Hl.
      enough (existsb (fun o => is_live (op_name o)) ops = true) by congruence.
      apply existsb_exists. exists o. split; [by apply list_elem_of_In | done].
    + apply Forall_fmap, Forall_forall. by intros o _.
    + intros k. rewrite props_of_set, bool_decide_eq_true_2 by done. apply apply_ops_refines.
    + intros q Hq. by apply set_props_other.
Qed.
