(* ===== verification/Engine.v ===== *)
(** * The engine's method dispatcher (spec 4.4, 4.5, modelled from the
    specification)

    One request is one call of [serve]: the path is resolved ([Vfs]),
    the method selects the action of the table of spec 4.4, write access
    is checked against the lock table ([Locks]) with the tokens the
    request submits in its [If] and [Lock-Token] headers, and the status
    of spec 4.5 is written.  The state is the tree, the lock table and
    the clock; [serve] never advances the clock, [tick] does.  A [LOCK]
    on an unmapped path creates an empty resource (RFC 4918, 7.3, as the
    engine [main.go] links does).  The state also holds the property
    store of [Props]: PROPPATCH patches it, PROPFIND reports it, and
    DELETE, COPY and MOVE carry it along with the tree.  [dav_server] is the instance of the
    handler's [DavServer] class. *)

From S2P Require Import Prelude Http DirList Handler Vfs Locks Props.
From stdpp Require Import pretty.

Record DavState := mkDav {
  ds_fs : FS;
  ds_locks : LockTable;
  ds_now : nat;
  ds_props : PropStore
}.

Definition dav_init : DavState := mkDav fs_empty lt_empty 0 ∅.

(** The passage of time between requests. *)
Definition tick (s : DavState) : DavState := mkDav (ds_fs s) (ds_locks s) (S (ds_now s)) (ds_props s).

(** ** Status codes (spec 4.5) *)

Definition StatusCreated : nat := 201.
Definition StatusNoContent : nat := 204.
Definition StatusMultiStatus : nat := 207.

Definition status_of_error (e : DavError) : nat :=
  match e with
  | NotFound => 404
  | Conflict => 409
  | Locked => 423
  | PreconditionFailed => 412
  | Forbidden => 403
  | MethodNotAllowed => 405
  | BadRequest => 400
  end.

Definition respond_error (e : DavError) (w : Writer) : Writer :=
  write_header (status_of_error e) w.

(** ** Headers *)

Definition token_string (k : nat) : string :=
  "<opaquelocktoken:" +s pretty (N.of_nat k) +s ">".

Fixpoint contains (needle hay : string) : bool :=
  String.prefix needle hay ||
  match hay with EmptyString => false | String _ hay' => contains needle hay' end.

(** The tokens of the table the request submits. *)
Definition submitted (lt : LockTable) (req : Request) : list nat :=
  let h := header_get "If" (req_header req) +s header_get "Lock-Token" (req_header req) in
  filter (fun k => contains (token_string k) h = true) (map fst (map_to_list (lt_locks lt))).

Inductive ReqDepth := D0 | D1 | DInf.

#[export] Instance ReqDepth_eq_dec : EqDecision ReqDepth.
Proof. solve_decision. Defined.

Definition parse_depth (h : string) : option ReqDepth :=
  if h ==s "" then Some DInf
  else if h ==s "0" then Some D0
  else if h ==s "1" then Some D1
  else if h ==s "infinity" then Some DInf
  else None.

Definition lock_depth (d : ReqDepth) : Depth :=
  match d with D0 => DepthZero | _ => DepthInfinity end.

Fixpoint parse_digits (acc : nat) (s : string) : option nat :=
  match s with
  | EmptyString => Some acc
  | String c s' =>
      let n := nat_of_ascii c in
      if (48 <=? n) && (n <=? 57) then parse_digits (acc * 10 + (n - 48)) s' else None
  end.

(** [Timeout: Second-N]; one hour when absent or unreadable. *)
Definition parse_timeout (h : string) : nat :=
  if String.prefix "Second-" h then
    match parse_digits 0 (String.substring 7 (String.length h - 7) h) with
    | Some n => n
    | None => 3600
    end
  else 3600.

(** The path of a [Destination] header: an absolute path as is, the
    path component of an absolute URI otherwise. *)
Fixpoint after_authority (s : string) : string :=
  match s with
  | EmptyString => EmptyString
  | String c s' => if Ascii.eqb c "/" then s else after_authority s'
  end.

Fixpoint after_scheme (s : string) : option string :=
  match s with
  | EmptyString => None
  | String c s' => if String.prefix "://" s then Some (String.substring 3 (String.length s - 3) s)
                   else after_scheme s'
  end.

Definition dest_path (d : string) : string :=
  if String.prefix "/" d then d
  else match after_scheme d with Some rest => after_authority rest | None => d end.

(** ** Multi-status bodies (spec 4.5) *)

(** A property inside [<D:prop>]: its local name as element, its
    namespace as default namespace. *)
Definition prop_xml (np : PropName * string) : string :=
  "<" +s np.1.2 +s " xmlns=" +s dq +s np.1.1 +s dq +s ">" +s np.2 +s "</" +s np.1.2 +s ">".

(** The properties of a resource in a PROPFIND answer ([allprop]). *)
Definition props_at (s : DavState) (p : Path) : list (PropName * string) :=
  match fs_get (ds_fs s) p with Some n => ps_get (ds_props s) p n | None => [] end.

Definition ms_entry (s : DavState) (p : Path) : string :=
  "<D:response><D:href>" +s join_path p +s "</D:href><D:propstat><D:prop>"
  +s concat_str (prop_xml <$> props_at s p)
  +s "</D:prop><D:status>HTTP/1.1 200 OK</D:status></D:propstat></D:response>".

Definition ms_open : string := "<D:multistatus xmlns:D=" +s dq +s "DAV:" +s dq +s ">".

Definition multistatus (s : DavState) (ps : list Path) : string :=
  ms_open +s concat_str (map (ms_entry s) ps) +s "</D:multistatus>".

Definition status_text (st : PropStatus) : string :=
  match st with
  | PropOK => "HTTP/1.1 200 OK"
  | PropForbidden => "HTTP/1.1 403 Forbidden"
  | PropFailedDependency => "HTTP/1.1 424 Failed Dependency"
  end.

(** One [<D:propstat>] per instruction of a PROPPATCH, in request order. *)
Definition propstat_xml (r : PropName * PropStatus) : string :=
  "<D:propstat><D:prop><" +s r.1.2 +s " xmlns=" +s dq +s r.1.1 +s dq +s "/></D:prop><D:status>"
  +s status_text r.2 +s "</D:status></D:propstat>".

Definition patch_body (p : Path) (res : list (PropName * PropStatus)) : string :=
  ms_open +s "<D:response><D:href>" +s join_path p +s "</D:href>"
  +s concat_str (propstat_xml <$> res) +s "</D:response></D:multistatus>".

(** The resources a PROPFIND of depth [d] on [p] reports: [p] first. *)
Definition propfind_members (fs : FS) (p : Path) (d : ReqDepth) : list Path :=
  p :: match d with
       | D0 => []
       | D1 => map (fun cn => p ++ [cn.1]) (fs_children fs p)
       | DInf => filter (fun q => p `prefix_of` q /\ q <> p) (map fst (map_to_list (fs_nodes fs)))
       end.

(** ** COPY and MOVE *)

(** Copy the subtree at [src] (only its root for depth 0) below [dst];
    every copied file gets a fresh entity tag. *)
(** One entry of the source subtree copied under [dst]: the entry at
    [src ++ rest] is written at [dst ++ rest] (only the root of the copy
    for [Depth: 0]); a copied file gets a fresh entity tag. *)
Definition copy_step (src dst : Path) (d : ReqDepth) (acc : FS) (qn : Path * Node) : FS :=
  match strip_path src qn.1 with
  | Some rest =>
      if bool_decide (rest = []) || negb (bool_decide (d = D0)) then
        match qn.2 with
        | NDir => mkFS (<[dst ++ rest := NDir]> (fs_nodes acc)) (fs_next_etag acc)
        | NFile c _ => mkFS (<[dst ++ rest := NFile c (fs_next_etag acc)]> (fs_nodes acc))
                            (S (fs_next_etag acc))
        end
      else acc
  | None => acc
  end.

Definition copy_nodes (fs : FS) (src dst : Path) (d : ReqDepth) : FS :=
  foldl (copy_step src dst d) fs (map_to_list (fs_nodes fs)).

(** The checks shared by COPY and MOVE, then the copy: [inr] carries the
    new tree and whether the destination existed before. *)
Definition fs_copy (fs : FS) (src dst : Path) (d : ReqDepth) (overwrite : bool) : DavError + (FS * bool) :=
  match fs_get fs src with
  | None => inl NotFound
  | Some _ =>
      if bool_decide (src `prefix_of` dst) || bool_decide (dst `prefix_of` src) then inl Forbidden
      else if negb (is_dir fs (parent dst)) then inl Conflict
      else match fs_get fs dst with
           | Some _ =>
               if negb overwrite then inl PreconditionFailed
               else match fs_delete fs dst with
                    | inl e => inl e
                    | inr fs' => inr (copy_nodes fs' src dst d, true)
                    end
           | None => inr (copy_nodes fs src dst d, false)
           end
  end.

(** ** The dispatcher *)

Definition with_fs (s : DavState) (fs : FS) : DavState := mkDav fs (ds_locks s) (ds_now s) (ds_props s).
Definition with_locks (s : DavState) (lt : LockTable) : DavState := mkDav (ds_fs s) lt (ds_now s) (ds_props s).
Definition with_props (s : DavState) (ps : PropStore) : DavState := mkDav (ds_fs s) (ds_locks s) (ds_now s) ps.
Definition with_tree (s : DavState) (fs : FS) (ps : PropStore) : DavState := mkDav fs (ds_locks s) (ds_now s) ps.

(** Write access to [p] (and below it for depth infinity). *)
Definition may_write (s : DavState) (req : Request) (p : Path) (d : Depth) : bool :=
  lock_check (ds_now s) p d (submitted (ds_locks s) req) (ds_locks s).

Definition serve_get (head : bool) (s : DavState) (w : Writer) (p : Path) : Writer * DavState :=
  match fs_get (ds_fs s) p with
  | None => (respond_error NotFound w, s)
  | Some NDir => (respond_error MethodNotAllowed w, s)
  | Some (NFile c e) =>
      let w := write_header StatusOK (w_set_header "ETag" (etag_string e) w) in
      (if head then w else write c w, s)
  end.

Definition serve_put (s : DavState) (w : Writer) (req : Request) (p : Path) : Writer * DavState :=
  if negb (may_write s req p DepthZero) then (respond_error Locked w, s)
  else match fs_put (ds_fs s) p (req_body req) with
       | inl e => (respond_error e w, s)
       | inr fs' =>
           (write_header StatusCreated (w_set_header "ETag" (etag_string (fs_next_etag (ds_fs s))) w),
            with_fs s fs')
       end.

Definition serve_delete (s : DavState) (w : Writer) (req : Request) (p : Path) : Writer * DavState :=
  if negb (may_write s req p DepthInfinity) then (respond_error Locked w, s)
  else match fs_delete (ds_fs s) p with
       | inl e => (respond_error e w, s)
       | inr fs' => (write_header StatusNoContent w, with_tree s fs' (ps_delete (ds_props s) p))
       end.

Definition serve_mkcol (s : DavState) (w : Writer) (req : Request) (p : Path) : Writer * DavState :=
  if negb (may_write s req p DepthZero) then (respond_error Locked w, s)
  else match fs_mkcol (ds_fs s) p with
       | inl e => (respond_error e w, s)
       | inr fs' => (write_header StatusCreated w, with_fs s fs')
       end.

Definition serve_propfind (s : DavState) (w : Writer) (req : Request) (p : Path) : Writer * DavState :=
  match parse_depth (header_get "Depth" (req_header req)) with
  | None => (respond_error BadRequest w, s)
  | Some d =>
      match fs_get (ds_fs s) p with
      | None => (respond_error NotFound w, s)
      | Some _ =>
          (write (multistatus s (propfind_members (ds_fs s) p d))
             (write_header StatusMultiStatus
               (w_set_header "Content-Type" "text/xml; charset=utf-8" w)), s)
      end
  end.

(** PROPPATCH: write access to the resource, which must exist, then the
    property store's atomic patch and a 207 answer with one status per
    instruction. *)
Definition serve_proppatch (s : DavState) (w : Writer) (req : Request) (p : Path) : Writer * DavState :=
  if negb (may_write s req p DepthZero) then (respond_error Locked w, s)
  else match fs_get (ds_fs s) p with
       | None => (respond_error NotFound w, s)
       | Some _ =>
           match parse_patch (req_body req) with
           | None => (respond_error BadRequest w, s)
           | Some ops =>
               let '(ps', res) := ps_patch (ds_props s) p ops in
               (write (patch_body p res)
                  (write_header StatusMultiStatus (w_set_header "Content-Type" "text/xml; charset=utf-8" w)),
                with_props s ps')
           end
       end.

(** The parameters of a LOCK request that creates a lock. *)
Definition lock_scope (req : Request) : Scope := if req_body req ==s "shared" then Shared else Exclusive.
Definition lock_owner (req : Request) : string := header_get "Owner" (req_header req).
Definition lock_timeout (req : Request) : nat := parse_timeout (header_get "Timeout" (req_header req)).

(** LOCK without a body refreshes the submitted lock; otherwise it
    creates one (scope from the body, depth from the header) and an empty
    resource when the path was unmapped, giving the lock back when that
    creation fails. *)
Definition serve_lock (s : DavState) (w : Writer) (req : Request) (p : Path) : Writer * DavState :=
  let timeout := lock_timeout req in
  if req_body req ==s "" then
    match submitted (ds_locks s) req with
    | [] => (respond_error BadRequest w, s)
    | k :: _ =>
        match refresh (ds_now s) k timeout (ds_locks s) with
        | inl e => (respond_error e w, s)
        | inr lt' => (write_header StatusOK w, with_locks s lt')
        end
    end
  else
    match parse_depth (header_get "Depth" (req_header req)) with
    | None => (respond_error BadRequest w, s)
    | Some d =>
        match acquire (ds_now s) p (lock_scope req) (lock_depth d) (lock_owner req) timeout (ds_locks s) with
        | inl e => (respond_error e w, s)
        | inr (k, lt') =>
            let w := w_set_header "Lock-Token" (token_string k) w in
            match fs_get (ds_fs s) p with
            | Some _ => (write_header StatusOK w, with_locks s lt')
            | None =>
                match fs_put (ds_fs s) p "" with
                | inl e => (respond_error e w, s)
                | inr fs' => (write_header StatusCreated w, mkDav fs' lt' (ds_now s) (ds_props s))
                end
            end
        end
    end.

Definition serve_unlock (s : DavState) (w : Writer) (req : Request) : Writer * DavState :=
  let h := header_get "Lock-Token" (req_header req) in
  if h ==s "" then (respond_error BadRequest w, s)
  else match filter (fun k => token_string k = h) (map fst (map_to_list (lt_locks (ds_locks s)))) with
       | [] => (respond_error NotFound w, s)
       | k :: _ =>
           match release (ds_now s) k (ds_locks s) with
           | inl e => (respond_error e w, s)
           | inr lt' => (write_header StatusNoContent w, with_locks s lt')
           end
       end.

Definition serve_copy_move (move : bool) (s : DavState) (w : Writer) (req : Request) (p : Path)
    : Writer * DavState :=
  let hd := req_header req in
  match resolve (dest_path (header_get "Destination" hd)), parse_depth (header_get "Depth" hd) with
  | Some dst, Some d =>
      if (header_get "Destination" hd ==s "") then (respond_error BadRequest w, s)
      else if negb (may_write s req dst DepthInfinity) || (move && negb (may_write s req p DepthInfinity))
      then (respond_error Locked w, s)
      else match fs_copy (ds_fs s) p dst (if move then DInf else d) (negb (header_get "Overwrite" hd ==s "F")) with
           | inl e => (respond_error e w, s)
           | inr (fs', existed) =>
               let fs'' := if move then match fs_delete fs' p with inr f => f | inl _ => fs' end else fs' in
               let ps' := ps_copy (ps_delete (ds_props s) dst) p dst (move || negb (bool_decide (d = D0))) in
               let ps'' := if move then ps_delete ps' p else ps' in
               (write_header (if existed then StatusNoContent else StatusCreated) w, with_tree s fs'' ps'')
           end
  | _, _ => (respond_error BadRequest w, s)
  end.

(** [webdav.Handler.ServeHTTP]. *)
Definition serve (s : DavState) (w : Writer) (req : Request) : Writer * DavState :=
  match resolve (req_path req) with
  | None => (respond_error BadRequest w, s)
  | Some p =>
      let m := req_method req in
      if m ==s "GET" then serve_get false s w p
      else if m ==s "HEAD" then serve_get true s w p
      else if m ==s "PUT" then serve_put s w req p
      else if m ==s "DELETE" then serve_delete s w req p
      else if m ==s "MKCOL" then serve_mkcol s w req p
      else if m ==s "PROPFIND" then serve_propfind s w req p
      else if m ==s "LOCK" then serve_lock s w req p
      else if m ==s "UNLOCK" then serve_unlock s w req
      else if m ==s "COPY" then serve_copy_move false s w req p
      else if m ==s "MOVE" then serve_copy_move true s w req p
      else if m ==s "PROPPATCH" then serve_proppatch s w req p
      else if m ==s "OPTIONS" then (write_header StatusOK (w_set_header "DAV" "1, 2" w), s)
      else (respond_error MethodNotAllowed w, s)
  end.

#[export] Instance dav_webdav_fs : WebdavFS DavState := {| OpenFile s name := vfs_open (ds_fs s) name |}.

#[export] Instance dav_server : DavServer DavState := {| dav_fs := dav_webdav_fs; ServeHTTP := serve |}.

(** ** Dispatch *)

Definition dav_locks_wf (s : DavState) : Prop := locks_wf (ds_now s) (ds_locks s).

Lemma serve_resolved (s : DavState) (w : Writer) (req : Request) (p : Path) :
  resolve (req_path req) = Some p ->
  serve s w req =
    let m := req_method req in
    if m ==s "GET" then serve_get false s w p
    else if m ==s "HEAD" then serve_get true s w p
    else if m ==s "PUT" then serve_put s w req p
    else if m ==s "DELETE" then serve_delete s w req p
    else if m ==s "MKCOL" then serve_mkcol s w req p
    else if m ==s "PROPFIND" then serve_propfind s w req p
    else if m ==s "LOCK" then serve_lock s w req p
    else if m ==s "UNLOCK" then serve_unlock s w req
    else if m ==s "COPY" then serve_copy_move false s w req p
    else if m ==s "MOVE" then serve_copy_move true s w req p
    else if m ==s "PROPPATCH" then serve_proppatch s w req p
    else if m ==s "OPTIONS" then (write_header StatusOK (w_set_header "DAV" "1, 2" w), s)
    else (respond_error MethodNotAllowed w, s).
Proof. unfold serve. by intros ->. Qed.

(** Unfold the dispatcher, every handler and the state setters. *)
Ltac unfold_serve :=
  unfold serve, serve_get, serve_put, serve_delete, serve_mkcol, serve_propfind, serve_proppatch,
    serve_lock, serve_unlock, serve_copy_move, with_fs, with_locks, with_props, with_tree.

(** Rewrite [serve] on a resolved request with a literal method. *)
Ltac serve_dispatch p Hres :=
  rewrite (serve_resolved _ _ _ p) by exact Hres; cbn -[serve_get serve_put serve_delete
    serve_mkcol serve_propfind serve_lock serve_unlock serve_copy_move serve_proppatch].

(** Distinct tags are written differently. *)
Lemma etag_string_inj (e1 e2 : nat) : etag_string e1 = etag_string e2 -> e1 = e2.
Proof.
  unfold etag_string. intros H. apply (inj (String.append dq)), string_app_inj_r in H.
  apply (inj pretty), Nat2N.inj in H. exact H.
Qed.

Lemma token_string_nonempty (k : nat) : (token_string k ==s "") = false.
Proof. unfold token_string. by rewrite string_app_cons. Qed.

Lemma respond_error_fresh (e : DavError) (w : Writer) :
  w_sent w = None -> resp_status (respond_error e w) = status_of_error e.
Proof. unfold respond_error, resp_status, write_header. by intros ->. Qed.

(** ** The lock table is well formed after every request *)

Lemma serve_locks_cases (s : DavState) (w : Writer) (req : Request) :
  ds_now (snd (serve s w req)) = ds_now s /\
  (ds_locks (snd (serve s w req)) = ds_locks s \/
   (exists p sc d o t k, acquire (ds_now s) p sc d o t (ds_locks s) = inr (k, ds_locks (snd (serve s w req)))) \/
   (exists k t, refresh (ds_now s) k t (ds_locks s) = inr (ds_locks (snd (serve s w req)))) \/
   (exists k, release (ds_now s) k (ds_locks s) = inr (ds_locks (snd (serve s w req))))).
Proof.
  unfold serve. destruct (resolve (req_path req)) as [p|]; [|by auto].
  repeat (case_match; try by auto).
  all: try (unfold serve_get; repeat case_match; by auto).
  all: try (unfold serve_put, serve_delete, serve_mkcol; repeat case_match; by auto).
  all: try (unfold serve_propfind; repeat case_match; by auto).
  all: try (unfold serve_proppatch; repeat case_match; by auto).
  all: try (unfold serve_copy_move; repeat case_match; by auto).
  all: try (unfold serve_unlock; repeat case_match; simpl; by eauto 10).
  all: unfold serve_lock; repeat case_match; simpl; subst; by eauto 10.
Qed.

(** Every request leaves the lock table well formed (no two unexpired
    incompatible locks, fresh tokens). *)
Lemma serve_locks_wf (s : DavState) (w : Writer) (req : Request) :
  dav_locks_wf s -> dav_locks_wf (snd (serve s w req)).
Proof.
  unfold dav_locks_wf. intros Hwf.
  destruct (serve_locks_cases s w req) as [-> [-> | [(p & sc & d & o & t & k & H) | [(k & t & H) | (k & H)]]]];
    [done | by eapply acquire_wf | by eapply refresh_wf | by eapply release_wf].
Qed.

(** So does the passage of time. *)
Lemma tick_locks_wf (s : DavState) : dav_locks_wf s -> dav_locks_wf (tick s).
Proof. unfold dav_locks_wf. apply locks_wf_mono. simpl. lia. Qed.

(** ** PUT and GET *)

Lemma serve_put_ok (s : DavState) (w : Writer) (req : Request) (p : Path) :
  may_write s req p DepthZero = true ->
  is_dir (ds_fs s) p = false -> is_dir (ds_fs s) (parent p) = true ->
  serve_put s w req p =
    (write_header StatusCreated (w_set_header "ETag" (etag_string (fs_next_etag (ds_fs s))) w),
     with_fs s (mkFS (<[p := NFile (req_body req) (fs_next_etag (ds_fs s))]> (fs_nodes (ds_fs s)))
                     (S (fs_next_etag (ds_fs s))))).
Proof. intros Hm Hd Hp. unfold serve_put. by rewrite Hm, fs_put_ok. Qed.

Lemma serve_get_file (head : bool) (s : DavState) (w : Writer) (p : Path) (c : string) (e : nat) :
  fs_get (ds_fs s) p = Some (NFile c e) ->
  serve_get head s w p =
    (let w := write_header StatusOK (w_set_header "ETag" (etag_string e) w) in
     if head then w else write c w, s).
Proof. unfold serve_get. by intros ->. Qed.

Lemma serve_put_created (s : DavState) (w : Writer) (path content : string) (h : Header) (p : Path) :
  resolve path = Some p ->
  may_write s (mkRequest "PUT" path h content) p DepthZero = true ->
  is_dir (ds_fs s) p = false -> is_dir (ds_fs s) (parent p) = true ->
  serve s w (mkRequest "PUT" path h content) =
    (write_header StatusCreated (w_set_header "ETag" (etag_string (fs_next_etag (ds_fs s))) w),
     with_fs s (mkFS (<[p := NFile content (fs_next_etag (ds_fs s))]> (fs_nodes (ds_fs s)))
                     (S (fs_next_etag (ds_fs s))))).
Proof. intros Hr Hm Hd Hp. serve_dispatch p Hr. by apply serve_put_ok. Qed.

Lemma serve_get_found (s : DavState) (w : Writer) (path b : string) (h : Header) (p : Path) (c : string) (e : nat) :
  resolve path = Some p -> fs_get (ds_fs s) p = Some (NFile c e) ->
  serve s w (mkRequest "GET" path h b) =
    (write c (write_header StatusOK (w_set_header "ETag" (etag_string e) w)), s).
Proof. intros Hr Hg. serve_dispatch p Hr. by rewrite (serve_get_file false _ _ _ c e). Qed.

Lemma serve_get_missing (s : DavState) (w : Writer) (path b : string) (h : Header) (p : Path) :
  resolve path = Some p -> fs_get (ds_fs s) p = None ->
  serve s w (mkRequest "GET" path h b) = (respond_error NotFound w, s).
Proof. intros Hr Hg. serve_dispatch p Hr. unfold serve_get. by rewrite Hg. Qed.

(** ** MKCOL and DELETE *)

Lemma may_write_no_locks (s : DavState) (req : Request) (p : Path) (d : Depth) :
  lt_locks (ds_locks s) = ∅ -> may_write s req p d = true.
Proof.
  intros He. apply lock_check_spec. intros k l Hk. by rewrite He, lookup_empty in Hk.
Qed.

(** An unexpired lock covering the path whose token the request does not
    submit forbids the write. *)
Lemma may_write_blocked (s : DavState) (req : Request) (p : Path) (d : Depth) (k : nat) (l : Lock) :
  lt_locks (ds_locks s) !! k = Some l -> active (ds_now s) l = true ->
  covers l p = true \/ (d = DepthInfinity /\ p `prefix_of` lk_root l) ->
  k ∉ submitted (ds_locks s) req -> may_write s req p d = false.
Proof.
  intros Hk Ha Hc Hn. apply not_true_is_false. unfold may_write. rewrite lock_check_spec.
  intros Hall. by apply Hn, (Hall k l).
Qed.

Lemma serve_mkcol_eq (s : DavState) (w : Writer) (req : Request) (p : Path) :
  may_write s req p DepthZero = true ->
  serve_mkcol s w req p =
    match fs_mkcol (ds_fs s) p with
    | inl e => (respond_error e w, s)
    | inr fs' => (write_header StatusCreated w, with_fs s fs')
    end.
Proof. unfold serve_mkcol. by intros ->. Qed.

Lemma wf_absent_child (fs : FS) (p : Path) (name : string) :
  fs_wf fs -> fs_get fs p = None -> fs_get fs (p ++ [name]) = None.
Proof.
  intros (_ & Hp & _) Hg. destruct (fs_get fs (p ++ [name])) as [n|] eqn:Hc; [|done].
  apply Hp in Hc; [|by destruct p]. rewrite parent_snoc in Hc. unfold is_dir in Hc. by rewrite Hg in Hc.
Qed.

Lemma serve_mkcol_result (s : DavState) (w : Writer) (path b : string) (h : Header) (p : Path) :
  resolve path = Some p -> lt_locks (ds_locks s) = ∅ ->
  serve s w (mkRequest "MKCOL" path h b) =
    match fs_mkcol (ds_fs s) p with
    | inl e => (respond_error e w, s)
    | inr fs' => (write_header StatusCreated w, with_fs s fs')
    end.
Proof. intros Hr Hl. serve_dispatch p Hr. by rewrite serve_mkcol_eq by (by apply may_write_no_locks). Qed.

Lemma serve_delete_locked (s : DavState) (w : Writer) (req : Request) (p : Path) :
  may_write s req p DepthInfinity = false -> serve_delete s w req p = (respond_error Locked w, s).
Proof. unfold serve_delete. by intros ->. Qed.

Lemma serve_delete_result (s : DavState) (w : Writer) (path b : string) (h : Header) (p : Path) :
  resolve path = Some p ->
  serve s w (mkRequest "DELETE" path h b) =
    if negb (may_write s (mkRequest "DELETE" path h b) p DepthInfinity) then (respond_error Locked w, s)
    else match fs_delete (ds_fs s) p with
         | inl e => (respond_error e w, s)
         | inr fs' => (write_header StatusNoContent w, with_tree s fs' (ps_delete (ds_props s) p))
         end.
Proof. intros Hr. by serve_dispatch p Hr. Qed.

(** ** LOCK *)

(** [n] units of time: only the clock moves. *)
Lemma iter_tick (n : nat) (s : DavState) :
  Nat.iter n tick s = mkDav (ds_fs s) (ds_locks s) (ds_now s + n) (ds_props s).
Proof.
  induction n as [|n IH]; simpl; [destruct s; simpl; f_equal; lia|].
  rewrite IH. unfold tick. simpl. f_equal. lia.
Qed.

Lemma acquire_empty (now : nat) (p : Path) (sc : Scope) (d : Depth) (o : string) (t : nat) (lt : LockTable) :
  lt_locks lt = ∅ ->
  acquire now p sc d o t lt = inr (lt_next lt, mkLT {[lt_next lt := mkLock p sc d o (now + t)]} (S (lt_next lt))).
Proof. intros He. unfold acquire, purge. simpl. rewrite He. reflexivity. Qed.
(** When every lock of the table has expired, a new lock is granted as
    on an empty table. *)
Lemma purge_all_expired (now : nat) (lt : LockTable) :
  (forall k l, lt_locks lt !! k = Some l -> active now l = false) -> lt_locks (purge now lt) = ∅.
Proof.
  intros H. apply map_empty. intros k. destruct (lt_locks (purge now lt) !! k) eqn:E; [|done].
  apply purge_lookup in E as [E Ha]. by rewrite (H _ _ E) in Ha.
Qed.

Lemma acquire_all_expired (now : nat) (p : Path) (sc : Scope) (d : Depth) (o : string) (t : nat) (lt : LockTable) :
  (forall k l, lt_locks lt !! k = Some l -> active now l = false) ->
  acquire now p sc d o t lt = inr (lt_next lt, mkLT {[lt_next lt := mkLock p sc d o (now + t)]} (S (lt_next lt))).
Proof. intros H. unfold acquire. cbv zeta. rewrite (purge_all_expired _ _ H). reflexivity. Qed.

(** Releasing the only lock, while it is unexpired, empties the table. *)
Lemma release_single (now k n : nat) (l : Lock) :
  active now l = true -> release now k (mkLT {[k := l]} n) = inr (mkLT ∅ n).
Proof.
  intros Ha. unfold release, purge. simpl. rewrite map_filter_singleton_True by done.
  by rewrite lookup_singleton_eq, delete_singleton_eq.
Qed.


Lemma serve_lock_new (s : DavState) (w : Writer) (req : Request) (p : Path) (d : ReqDepth) :
  resolve (req_path req) = Some p -> req_method req = "LOCK" -> (req_body req ==s "") = false ->
  parse_depth (header_get "Depth" (req_header req)) = Some d ->
  serve s w req =
    match acquire (ds_now s) p (lock_scope req) (lock_depth d) (lock_owner req) (lock_timeout req) (ds_locks s) with
    | inl e => (respond_error e w, s)
    | inr (k, lt') =>
        let w := w_set_header "Lock-Token" (token_string k) w in
        match fs_get (ds_fs s) p with
        | Some _ => (write_header StatusOK w, with_locks s lt')
        | None =>
            match fs_put (ds_fs s) p "" with
            | inl e => (respond_error e w, s)
            | inr fs' => (write_header StatusCreated w, mkDav fs' lt' (ds_now s) (ds_props s))
            end
        end
    end.
Proof.
  intros Hr Hm Hb Hd. rewrite (serve_resolved _ _ _ p Hr). cbv zeta. rewrite Hm. cbn -[serve_lock].
  unfold serve_lock. by rewrite Hb, Hd.
Qed.

(** ** What the verbs outside the read-only list do to the tree *)

Lemma serve_lock_fs (s : DavState) (w : Writer) (req : Request) (p : Path) :
  ds_fs (snd (serve_lock s w req p)) = ds_fs s \/
  (fs_get (ds_fs s) p = None /\ fs_put (ds_fs s) p "" = inr (ds_fs (snd (serve_lock s w req p)))).
Proof. unfold serve_lock. repeat case_match; simplify_eq; simpl; by auto. Qed.

(** Besides the six verbs of [main.go]'s read-only list, only LOCK
    changes the tree, by creating an empty resource at an unmapped
    path. *)
Lemma serve_fs_readonly_cases (s : DavState) (w : Writer) (req : Request) :
  req_method req ∉ readonly_methods ->
  ds_fs (snd (serve s w req)) = ds_fs s \/
  exists p, fs_get (ds_fs s) p = None /\ fs_put (ds_fs s) p "" = inr (ds_fs (snd (serve s w req))).
Proof.
  intros Hm. unfold serve. destruct (resolve (req_path req)) as [p|]; [|by left].
  assert (Hno : forall m, m ∈ readonly_methods -> (req_method req ==s m) = false).
  { intros m Hin. apply streqb_ne. intros Heq. by rewrite Heq in Hm. }
  rewrite (Hno "PUT"), (Hno "DELETE"), (Hno "MKCOL"), (Hno "COPY"), (Hno "MOVE"), (Hno "PROPPATCH")
    by (unfold readonly_methods; set_solver).
  destruct (req_method req ==s "GET"); [unfold serve_get; repeat case_match; by left|].
  destruct (req_method req ==s "HEAD"); [unfold serve_get; repeat case_match; by left|].
  destruct (req_method req ==s "PROPFIND"); [unfold serve_propfind; repeat case_match; by left|].
  destruct (req_method req ==s "LOCK").
  - destruct (serve_lock_fs s w req p) as [H | [Hg Hp]]; [by left | right; eauto].
  - destruct (req_method req ==s "UNLOCK"); [unfold serve_unlock; repeat case_match; by left|].
    repeat case_match; by left.
Qed.

(** ** Headers stay canonical *)

Lemma serve_writer_ok (s : DavState) (w : Writer) (req : Request) :
  writer_ok w -> writer_ok (fst (serve s w req)).
Proof.
  intros Hw. unfold_serve. unfold respond_error.
  repeat case_match; simplify_eq/=; eauto 10 with webdav.
Qed.

(** ** Witnesses *)

Lemma dav_init_locks_wf : dav_locks_wf dav_init.
Proof. split; simpl; intros; by rewrite lookup_empty in *. Qed.
