(* ===== verification/TreeWf.v ===== *)
(** * The tree stays well formed through every request

    [fs_wf] of [Vfs] (root collection, every node under a collection,
    entity tags below the counter) is preserved by every request the
    engine of [Engine] serves: PUT, MKCOL, DELETE and LOCK by the lemmas
    of [Vfs], COPY and MOVE by the analysis of [copy_nodes] below, which
    folds [copy_step] over the entries of the source tree. *)

From S2P Require Import Prelude Http Vfs Locks Engine.

(** Whether a node is a collection. *)
Definition is_coll (n : Node) : bool := match n with NDir => true | NFile _ _ => false end.

(** Whether [copy_step] copies the entry at relative path [rest]. *)
Definition copy_cond (d : ReqDepth) (rest : Path) : bool :=
  bool_decide (rest = []) || negb (bool_decide (d = D0)).

(** The node [copy_step] writes for [n] with counter [k]. *)
Definition copy_node (n : Node) (k : nat) : Node :=
  match n with NDir => NDir | NFile c _ => NFile c k end.

(** Every path of the tree consists of proper segments, so that it is
    the resolution of its own rendering ([resolve_join]). *)
Definition paths_ok (fs : FS) : Prop :=
  forall p n, fs_get fs p = Some n -> Forall (fun seg => seg_ok seg = true) p.

(** ** Helpers on paths and on the invariant *)

Lemma parent_app (p r : Path) : r <> [] -> parent (p ++ r) = p ++ parent r.
Proof. intros Hr. unfold parent. by rewrite removelast_app. Qed.

Lemma snoc_parent (q : Path) : q <> [] -> exists x, q = parent q ++ [x].
Proof.
  intros Hne. destruct (exists_last Hne) as (l & a & ->). exists a. by rewrite parent_snoc.
Qed.

Lemma is_dir_same (fs1 fs2 : FS) (p : Path) : fs_get fs1 p = fs_get fs2 p -> is_dir fs1 p = is_dir fs2 p.
Proof. unfold is_dir. by intros ->. Qed.

Lemma is_dir_coll (fs : FS) (p : Path) (n : Node) : fs_get fs p = Some n -> is_dir fs p = is_coll n.
Proof. unfold is_dir. intros ->. by destruct n. Qed.

(** Nothing lies below an absent path of a well-formed tree. *)
Lemma wf_absent_below (fs : FS) (p : Path) :
  fs_wf fs -> fs_get fs p = None -> forall q, p `prefix_of` q -> fs_get fs q = None.
Proof.
  intros Hwf Hp q. induction q as [|x q IH] using rev_ind; intros Hpre.
  - by apply prefix_nil_inv in Hpre as ->.
  - destruct (decide (p = q ++ [x])) as [->|Hne]; [done|].
    assert (Hq : p `prefix_of` q).
    { destruct Hpre as [t Ht]. destruct t as [|y t] using rev_ind; [by rewrite app_nil_r in Ht|].
      exists t. rewrite app_assoc in Ht. by apply app_inj_tail in Ht as [-> _]. }
    destruct (fs_get fs (q ++ [x])) as [n|] eqn:Hg; [|done].
    destruct Hwf as (_ & Hpar & _). apply Hpar in Hg; [|by destruct q].
    rewrite parent_snoc in Hg. unfold is_dir in Hg. by rewrite IH in Hg.
Qed.

(** ** One step of the copy *)

Section Copy.
Context (src dst : Path) (d : ReqDepth).

Lemma copy_step_get (acc : FS) (k : Path) (n : Node) (q : Path) :
  fs_get (copy_step src dst d acc (k, n)) q =
    match strip_path src k with
    | Some rest => if copy_cond d rest && bool_decide (q = dst ++ rest)
                   then Some (copy_node n (fs_next_etag acc)) else fs_get acc q
    | None => fs_get acc q
    end.
Proof.
  unfold copy_step, copy_cond. simpl. destruct (strip_path src k) as [rest|]; [|done].
  destruct (_ || _); simpl; [|done].
  destruct n; unfold fs_get; simpl; rewrite lookup_insert; by repeat case_decide; simplify_eq.
Qed.

Lemma copy_step_next (acc : FS) (qn : Path * Node) :
  fs_next_etag acc <= fs_next_etag (copy_step src dst d acc qn).
Proof. unfold copy_step. repeat case_match; simpl; lia. Qed.

(** The fold leaves alone every path no entry is copied to. *)
Lemma copy_fold_frame (l : list (Path * Node)) (acc : FS) (q : Path) :
  (forall k n rest, (k, n) ∈ l -> strip_path src k = Some rest -> q <> dst ++ rest) ->
  fs_get (foldl (copy_step src dst d) acc l) q = fs_get acc q.
Proof.
  revert acc. induction l as [|[k n] l IH]; intros acc Hl; [done|]. simpl.
  rewrite IH by (intros; eapply Hl; [by right | done]).
  rewrite copy_step_get. destruct (strip_path src k) as [rest|] eqn:Hs; [|done].
  rewrite (bool_decide_eq_false_2 (q = dst ++ rest)), andb_false_r; [done|].
  eapply Hl; [by left | done].
Qed.

(** Every node written at [dst ++ rest] is a copy of the node at
    [src ++ rest], of the same kind. *)
Lemma copy_fold_origin (l : list (Path * Node)) (acc : FS) (rest : Path) (n : Node) :
  fs_get (foldl (copy_step src dst d) acc l) (dst ++ rest) = Some n ->
  fs_get acc (dst ++ rest) = Some n \/
  exists n0, (src ++ rest, n0) ∈ l /\ is_coll n = is_coll n0 /\ copy_cond d rest = true.
Proof.
  revert acc. induction l as [|[k n'] l IH]; intros acc Hf; [by left|]. simpl in Hf.
  destruct (IH _ Hf) as [Ha | (n0 & Hin & Hc & Hcd)]; [|right; exists n0; split; [by right | done]].
  rewrite copy_step_get in Ha. destruct (strip_path src k) as [r|] eqn:Hs; [|by left].
  destruct (copy_cond d r) eqn:Hcd; simpl in Ha; [|by left].
  case_bool_decide as Hq; [|by left]. apply strip_path_app_inv in Hq as <-.
  apply strip_path_some in Hs as ->. injection Ha as <-.
  right. exists n'. split; [by left|]. split; [by destruct n' | done].
Qed.

(** Every entry of the source that the depth selects is copied: the
    same collection, or the same content under a new tag (the entries
    have distinct paths). *)
Lemma copy_fold_copied (l : list (Path * Node)) (acc : FS) (rest : Path) (n0 : Node) :
  NoDup l.*1 -> (src ++ rest, n0) ∈ l -> copy_cond d rest = true ->
  exists k, fs_get (foldl (copy_step src dst d) acc l) (dst ++ rest) = Some (copy_node n0 k).
Proof.
  revert acc. induction l as [|[k n'] l IH]; intros acc Hnd Hin Hcd; [by apply elem_of_nil in Hin|].
  simpl in *. apply NoDup_cons in Hnd as [Hk Hnd].
  apply elem_of_cons in Hin as [[= <- <-] | Hin]; [|by apply IH].
  rewrite copy_fold_frame.
  - rewrite copy_step_get, strip_path_app, Hcd, bool_decide_true by done. by eexists.
  - intros k2 n2 r2 Hin2 Hs2 Heq. apply strip_path_app_inv in Heq as <-.
    apply strip_path_some in Hs2 as ->. apply Hk, list_elem_of_fmap. by exists (src ++ rest, n2).
Qed.

(** Copied files get tags from the counter, which only grows. *)
Lemma copy_fold_etags (l : list (Path * Node)) (acc : FS) :
  (forall q c e, fs_get acc q = Some (NFile c e) -> e < fs_next_etag acc) ->
  (forall q c e, fs_get (foldl (copy_step src dst d) acc l) q = Some (NFile c e) ->
     e < fs_next_etag (foldl (copy_step src dst d) acc l)).
Proof.
  revert acc. induction l as [|[k n] l IH]; intros acc He; [done|]. simpl. apply IH.
  intros q c e Hq. rewrite copy_step_get in Hq. pose proof (copy_step_next acc (k, n)) as Hle.
  destruct (strip_path src k) as [rest|] eqn:Hs; [|apply He in Hq; lia].
  destruct (copy_cond d rest && _) eqn:Hc; [|apply He in Hq; lia].
  apply andb_true_iff in Hc as [Hc _]. destruct n as [|c0 e0]; simplify_eq/=.
  unfold copy_step. simpl. rewrite Hs. unfold copy_cond in Hc. rewrite Hc. simpl. lia.
Qed.
End Copy.

Lemma strip_path_shorter (p q : Path) : List.length q < List.length p -> strip_path p q = None.
Proof.
  intros Hl. destruct (strip_path p q) as [r|] eqn:Hs; [|done].
  apply strip_path_some in Hs as ->. rewrite length_app in Hl. lia.
Qed.

Lemma parent_length (p : Path) : p <> [] -> List.length (parent p) < List.length p.
Proof.
  intros Hne. destruct (snoc_parent p Hne) as [x Hx]. rewrite Hx at 2. rewrite length_app. simpl. lia.
Qed.

(** ** COPY and MOVE keep the tree well formed *)

(** Copying into a place whose parent is a collection and below which
    nothing exists gives a well-formed tree. *)
Lemma copy_nodes_wf (fs : FS) (src dst : Path) (d : ReqDepth) :
  fs_wf fs -> dst <> [] -> is_dir fs (parent dst) = true ->
  (forall q, dst `prefix_of` q -> fs_get fs q = None) ->
  fs_wf (copy_nodes fs src dst d).
Proof.
  intros Hwf Hne Hpd Hbelow. pose proof Hwf as (Hr & Hp & He).
  assert (Hin : forall k n, (k, n) ∈ map_to_list (fs_nodes fs) <-> fs_get fs k = Some n)
    by (intros; apply elem_of_map_to_list).
  assert (Hframe : forall q, strip_path dst q = None -> fs_get (copy_nodes fs src dst d) q = fs_get fs q).
  { intros q Hq. apply copy_fold_frame. intros k n rest _ _ ->. by rewrite strip_path_app in Hq. }
  split; [|split].
  - rewrite Hframe; [done|]. apply strip_path_shorter. destruct dst; [done|]. simpl. lia.
  - intros q m Hq Hqne. destruct (strip_path dst q) as [rest|] eqn:Hs.
    + apply strip_path_some in Hs as ->.
      destruct (copy_fold_origin src dst d _ fs rest m Hq) as [Hold | (n0 & Hn0 & _ & Hc)].
      { rewrite Hbelow in Hold; [done | by exists rest]. }
      apply Hin in Hn0. destruct (decide (rest = [])) as [->|Hrne].
      * rewrite app_nil_r, (is_dir_same _ fs); [done|].
        by apply Hframe, strip_path_shorter, parent_length.
      * rewrite parent_app by done.
        assert (Hsd : is_dir fs (src ++ parent rest) = true).
        { rewrite <- parent_app by done. apply (Hp _ n0 Hn0). by destruct src. }
        destruct (fs_get fs (src ++ parent rest)) as [[|]|] eqn:Hsp; unfold is_dir in Hsd; rewrite Hsp in Hsd; try done.
        assert (Hcd : copy_cond d (parent rest) = true).
        { unfold copy_cond in *. rewrite bool_decide_false in Hc by done. simpl in Hc. by rewrite Hc, orb_true_r. }
        destruct (copy_fold_copied src dst d _ fs (parent rest) NDir (NoDup_fst_map_to_list _)
                    (proj2 (Hin _ _) Hsp) Hcd) as (k & Hn).
        by rewrite (is_dir_coll (copy_nodes fs src dst d) _ _ Hn).
    + rewrite Hframe in Hq by done. pose proof (Hp q m Hq Hqne) as Hd.
      rewrite (is_dir_same _ fs); [done|]. apply Hframe.
      destruct (strip_path dst (parent q)) as [r|] eqn:Hs2; [|done]. exfalso.
      apply strip_path_some in Hs2. destruct (snoc_parent q Hqne) as [x Hx].
      rewrite Hx, Hs2, <- app_assoc, strip_path_app in Hs. discriminate.
  - unfold copy_nodes. by apply copy_fold_etags.
Qed.

Lemma fs_copy_wf (fs fs' : FS) (src dst : Path) (d : ReqDepth) (ow b : bool) :
  fs_wf fs -> fs_copy fs src dst d ow = inr (fs', b) -> fs_wf fs'.
Proof.
  unfold fs_copy. intros Hwf. destruct (fs_get fs src); [|done].
  destruct (bool_decide (src `prefix_of` dst) || bool_decide (dst `prefix_of` src)) eqn:Hpre; [done|].
  apply orb_false_iff in Hpre as [_ Hds]. apply bool_decide_eq_false in Hds.
  assert (Hne : dst <> []) by (intros ->; apply Hds, prefix_nil).
  destruct (is_dir fs (parent dst)) eqn:Hpd; [|done]. simpl.
  destruct (fs_get fs dst) eqn:Hd.
  - destruct ow; [|done]. destruct (fs_delete fs dst) as [e|fs1] eqn:Hdel; [done|]. intros [= <- _].
    apply copy_nodes_wf; [by eapply fs_delete_wf | done | |].
    + rewrite (is_dir_same _ fs); [done|]. rewrite (fs_delete_get _ _ _ Hdel), decide_False; [done|].
      intros Hp%prefix_length. pose proof (parent_length dst Hne). lia.
    + intros q Hq. rewrite (fs_delete_get _ _ _ Hdel). by rewrite decide_True.
  - intros [= <- _]. apply copy_nodes_wf; [done..|]. intros q. by apply wf_absent_below.
Qed.

(** ** Every request *)

Lemma serve_fs_wf (s : DavState) (w : Writer) (req : Request) :
  fs_wf (ds_fs s) -> fs_wf (ds_fs (snd (serve s w req))).
Proof.
  intros Hwf. unfold_serve.
  repeat case_match; simplify_eq/=; eauto using fs_put_wf, fs_mkcol_wf, fs_delete_wf, fs_copy_wf.
Qed.

(** ** What MOVE does to a file *)

Lemma copy_nodes_frame (fs : FS) (src dst : Path) (d : ReqDepth) (q : Path) :
  ~ dst `prefix_of` q -> fs_get (copy_nodes fs src dst d) q = fs_get fs q.
Proof. intros Hn. apply copy_fold_frame. intros k n rest _ _ ->. apply Hn. by exists rest. Qed.

Lemma copy_nodes_root (fs : FS) (src dst : Path) (d : ReqDepth) (n0 : Node) :
  fs_get fs src = Some n0 -> exists k, fs_get (copy_nodes fs src dst d) dst = Some (copy_node n0 k).
Proof.
  intros Hs. pose proof (copy_fold_copied src dst d (map_to_list (fs_nodes fs)) fs [] n0
                           (NoDup_fst_map_to_list _)) as Hc.
  rewrite !app_nil_r in Hc. apply Hc; [by apply elem_of_map_to_list |].
  unfold copy_cond. by rewrite bool_decide_true.
Qed.

(** A MOVE of a file [p] to an absent [q] under a collection, which the
    locks allow: 201, the file is gone from [p] and its content is at
    [q] under a new tag. *)
Lemma serve_move_file (s : DavState) (w : Writer) (req : Request) (p q : Path) (d : ReqDepth)
    (c : string) (e : nat) :
  resolve (req_path req) = Some p -> req_method req = "MOVE" ->
  resolve (dest_path (header_get "Destination" (req_header req))) = Some q ->
  parse_depth (header_get "Depth" (req_header req)) = Some d ->
  (header_get "Destination" (req_header req) ==s "") = false ->
  may_write s req q DepthInfinity = true -> may_write s req p DepthInfinity = true ->
  fs_get (ds_fs s) p = Some (NFile c e) -> fs_get (ds_fs s) q = None ->
  is_dir (ds_fs s) (parent q) = true -> ~ p `prefix_of` q -> ~ q `prefix_of` p ->
  fst (serve s w req) = write_header StatusCreated w /\
  fs_get (ds_fs (snd (serve s w req))) p = None /\
  exists k, fs_get (ds_fs (snd (serve s w req))) q = Some (NFile c k).
Proof.
  intros Hr Hm Hq Hd Hdn Hwq Hwp Hp Hqa Hpar Hpq Hqp.
  rewrite (serve_resolved _ _ _ p Hr). cbv zeta. rewrite Hm. cbn -[serve_copy_move].
  unfold serve_copy_move. rewrite Hq, Hd, Hdn, Hwq, Hwp. cbn -[fs_copy].
  unfold fs_copy. rewrite Hp, !bool_decide_false, Hpar, Hqa by done. cbn -[copy_nodes].
  pose proof (copy_nodes_frame (ds_fs s) p q DInf p Hqp) as Hcp. rewrite Hp in Hcp.
  destruct (fs_delete (copy_nodes (ds_fs s) p q DInf) p) as [err|f] eqn:Hdel.
  { unfold fs_delete in Hdel. rewrite Hcp in Hdel. destruct p; [by destruct Hpq; exists q | done]. }
  simpl. split; [done|]. rewrite !(fs_delete_get _ _ _ Hdel). split; [by rewrite decide_True|].
  rewrite decide_False by done. by destruct (copy_nodes_root (ds_fs s) p q DInf _ Hp) as [k ->]; exists k.
Qed.

(** ** Every stored path is a resolved path *)

Lemma fs_empty_paths_ok : paths_ok fs_empty.
Proof.
  intros p n Hp. unfold fs_get in Hp. simpl in Hp. by apply lookup_singleton_Some in Hp as [<- _].
Qed.

Lemma paths_ok_insert (fs : FS) (p : Path) (n : Node) (k : nat) :
  paths_ok fs -> Forall (fun seg => seg_ok seg = true) p -> paths_ok (mkFS (<[p := n]> (fs_nodes fs)) k).
Proof.
  intros Hok Hp q m Hq. unfold fs_get in Hq. simpl in Hq. rewrite lookup_insert in Hq.
  case_decide; [by subst | by eapply Hok].
Qed.

Lemma fs_put_paths_ok (fs fs' : FS) (x : string) (p : Path) (c : string) :
  paths_ok fs -> resolve x = Some p -> fs_put fs p c = inr fs' -> paths_ok fs'.
Proof.
  intros Hok Hr%resolve_confined. unfold fs_put.
  repeat case_match; intros; simplify_eq; by apply paths_ok_insert.
Qed.

Lemma fs_mkcol_paths_ok (fs fs' : FS) (x : string) (p : Path) :
  paths_ok fs -> resolve x = Some p -> fs_mkcol fs p = inr fs' -> paths_ok fs'.
Proof.
  intros Hok Hr%resolve_confined. unfold fs_mkcol.
  repeat case_match; intros; simplify_eq; by apply paths_ok_insert.
Qed.

Lemma fs_delete_paths_ok (fs fs' : FS) (p : Path) : paths_ok fs -> fs_delete fs p = inr fs' -> paths_ok fs'.
Proof.
  intros Hok Hdel q n Hq. rewrite (fs_delete_get _ _ _ Hdel) in Hq. case_decide; [done | by eapply Hok].
Qed.

Lemma copy_nodes_paths_ok (fs : FS) (src dst : Path) (d : ReqDepth) :
  paths_ok fs -> Forall (fun seg => seg_ok seg = true) dst -> paths_ok (copy_nodes fs src dst d).
Proof.
  intros Hok Hdst q n Hq. destruct (strip_path dst q) as [rest|] eqn:Hs.
  - apply strip_path_some in Hs as ->. apply Forall_app. split; [done|].
    destruct (copy_fold_origin src dst d _ fs rest n Hq) as [Hold | (n0 & Hin & _)].
    + by apply Hok, Forall_app in Hold as [_ ?].
    + apply elem_of_map_to_list in Hin. by apply Hok, Forall_app in Hin as [_ ?].
  - unfold copy_nodes in Hq. rewrite copy_fold_frame in Hq; [by eapply Hok|].
    intros k m rest _ _ ->. by rewrite strip_path_app in Hs.
Qed.

Lemma fs_copy_paths_ok (fs fs' : FS) (y : string) (src dst : Path) (d : ReqDepth) (ow b : bool) :
  paths_ok fs -> resolve y = Some dst -> fs_copy fs src dst d ow = inr (fs', b) -> paths_ok fs'.
Proof.
  intros Hok Hr%resolve_confined. unfold fs_copy.
  repeat case_match; intros; simplify_eq; eauto using copy_nodes_paths_ok, fs_delete_paths_ok.
Qed.

Lemma serve_paths_ok (s : DavState) (w : Writer) (req : Request) :
  paths_ok (ds_fs s) -> paths_ok (ds_fs (snd (serve s w req))).
Proof.
  intros Hok. unfold_serve.
  repeat case_match; simplify_eq/=;
    eauto using fs_put_paths_ok, fs_mkcol_paths_ok, fs_delete_paths_ok, fs_copy_paths_ok.
Qed.
