(* ===== verification/StoreWf.v ===== *)
(** * The property store stays attached to the tree

    [props_wf]: every path that has dead properties is a resource of the
    tree.  It holds of the initial state and every request preserves it:
    PROPPATCH patches only an existing resource, DELETE drops the
    properties of the subtree it removes, COPY writes properties only
    where it copies a resource, and MOVE drops the source's.  So a
    resource that is deleted and created again starts without the old
    dead properties. *)

From S2P Require Import Prelude Http Vfs Locks Props Engine TreeWf.

Definition props_wf (s : DavState) : Prop :=
  forall q l, ds_props s !! q = Some l -> fs_get (ds_fs s) q <> None.

(** ** What the tree operations keep *)

Lemma fs_put_keeps (fs fs' : FS) (p q : Path) (c : string) :
  fs_put fs p c = inr fs' -> fs_get fs q <> None -> fs_get fs' q <> None.
Proof. intros H. rewrite (fs_put_lookup _ _ _ q _ H). by case_decide. Qed.

Lemma fs_mkcol_keeps (fs fs' : FS) (p q : Path) :
  fs_mkcol fs p = inr fs' -> fs_get fs q <> None -> fs_get fs' q <> None.
Proof.
  unfold fs_mkcol. destruct (fs_get fs p) eqn:Hp; [done|]. destruct (is_dir fs (parent p)); [|done].
  intros [= <-]. unfold fs_get. cbn. rewrite lookup_insert. by case_decide.
Qed.

Lemma fs_delete_keeps (fs fs' : FS) (p q : Path) :
  fs_delete fs p = inr fs' -> ~ p `prefix_of` q -> fs_get fs q <> None -> fs_get fs' q <> None.
Proof. intros H Hn. rewrite (fs_delete_get _ _ _ H). by rewrite decide_False. Qed.

(** A successful copy is [copy_nodes] over a tree that agrees with the
    original off the destination. *)
Lemma fs_copy_shape (fs fs' : FS) (src dst : Path) (d : ReqDepth) (ow b : bool) :
  fs_copy fs src dst d ow = inr (fs', b) ->
  exists fs1, fs' = copy_nodes fs1 src dst d /\ (forall k, ~ dst `prefix_of` k -> fs_get fs1 k = fs_get fs k).
Proof.
  unfold fs_copy. destruct (fs_get fs src); [|done]. destruct (_ || _); [done|].
  destruct (negb _); [done|]. destruct (fs_get fs dst).
  - destruct (negb ow); [done|]. destruct (fs_delete fs dst) as [|f] eqn:Hd; [done|].
    intros [= <- _]. exists f. split; [done|]. intros k Hk. rewrite (fs_delete_get _ _ _ Hd). by rewrite decide_False.
  - intros [= <- _]. by exists fs.
Qed.

(** The properties COPY writes sit on resources of the copied tree. *)
Lemma copy_props_wf (fs fs' : FS) (ps : PropStore) (src dst : Path) (d : ReqDepth) (ow b all : bool) :
  (forall q l, ps !! q = Some l -> fs_get fs q <> None) ->
  fs_copy fs src dst d ow = inr (fs', b) -> all = negb (bool_decide (d = D0)) ->
  forall q l, ps_copy (ps_delete ps dst) src dst all !! q = Some l -> fs_get fs' q <> None.
Proof.
  intros Hps Hc -> q l Hq. destruct (fs_copy_shape _ _ _ _ _ _ _ Hc) as (fs1 & -> & Hfs1).
  destruct (decide (dst `prefix_of` q)) as [[rest ->]|Hn].
  - destruct (ps_copy_origin _ _ _ _ _ _ Hq) as [H1 | [H1 Hcond]].
    + rewrite ps_delete_lookup, bool_decide_true in H1 by (by exists rest). congruence.
    + rewrite ps_delete_lookup in H1. destruct (decide (dst `prefix_of` src ++ rest)) as [Hsd|Hsd];
        [by rewrite bool_decide_true in H1 | rewrite bool_decide_false in H1 by done].
      apply Hps in H1. rewrite <- Hfs1 in H1 by done.
      destruct (fs_get fs1 (src ++ rest)) as [n0|] eqn:Hg; [|congruence].
      destruct (copy_fold_copied src dst d (map_to_list (fs_nodes fs1)) fs1 rest n0 (NoDup_fst_map_to_list _))
        as [k Hk]; [by apply elem_of_map_to_list | exact Hcond |].
      unfold copy_nodes. by rewrite Hk.
  - rewrite ps_copy_frame, ps_delete_lookup, bool_decide_false in Hq by done.
    apply Hps in Hq. by rewrite copy_nodes_frame, Hfs1.
Qed.

(** ** Every request *)

Lemma serve_props_wf (s : DavState) (w : Writer) (req : Request) :
  props_wf s -> props_wf (snd (serve s w req)).
Proof.
  unfold props_wf. intros Hwf. unfold_serve.
  repeat case_match; simplify_eq/=; try exact Hwf.
  all: intros qq ll Hq.
  all: try by eauto using fs_put_keeps, fs_mkcol_keeps.
  (* PROPPATCH *)
  all: try (match goal with H : ps_patch _ _ _ = _ |- _ =>
              destruct (ps_patch_lookup _ _ _ _ _ _ _ H Hq) as [-> | Hq']; [congruence | by eapply Hwf] end).
  (* COPY *)
  all: try (by eapply copy_props_wf; [exact Hwf | eassumption | reflexivity | exact Hq]).
  (* DELETE, and MOVE's removal of the source *)
  all: rewrite ps_delete_lookup in Hq; case_bool_decide as Hpre; [congruence|].
  all: try (by eapply fs_delete_keeps; [eassumption | exact Hpre | by eapply Hwf]).
  all: try (by eapply copy_props_wf; [exact Hwf | eassumption | reflexivity | exact Hq]).
  all: eapply fs_delete_keeps; [eassumption | exact Hpre |].
  all: by eapply copy_props_wf; [exact Hwf | eassumption | reflexivity | exact Hq].
Qed.

(** ** MOVE carries the dead properties *)

(** A MOVE of any resource [p] to an absent [q] under a collection,
    which the locks allow: 201, the dead properties of [p] are now those
    of [q], and [p] has none. *)
Lemma serve_move_props (s : DavState) (w : Writer) (req : Request) (p q : Path) (d : ReqDepth) (n : Node) :
  resolve (req_path req) = Some p -> req_method req = "MOVE" ->
  resolve (dest_path (header_get "Destination" (req_header req))) = Some q ->
  parse_depth (header_get "Depth" (req_header req)) = Some d ->
  (header_get "Destination" (req_header req) ==s "") = false ->
  may_write s req q DepthInfinity = true -> may_write s req p DepthInfinity = true ->
  fs_get (ds_fs s) p = Some n -> fs_get (ds_fs s) q = None ->
  is_dir (ds_fs s) (parent q) = true -> ~ p `prefix_of` q -> ~ q `prefix_of` p ->
  fst (serve s w req) = write_header StatusCreated w /\
  props_of (ds_props (snd (serve s w req))) q = props_of (ds_props s) p /\
  props_of (ds_props (snd (serve s w req))) p = [].
Proof.
  intros Hr Hm Hq Hd Hdn Hwq Hwp Hp Hqa Hpar Hpq Hqp.
  rewrite (serve_resolved _ _ _ p Hr). cbv zeta. rewrite Hm. cbn -[serve_copy_move].
  unfold serve_copy_move. rewrite Hq, Hd, Hdn, Hwq, Hwp. cbn -[fs_copy].
  unfold fs_copy. rewrite Hp, !bool_decide_false, Hpar, Hqa by done. cbn -[copy_nodes ps_copy ps_delete].
  split; [done|]. unfold props_of.
  rewrite !ps_delete_lookup, (bool_decide_true (p `prefix_of` p)), (bool_decide_false (p `prefix_of` q)) by done.
  split; [|done]. rewrite ps_copy_root, ps_delete_lookup, bool_decide_false by done.
  destruct (ds_props s !! p); [done|]. by rewrite ps_delete_lookup, bool_decide_true.
Qed.

(** ** PROPPATCH and PROPFIND *)

Lemma serve_proppatch_result (s : DavState) (w : Writer) (req : Request) (p : Path) (n : Node) (ops : list PatchOp) :
  resolve (req_path req) = Some p -> req_method req = "PROPPATCH" ->
  may_write s req p DepthZero = true -> fs_get (ds_fs s) p = Some n -> parse_patch (req_body req) = Some ops ->
  serve s w req =
    (write (patch_body p (ps_patch (ds_props s) p ops).2)
       (write_header StatusMultiStatus (w_set_header "Content-Type" "text/xml; charset=utf-8" w)),
     with_props s (ps_patch (ds_props s) p ops).1).
Proof.
  intros Hr Hm Hw Hn Hb. rewrite (serve_resolved _ _ _ p Hr). cbv zeta. rewrite Hm. cbn -[serve_proppatch].
  unfold serve_proppatch. rewrite Hw, Hn, Hb. cbn -[ps_patch]. by destruct (ps_patch _ _ _).
Qed.

Lemma serve_propfind_depth0 (s : DavState) (w : Writer) (req : Request) (p : Path) (n : Node) :
  resolve (req_path req) = Some p -> req_method req = "PROPFIND" ->
  parse_depth (header_get "Depth" (req_header req)) = Some D0 -> fs_get (ds_fs s) p = Some n ->
  serve s w req =
    (write (multistatus s [p])
       (write_header StatusMultiStatus (w_set_header "Content-Type" "text/xml; charset=utf-8" w)), s).
Proof.
  intros Hr Hm Hd Hn. rewrite (serve_resolved _ _ _ p Hr). cbv zeta. rewrite Hm. cbn -[serve_propfind].
  unfold serve_propfind. by rewrite Hd, Hn.
Qed.

Lemma dav_init_props_wf : props_wf dav_init.
Proof. intros q l H. unfold dav_init in H. cbn [ds_props] in H. by rewrite lookup_empty in H. Qed.

(** A patch without live names leaves the patched list at its path. *)
Lemma ps_patch_dead (ps : PropStore) (p : Path) (ops : list PatchOp) :
  Forall (fun o => is_live (op_name o) = false) ops ->
  props_of (ps_patch ps p ops).1 p = foldl apply_op (props_of ps p) ops.
Proof.
  intros Hd. unfold ps_patch.
  replace (existsb _ ops) with false.
  - cbn [fst]. by rewrite props_of_set, bool_decide_true.
  - symmetry. apply not_true_is_false. intros (o & Ho & Hl)%existsb_exists.
    rewrite Forall_forall in Hd. rewrite Hd in Hl; [done|]. by apply list_elem_of_In.
Qed.
