(* ===== verification/System.v ===== *)
(** * The server as [main.go] assembles it

    [main_handler] is the closure of [Handler] over the engine of
    [Engine] (lines 40-45 of [main]); [sys_step] is the running server: a
    request through [main_handler] with any writer, or the passage of one
    unit of time.  The theorems of this file follow requests end to end
    (PUT then GET, MKCOL, DELETE, LOCK conflicts), prove the invariants of
    every run by induction over [rtc sys_step] (read-only growth, lock
    table, tree, property store), follow PROPPATCH, PROPFIND and MOVE
    through the property store, follow [main] as a whole ([main_run]:
    parse, banner, listener) from the command line, and end with the concrete runs that witness the claims. *)

From S2P Require Import Prelude Http Config Banner BasicAuth DirList Handler Vfs Locks Props Engine TreeWf StoreWf.

(** Lines 40-45 of [main]: the closure registered on ["/"] over the engine
    [fs := &webdav.Handler{FileSystem: webdav.Dir(...), LockSystem: webdav.NewMemLS()}],
    that is [handler] at the engine's state. *)
Definition main_handler (cfg : Flags) : DavState -> Writer -> Request -> Writer * DavState :=
  handler cfg.

(** Lines 71-79 of [main]: the line written to standard error before
    the server starts listening on [*flagHttpAddr]. *)
Definition startup_banner (cfg : Flags) : string := banner_line (flagHttpAddr cfg).

(** What [main] does with its command line (lines 38-87): it exits
    inside [flag.Parse] (line 39), or it writes the banner (lines 71-79)
    and calls the listener of lines 81-85.  [listen_ok] says whether that
    listener comes up (the address can be bound, the certificate and key
    load); when it does, [ListenAndServe] serves every connection with
    [main_handler] and never returns, which is [sys_step] for [cfg]; when
    it does not, it returns an error that [main] drops, and [main] returns:
    the process ends with status 0 after the banner alone. *)
Inductive MainOutcome :=
  | MainExit (code : nat) (stderr : string)
  | MainServe (stderr : string) (l : Listener) (cfg : Flags).

Definition main_run (listen_ok : Listener -> bool) (args : list string) : MainOutcome :=
  match flag_parse args with
  | Exit code msg => MainExit code msg
  | Run cfg _ =>
      let banner := startup_banner cfg in
      if listen_ok (listener cfg) then MainServe banner (listener cfg) cfg else MainExit 0 banner
  end.

(** Configurations of the examples. *)
Definition cfg_auth : Flags :=
  mkFlags "./data/" ":8061" false "cert.pem" "key.pem" "alice" "pw" false.
Definition cfg_ro : Flags := set_readonly true default_flags.
Definition cfg_user_only : Flags :=
  mkFlags "./data/" ":8061" false "cert.pem" "key.pem" "admin" "" false.

(** Requests and states of the examples. *)
Definition r_get_root : Request := mkRequest "GET" "/" ∅ "".
Definition r_put_f : Request := mkRequest "PUT" "/f" ∅ "x".
Definition r_put_f_auth : Request :=
  mkRequest "PUT" "/f" (header_set "Authorization" (basic_header "alice" "pw") ∅) "x".
Definition r_lock_new : Request := mkRequest "LOCK" "/new" ∅ "exclusive".
Definition r_lock_f (h : Header) (body : string) : Request := mkRequest "LOCK" "/f" h body.
Definition h_timeout60 : Header := header_set "Timeout" "Second-60" ∅.
(** The state after an exclusive LOCK of [/f] on the empty tree: [/f] is an
    empty file under lock 0 for an hour. *)
Definition s_locked_f : DavState := snd (main_handler default_flags dav_init empty_writer (r_lock_f ∅ "exclusive")).
(** A request header submitting the token of lock 0. *)
Definition h_token0 : Header := header_set "If" "(<opaquelocktoken:0>)" ∅.
(** A MOVE or COPY header naming [/g] on the same server. *)
Definition h_dest_g : Header := header_set "Destination" "http://localhost:8061/g" ∅.
(** An UNLOCK header carrying the token of lock 0. *)
Definition h_unlock0 : Header := header_set "Lock-Token" "<opaquelocktoken:0>" ∅.
Definition s_put_f : DavState := snd (main_handler default_flags dav_init empty_writer r_put_f).
Definition r_prop_f : Request := mkRequest "PROPPATCH" "/f" ∅ "set urn:x color blue".
Definition s_prop_f : DavState := snd (main_handler default_flags s_put_f empty_writer r_prop_f).
Definition h_depth0 : Header := header_set "Depth" "0" ∅.

(** Every node of [s] was already in [s0], or is an empty file. *)
Definition only_empty_additions (s0 s : DavState) : Prop :=
  forall p n, fs_get (ds_fs s) p = Some n -> fs_get (ds_fs s0) p = Some n \/ exists e, n = NFile "" e.

(** The whole server over time: a request through [handler] (with any
    writer) or the passage of one time unit. *)
Inductive sys_step (cfg : Flags) : DavState -> DavState -> Prop :=
  | sys_request s w req : sys_step cfg s (snd (main_handler cfg s w req))
  | sys_tick s : sys_step cfg s (tick s).

(** Induction over runs of the server. *)
Lemma sys_rtc_ind (cfg : Flags) (P : DavState -> Prop) (s0 s : DavState) :
  (forall s w req, P s -> P (snd (main_handler cfg s w req))) -> (forall s, P s -> P (tick s)) ->
  P s0 -> rtc (sys_step cfg) s0 s -> P s.
Proof.
  intros Hreq Htick H0 Hr. induction Hr as [s|s1 s2 s3 Hs _ IH]; [done|].
  apply IH. destruct Hs; auto.
Qed.

(** Induction over runs for a property the engine preserves on every
    request and time preserves: the closure only ever changes the state
    through the engine. *)
Lemma sys_rtc_serve_ind (cfg : Flags) (P : DavState -> Prop) (s0 s : DavState) :
  (forall s w req, P s -> P (snd (serve s w req))) -> (forall s, P s -> P (tick s)) ->
  P s0 -> rtc (sys_step cfg) s0 s -> P s.
Proof.
  intros Hserve Htick. apply (sys_rtc_ind cfg P); [|done]. intros s1 w req H1. unfold main_handler.
  destruct (handler_state_frame cfg s1 w req) as [-> | (_ & _ & ->)]; [done | by apply Hserve].
Qed.

Lemma only_empty_additions_step (s0 s : DavState) (w : Writer) (req : Request) :
  req_method req ∉ readonly_methods ->
  only_empty_additions s0 s -> only_empty_additions s0 (snd (serve s w req)).
Proof.
  intros Hm Hinv q n Hq.
  destruct (serve_fs_readonly_cases s w req Hm) as [Heq | (p & _ & Hput)].
  - rewrite Heq in Hq. by apply Hinv.
  - rewrite (fs_put_lookup _ _ _ _ _ Hput) in Hq. case_decide.
    + injection Hq as <-. right. eauto.
    + by apply Hinv.
Qed.

(** The authentication check reads nothing of the request but its header. *)
Lemma check_auth_header (cfg : Flags) (r r' : Request) (w : Writer) :
  req_header r = req_header r' -> check_auth cfg r w = check_auth cfg r' w.
Proof. intros Hh. unfold check_auth, BasicAuth. by rewrite Hh. Qed.

(** The engine opens a path that is not a collection without entries, so
    the listing of lines 58-60 declines it. *)
Lemma handleDirList_not_dir (s : DavState) (w : Writer) (req : Request) (p : Path) :
  resolve (req_path req) = Some p -> is_dir (ds_fs s) p = false -> fst (handleDirList s w req) = false.
Proof.
  intros Hr Hd. unfold handleDirList. cbn [OpenFile dav_webdav_fs]. unfold vfs_open. rewrite Hr.
  unfold is_dir in Hd. by destruct (fs_get (ds_fs s) p) as [[|c e]|].
Qed.

(** An authenticated request outside the read-only list, not a [GET] of a
    collection, is served by the engine. *)
Lemma handler_is_serve (cfg : Flags) (s : DavState) (w : Writer) (req : Request) :
  check_auth cfg req w = AuthOK -> flagReadonly cfg = false \/ req_method req ∉ readonly_methods ->
  (req_method req ==s "GET") = false \/ fst (handleDirList s w req) = false ->
  main_handler cfg s w req = serve s w req.
Proof. intros Hc Hro Hl. unfold main_handler. exact (@handler_serves DavState dav_server cfg s w req Hc Hl Hro). Qed.

(** The side conditions of [handler_is_serve] for an authenticated
    request of a mutating verb, or of any verb on a writable server. *)
Ltac serve_side := first [done | by left | by right; apply str_mem_false].

(** C3: in read-only mode, whatever requests arrive, whatever
    credentials they carry and however much time passes, the engine's
    tree only ever gains empty files: every collection and every file
    with content it has was there from the start. *)
Theorem readonly_tree_changes_only_by_lock (cfg : Flags) (s0 s : DavState) :
  flagReadonly cfg = true -> rtc (sys_step cfg) s0 s -> only_empty_additions s0 s.
Proof.
  intros Hro Hr. apply (sys_rtc_ind cfg (only_empty_additions s0) s0 s); [| |by left|done].
  - intros s1 w req Hinv.
    unfold main_handler. destruct (handler_state_frame cfg s1 w req) as [-> | (_ & [Hf | Hm] & ->)]; [done | congruence |].
    by apply only_empty_additions_step.
  - intros s1 Hinv. exact Hinv.
Qed.

(** C4: read-only mode does not stop LOCK, and a LOCK on an unmapped
    path whose parent is a collection creates an empty resource there
    (answered 201): [-read-only] servers can be made to grow files. *)
Theorem readonly_lock_creates_resource (cfg : Flags) (s : DavState) (path : string) (p : Path) :
  flagReadonly cfg = true ->
  check_auth cfg (mkRequest "LOCK" path ∅ "exclusive") empty_writer = AuthOK ->
  resolve path = Some p -> lt_locks (ds_locks s) = ∅ ->
  fs_get (ds_fs s) p = None -> is_dir (ds_fs s) (parent p) = true ->
  let '(w, s') := main_handler cfg s empty_writer (mkRequest "LOCK" path ∅ "exclusive") in
  resp_status w = StatusCreated /\ fs_get (ds_fs s') p = Some (NFile "" (fs_next_etag (ds_fs s))).
Proof.
  intros Hro Hc Hr Hl Hg Hd.
  rewrite handler_is_serve by serve_side.
  rewrite (serve_lock_new _ _ _ p DInf) by first [done | reflexivity].
  rewrite acquire_empty by done. cbv beta iota zeta. rewrite Hg.
  rewrite fs_put_ok by (try done; unfold is_dir; by rewrite Hg). cbn.
  split; [done|]. unfold fs_get. simpl. apply lookup_insert_eq.
Qed.

(** C5: an authenticated PUT of [content] that the locks allow, to a
    path that is not a collection, under a collection, is answered 201
    with an entity tag different from the tag of every file the tree
    held before; the GET that follows on the same path (it is not listed,
    being a file) is answered 200 with exactly [content] and the same
    tag, and leaves the state alone. *)
Theorem handler_put_then_get (cfg : Flags) (s : DavState) (path content : string) (h : Header) (p : Path) :
  check_auth cfg (mkRequest "GET" path h "") empty_writer = AuthOK -> flagReadonly cfg = false ->
  fs_wf (ds_fs s) -> may_write s (mkRequest "PUT" path h content) p DepthZero = true ->
  resolve path = Some p -> is_dir (ds_fs s) p = false -> is_dir (ds_fs s) (parent p) = true ->
  let '(w1, s1) := main_handler cfg s empty_writer (mkRequest "PUT" path h content) in
  let '(w2, s2) := main_handler cfg s1 empty_writer (mkRequest "GET" path h "") in
  resp_status w1 = StatusCreated /\ resp_status w2 = StatusOK /\ w_body w2 = content /\
  header_get "ETag" (resp_header w2) = header_get "ETag" (resp_header w1) /\
  (forall q c e, fs_get (ds_fs s) q = Some (NFile c e) -> header_get "ETag" (resp_header w1) <> etag_string e) /\
  s2 = s1.
Proof.
  intros Hc Hro (_ & _ & Hwf) Hm Hr Hd Hp.
  rewrite handler_is_serve by first [done | by left | rewrite <- Hc; by apply check_auth_header].
  rewrite (serve_put_created _ _ _ _ _ p) by done.
  cbv beta iota zeta.
  rewrite handler_is_serve
    by first [done | by left | right; apply (handleDirList_not_dir _ _ (mkRequest "GET" path h "") p Hr);
                               unfold is_dir, fs_get; simpl; by rewrite lookup_insert_eq].
  rewrite (serve_get_found _ _ _ _ _ p content (fs_next_etag (ds_fs s))) by
    (try done; unfold fs_get; simpl; by rewrite lookup_insert_eq).
  cbn. rewrite !header_get_set. do 4 (split; [done|]). split; [|done].
  intros q c e Hq Heq%etag_string_inj. apply Hwf in Hq. lia.
Qed.

(** C12: over every run of the server from its initial state, through
    any requests and any passage of time, the lock table stays well
    formed: tokens are fresh and no two unexpired locks conflict. *)
Theorem sys_locks_wf (cfg : Flags) (s : DavState) :
  rtc (sys_step cfg) dav_init s -> dav_locks_wf s.
Proof. apply (sys_rtc_serve_ind cfg dav_locks_wf); [apply serve_locks_wf | apply tick_locks_wf | apply dav_init_locks_wf]. Qed.

(** C13: with no lock held, MKCOL of [/a/b] under a missing [/a] is
    refused 409 and changes nothing; once MKCOL [/a] has been answered
    201, the same MKCOL [/a/b] is answered 201 and [b] is listed as a
    collection among the members of [/a]. *)
Theorem handler_mkcol_parent_then_child (cfg : Flags) (s : DavState) (a b : string) (h : Header) :
  check_auth cfg (mkRequest "MKCOL" (join_path [a]) h "") empty_writer = AuthOK ->
  flagReadonly cfg = false -> fs_wf (ds_fs s) -> lt_locks (ds_locks s) = ∅ ->
  seg_ok a = true -> seg_ok b = true -> fs_get (ds_fs s) [a] = None ->
  main_handler cfg s empty_writer (mkRequest "MKCOL" (join_path [a; b]) h "")
    = (respond_error Conflict empty_writer, s) /\
  let '(w1, s1) := main_handler cfg s empty_writer (mkRequest "MKCOL" (join_path [a]) h "") in
  let '(w2, s2) := main_handler cfg s1 empty_writer (mkRequest "MKCOL" (join_path [a; b]) h "") in
  resp_status w1 = StatusCreated /\ resp_status w2 = StatusCreated /\ (b, NDir) ∈ fs_children (ds_fs s2) [a].
Proof.
  intros Hc Hro Hwf Hl Ha Hb Hg.
  assert (Hc' : forall path, check_auth cfg (mkRequest "MKCOL" path h "") empty_writer = AuthOK)
    by (intros path; rewrite <- Hc; by apply check_auth_header).
  assert (Hab : fs_get (ds_fs s) [a; b] = None) by exact (wf_absent_child _ [a] b Hwf Hg).
  assert (Hr1 : resolve (join_path [a]) = Some [a]) by (apply resolve_join; by repeat constructor).
  assert (Hr2 : resolve (join_path [a; b]) = Some [a; b]) by (apply resolve_join; by repeat constructor).
  rewrite !handler_is_serve by serve_side.
  rewrite (serve_mkcol_result _ _ _ _ _ _ Hr1 Hl), (serve_mkcol_result _ _ _ _ _ _ Hr2 Hl).
  rewrite (fs_mkcol_conflict _ [a; b]) by (try done; unfold is_dir; simpl; by rewrite Hg).
  split; [done|].
  rewrite (fs_mkcol_ok _ [a]) by (try done; destruct Hwf as [Hroot _]; unfold is_dir; simpl; by rewrite Hroot).
  cbv beta iota zeta. rewrite handler_is_serve by serve_side.
  rewrite (serve_mkcol_result (with_fs s (mkFS (<[[a]:=NDir]> (fs_nodes (ds_fs s))) (fs_next_etag (ds_fs s)))) _ _ _ _ _ Hr2 Hl).
  rewrite (fs_mkcol_ok _ [a; b]).
  - split; [done|]. split; [done|]. apply (fs_children_spec _ [a] b). unfold fs_get; simpl.
    by rewrite lookup_insert_eq.
  - unfold fs_get; simpl. rewrite lookup_insert_ne by done. exact Hab.
  - unfold is_dir, fs_get; simpl. by rewrite lookup_insert_eq.
Qed.

(** C14: a DELETE that does not submit the token of an unexpired lock
    covering the path (or lying below it) is answered 423 Locked and
    changes nothing, whatever the read-only flag lets through. *)
Theorem handler_delete_locked (cfg : Flags) (s : DavState) (path : string) (h : Header) (p : Path)
    (k : nat) (l : Lock) :
  check_auth cfg (mkRequest "DELETE" path h "") empty_writer = AuthOK -> flagReadonly cfg = false ->
  resolve path = Some p -> lt_locks (ds_locks s) !! k = Some l -> active (ds_now s) l = true ->
  covers l p = true \/ p `prefix_of` lk_root l ->
  k ∉ submitted (ds_locks s) (mkRequest "DELETE" path h "") ->
  main_handler cfg s empty_writer (mkRequest "DELETE" path h "") = (respond_error Locked empty_writer, s).
Proof.
  intros Hc Hro Hr Hk Ha Hcov Hn.
  rewrite handler_is_serve by serve_side. rewrite (serve_delete_result _ _ _ _ _ p Hr).
  by rewrite (may_write_blocked _ _ _ _ k l) by (naive_solver).
Qed.

(** C15: an authenticated DELETE of a mapped path other than the root,
    which the locks allow (no unexpired lock covers it, or the request
    submits the token), is answered 204 and removes that resource and
    everything below it and nothing else; a GET of the path that follows
    is answered 404. *)
Theorem handler_delete_then_get (cfg : Flags) (s : DavState) (path : string) (h : Header) (p : Path) :
  check_auth cfg (mkRequest "DELETE" path h "") empty_writer = AuthOK -> flagReadonly cfg = false ->
  may_write s (mkRequest "DELETE" path h "") p DepthInfinity = true ->
  resolve path = Some p -> p <> [] -> fs_get (ds_fs s) p <> None ->
  let '(w1, s1) := main_handler cfg s empty_writer (mkRequest "DELETE" path h "") in
  resp_status w1 = StatusNoContent /\
  (forall q, fs_get (ds_fs s1) q = if decide (p `prefix_of` q) then None else fs_get (ds_fs s) q) /\
  resp_status (fst (main_handler cfg s1 empty_writer (mkRequest "GET" path h ""))) = 404.
Proof.
  intros Hc Hro Hl Hr Hne Hg.
  destruct (fs_delete (ds_fs s) p) as [e|fs'] eqn:Hdel.
  { unfold fs_delete in Hdel. destruct (fs_get (ds_fs s) p); [|done]. by destruct p. }
  pose proof (fs_delete_get _ _ _ Hdel) as Hget.
  assert (Hgone : fs_get fs' p = None) by (rewrite Hget; by rewrite decide_True).
  rewrite handler_is_serve by serve_side. rewrite (serve_delete_result _ _ _ _ _ p Hr).
  rewrite Hl, Hdel. cbv beta iota zeta.
  split; [done|]. split; [exact Hget|].
  rewrite handler_is_serve
    by first [done | by left | right; apply (handleDirList_not_dir _ _ (mkRequest "GET" path h "") p Hr);
                               unfold is_dir; simpl; by rewrite Hgone
             | rewrite <- Hc; by apply check_auth_header].
  by rewrite (serve_get_missing (with_tree s fs' (ps_delete (ds_props s) p)) _ _ _ _ p Hr Hgone).
Qed.

(** A LOCK request that creates a lock, through the closure. *)
Lemma handler_lock_new (cfg : Flags) (s : DavState) (path b : string) (h : Header) (p : Path) (d : ReqDepth) :
  check_auth cfg (mkRequest "LOCK" path h b) empty_writer = AuthOK -> resolve path = Some p ->
  (b ==s "") = false -> parse_depth (header_get "Depth" h) = Some d ->
  main_handler cfg s empty_writer (mkRequest "LOCK" path h b) =
    serve s empty_writer (mkRequest "LOCK" path h b).
Proof. intros Hc Hr Hb Hd. apply handler_is_serve; [done | by right; apply str_mem_false | by left]. Qed.

(** The first exclusive LOCK on a lock-free tree: the lock is the only
    one of the table, the clock is unchanged and the resource exists. *)
Lemma handler_first_lock (cfg : Flags) (s : DavState) (path : string) (h : Header) (p : Path) (d : ReqDepth) :
  let r := mkRequest "LOCK" path h "exclusive" in
  check_auth cfg r empty_writer = AuthOK -> resolve path = Some p -> lt_locks (ds_locks s) = ∅ ->
  is_dir (ds_fs s) (parent p) = true -> parse_depth (header_get "Depth" h) = Some d ->
  exists fs1, fs_get fs1 p <> None /\
  main_handler cfg s empty_writer r =
    (write_header (match fs_get (ds_fs s) p with Some _ => StatusOK | None => StatusCreated end)
       (w_set_header "Lock-Token" (token_string (lt_next (ds_locks s))) empty_writer),
     mkDav fs1 (mkLT {[lt_next (ds_locks s) := mkLock p Exclusive (lock_depth d) (lock_owner r)
                                                  (ds_now s + lock_timeout r)]} (S (lt_next (ds_locks s))))
           (ds_now s) (ds_props s)).
Proof.
  intros r Hc Hr Hl Hpar Hd. unfold r. rewrite (handler_lock_new _ _ _ _ _ p d) by done.
  rewrite (serve_lock_new _ _ _ p d) by done. rewrite acquire_empty by done. cbv beta iota zeta.
  destruct (fs_get (ds_fs s) p) eqn:Hg.
  - exists (ds_fs s). by rewrite Hg.
  - rewrite fs_put_ok by (try done; unfold is_dir; by rewrite Hg).
    eexists. split; [|reflexivity]. unfold fs_get. simpl. by rewrite lookup_insert_eq.
Qed.

(** C16: with no lock held, an authenticated exclusive LOCK on a path
    under a collection is granted (200, or 201 when it creates the
    resource); any LOCK request for the same path that arrives before the
    granted timeout has run out, whatever its scope, depth and owner, is
    answered 423 Locked and changes nothing. *)
Theorem handler_lock_conflict (cfg : Flags) (s : DavState) (path body2 : string) (h1 h2 : Header) (p : Path)
    (d1 d2 : ReqDepth) (n : nat) :
  check_auth cfg (mkRequest "LOCK" path h1 "exclusive") empty_writer = AuthOK ->
  check_auth cfg (mkRequest "LOCK" path h2 body2) empty_writer = AuthOK ->
  resolve path = Some p -> lt_locks (ds_locks s) = ∅ -> is_dir (ds_fs s) (parent p) = true ->
  parse_depth (header_get "Depth" h1) = Some d1 -> parse_depth (header_get "Depth" h2) = Some d2 ->
  (body2 ==s "") = false -> n < lock_timeout (mkRequest "LOCK" path h1 "exclusive") ->
  let '(w1, s1) := main_handler cfg s empty_writer (mkRequest "LOCK" path h1 "exclusive") in
  let '(w2, s2) := main_handler cfg (Nat.iter n tick s1) empty_writer (mkRequest "LOCK" path h2 body2) in
  (resp_status w1 = StatusOK \/ resp_status w1 = StatusCreated) /\ resp_status w2 = 423 /\
  s2 = Nat.iter n tick s1.
Proof.
  intros Hc1 Hc2 Hr Hl Hd Hd1 Hd2 Hb Hn.
  destruct (handler_first_lock cfg s path h1 p d1) as (fs1 & _ & ->); try done. cbv beta iota zeta.
  rewrite iter_tick, (handler_lock_new _ _ _ _ _ p d2), (serve_lock_new _ _ _ p d2) by done. simpl.
  rewrite (acquire_blocked _ (lt_next (ds_locks s)) _) by first [apply lookup_singleton_eq |
    apply Nat.ltb_lt; simpl; lia | unfold incompatible, covers; simpl; by rewrite bool_decide_true].
  split; [by destruct (fs_get (ds_fs s) p); [left|right]|]. done.
Qed.

(** C20: a lock lasts no longer than its timeout: once the timeout of
    the first exclusive LOCK has run out, a new LOCK on the same path,
    whatever its scope, depth and owner, is granted (200, the resource
    exists) with the next token. *)
Theorem handler_lock_after_expiry (cfg : Flags) (s : DavState) (path body2 : string) (h1 h2 : Header) (p : Path)
    (d1 d2 : ReqDepth) (n : nat) :
  check_auth cfg (mkRequest "LOCK" path h1 "exclusive") empty_writer = AuthOK ->
  check_auth cfg (mkRequest "LOCK" path h2 body2) empty_writer = AuthOK ->
  resolve path = Some p -> lt_locks (ds_locks s) = ∅ -> is_dir (ds_fs s) (parent p) = true ->
  parse_depth (header_get "Depth" h1) = Some d1 -> parse_depth (header_get "Depth" h2) = Some d2 ->
  (body2 ==s "") = false -> lock_timeout (mkRequest "LOCK" path h1 "exclusive") <= n ->
  let '(w1, s1) := main_handler cfg s empty_writer (mkRequest "LOCK" path h1 "exclusive") in
  let '(w2, s2) := main_handler cfg (Nat.iter n tick s1) empty_writer (mkRequest "LOCK" path h2 body2) in
  resp_status w2 = StatusOK /\ header_get "Lock-Token" (resp_header w2) = token_string (S (lt_next (ds_locks s))).
Proof.
  intros Hc1 Hc2 Hr Hl Hd Hd1 Hd2 Hb Hn.
  destruct (handler_first_lock cfg s path h1 p d1) as (fs1 & Hp1 & ->); try done. cbv beta iota zeta.
  rewrite iter_tick, (handler_lock_new _ _ _ _ _ p d2), (serve_lock_new _ _ _ p d2) by done. simpl.
  rewrite acquire_all_expired
    by (intros k l Hk; simpl in Hk; apply lookup_singleton_Some in Hk as [_ <-]; apply Nat.ltb_ge; simpl; lia).
  destruct (fs_get fs1 p); [|done]. cbn. split; [done|]. apply header_get_set.
Qed.

(** C21: the owner of the first exclusive LOCK (granted for a positive
    time) who sends UNLOCK with its token is answered 204, and the same
    LOCK sent again is granted (200). *)
Theorem handler_unlock_then_lock (cfg : Flags) (s : DavState) (path : string) (h1 hu : Header) (p : Path)
    (d1 : ReqDepth) :
  check_auth cfg (mkRequest "LOCK" path h1 "exclusive") empty_writer = AuthOK ->
  check_auth cfg (mkRequest "UNLOCK" path hu "") empty_writer = AuthOK ->
  resolve path = Some p -> lt_locks (ds_locks s) = ∅ -> is_dir (ds_fs s) (parent p) = true ->
  parse_depth (header_get "Depth" h1) = Some d1 -> 0 < lock_timeout (mkRequest "LOCK" path h1 "exclusive") ->
  header_get "Lock-Token" hu = token_string (lt_next (ds_locks s)) ->
  let '(w1, s1) := main_handler cfg s empty_writer (mkRequest "LOCK" path h1 "exclusive") in
  let '(w2, s2) := main_handler cfg s1 empty_writer (mkRequest "UNLOCK" path hu "") in
  let '(w3, s3) := main_handler cfg s2 empty_writer (mkRequest "LOCK" path h1 "exclusive") in
  resp_status w2 = StatusNoContent /\ resp_status w3 = StatusOK.
Proof.
  intros Hc1 Hc2 Hr Hl Hd Hd1 Ht Hu.
  destruct (handler_first_lock cfg s path h1 p d1) as (fs1 & Hp1 & ->); try done. cbv beta iota zeta.
  rewrite handler_is_serve by serve_side. serve_dispatch p Hr. unfold serve_unlock.
  cbn [req_header ds_locks lt_locks]. rewrite Hu, token_string_nonempty, map_to_list_singleton.
  cbn [map fst negb]. rewrite filter_cons_True by done. cbv beta iota zeta.
  rewrite release_single by (apply Nat.ltb_lt; simpl; lia). cbv beta iota zeta.
  rewrite (handler_lock_new _ _ _ _ _ p d1), (serve_lock_new _ _ _ p d1), acquire_empty by done. simpl.
  by destruct (fs_get fs1 p).
Qed.

(** C18: the engine's tree stays well formed over every run of the
    server from a well-formed tree: the root is a collection, every
    resource sits in a collection (no COPY, MOVE, PUT, MKCOL, DELETE or
    LOCK leaves an orphan or puts a member under a file), and every
    entity tag in use is below the counter, so fresh tags are unique. *)
Theorem sys_tree_wf (cfg : Flags) (s0 s : DavState) :
  fs_wf (ds_fs s0) -> rtc (sys_step cfg) s0 s -> fs_wf (ds_fs s).
Proof. intros H0. apply (sys_rtc_serve_ind cfg (fun s => fs_wf (ds_fs s))); [apply serve_fs_wf | done | done]. Qed.

(** C22: path resolution is consistent over every run of the server
    from a tree of resolved paths: for every member [name] that
    [children] lists under a collection [p], rendering its path and
    resolving it again gives back the same path and the same resource
    (spec 8, first property). *)
Theorem sys_path_resolution_consistent (cfg : Flags) (s0 s : DavState) :
  paths_ok (ds_fs s0) -> rtc (sys_step cfg) s0 s ->
  forall p name n, (name, n) ∈ fs_children (ds_fs s) p ->
  resolve (join_path (p ++ [name])) = Some (p ++ [name]) /\ fs_get (ds_fs s) (p ++ [name]) = Some n.
Proof.
  intros H0 Hr. assert (Hok : paths_ok (ds_fs s)) by (by apply (sys_rtc_serve_ind cfg (fun s => paths_ok (ds_fs s)) s0 s); [apply serve_paths_ok | done | done | done]).
  intros p name n Hin%fs_children_spec. split; [|done]. apply resolve_join. by eapply Hok.
Qed.

(** C19: an authenticated MOVE of a file, which the locks allow, to an
    absent destination under a collection (neither path inside the
    other) is answered 201; afterwards a GET of the source is answered
    404 and a GET of the destination returns the file's content. *)
Theorem handler_move_then_get (cfg : Flags) (s : DavState) (path : string) (hd : Header) (p q : Path)
    (d : ReqDepth) (c : string) (e : nat) :
  check_auth cfg (mkRequest "MOVE" path hd "") empty_writer = AuthOK -> flagReadonly cfg = false ->
  resolve path = Some p -> resolve (dest_path (header_get "Destination" hd)) = Some q ->
  (header_get "Destination" hd ==s "") = false -> parse_depth (header_get "Depth" hd) = Some d ->
  may_write s (mkRequest "MOVE" path hd "") q DepthInfinity = true ->
  may_write s (mkRequest "MOVE" path hd "") p DepthInfinity = true ->
  fs_get (ds_fs s) p = Some (NFile c e) -> fs_get (ds_fs s) q = None ->
  is_dir (ds_fs s) (parent q) = true -> ~ p `prefix_of` q -> ~ q `prefix_of` p ->
  let '(w1, s1) := main_handler cfg s empty_writer (mkRequest "MOVE" path hd "") in
  resp_status w1 = StatusCreated /\
  resp_status (fst (main_handler cfg s1 empty_writer (mkRequest "GET" path hd ""))) = 404 /\
  w_body (fst (main_handler cfg s1 empty_writer
                 (mkRequest "GET" (dest_path (header_get "Destination" hd)) hd ""))) = c.
Proof.
  intros Hc Hro Hr Hq Hdn Hd Hwq Hwp Hp Hqa Hpar Hpq Hqp.
  assert (Hc' : forall u, check_auth cfg (mkRequest "GET" u hd "") empty_writer = AuthOK)
    by (intros u; rewrite <- Hc; by apply check_auth_header).
  destruct (serve_move_file s empty_writer (mkRequest "MOVE" path hd "") p q d c e) as (Hw & Hgp & k & Hgq);
    try done.
  rewrite handler_is_serve by serve_side.
  destruct (serve s empty_writer (mkRequest "MOVE" path hd "")) as [w1 s1]. simpl in Hw, Hgp, Hgq.
  cbv beta iota zeta. split; [by rewrite Hw|].
  rewrite !handler_is_serve
    by first [done | by left
             | right; apply (handleDirList_not_dir _ _ (mkRequest "GET" path hd "") p Hr); unfold is_dir; by rewrite Hgp
             | right; apply (handleDirList_not_dir _ _ (mkRequest "GET" (dest_path (header_get "Destination" hd)) hd "") q Hq);
               unfold is_dir; by rewrite Hgq].
  rewrite (serve_get_missing _ _ _ _ _ p Hr Hgp), (serve_get_found _ _ _ _ _ q c k Hq Hgq). done.
Qed.

(** C34: every configuration is reached from the command line that
    sets each flag as [-name=value]: [main] writes the banner of its
    address and serves with exactly these flags, on [ListenAndServeTLS]
    with the certificate and key files in HTTPS mode and on
    [ListenAndServe] otherwise; when
    that listener does not come up, [main] drops the error and ends with
    status 0, having written only the banner. *)
Theorem main_run_render (listen_ok : Listener -> bool) (f : Flags) :
  let l := if flagHttpsMode f then ListenTLS (flagHttpAddr f) (flagCertFile f) (flagKeyFile f)
           else ListenPlain (flagHttpAddr f) in
  main_run listen_ok (render_args f) =
  if listen_ok l then MainServe (startup_banner f) l f else MainExit 0 (startup_banner f).
Proof. intros l. unfold main_run. rewrite flag_parse_render. cbn zeta. by destruct f as [? ? [] ? ? ? ? ?]. Qed.

(** C30: an authenticated PROPPATCH of an existing resource that the
    locks allow is all or nothing.  It answers 207, with one status per
    instruction in request order, and leaves the tree and the locks
    alone.  Either some instruction names a live property: the store is
    unchanged, the live names get [Forbidden] and the others
    [FailedDependency]; or none does: every status is [OK], each name of
    the resource holds what the last instruction on it says (or its old
    value), and no other resource changes. *)
Theorem handler_proppatch_all_or_nothing (cfg : Flags) (s : DavState) (path b : string) (h : Header) (p : Path)
    (n : Node) (ops : list PatchOp) :
  check_auth cfg (mkRequest "PROPPATCH" path h b) empty_writer = AuthOK -> flagReadonly cfg = false ->
  resolve path = Some p -> fs_get (ds_fs s) p = Some n ->
  may_write s (mkRequest "PROPPATCH" path h b) p DepthZero = true -> parse_patch b = Some ops ->
  let '(w1, s1) := main_handler cfg s empty_writer (mkRequest "PROPPATCH" path h b) in
  resp_status w1 = StatusMultiStatus /\ ds_fs s1 = ds_fs s /\ ds_locks s1 = ds_locks s /\
  exists res, w_body w1 = patch_body p res /\ res.*1 = op_name <$> ops /\
  ((Exists (fun o => is_live (op_name o) = true) ops /\ ds_props s1 = ds_props s /\
    Forall (fun r => r.2 = if is_live r.1 then PropForbidden else PropFailedDependency) res)
   \/
   (Forall (fun r => r.2 = PropOK) res /\
    (forall k, dp_lookup k (props_of (ds_props s1) p) = ref_value k ops (dp_lookup k (props_of (ds_props s) p))) /\
    (forall q, q <> p -> ds_props s1 !! q = ds_props s !! q))).
Proof.
  intros Hc Hro Hr Hn Hw Hb.
  rewrite handler_is_serve by serve_side.
  rewrite (serve_proppatch_result _ _ _ p n ops) by done. cbv beta iota zeta.
  pose proof (ps_patch_all_or_nothing (ds_props s) p ops) as Hp.
  destruct (ps_patch (ds_props s) p ops) as [ps' res]. cbn [fst snd ds_fs ds_locks ds_props with_props].
  split_and!; [done..|]. exists res. destruct Hp as [Hnames Hcases]. split; [done|]. split; [done|].
  destruct Hcases as [(Hl & -> & Hst) | (_ & Hst & Hk & Hq)]; [by left | right; split_and!; done].
Qed.

(** C37: the root collection cannot be deleted: an authenticated
    DELETE of any path that resolves to the root ([/], [/..], [/a/..])
    leaves the state as it was and answers 403, or 423 when a lock
    forbids writing there. *)
Theorem handler_delete_root_refused (cfg : Flags) (s : DavState) (path : string) (h : Header) :
  check_auth cfg (mkRequest "DELETE" path h "") empty_writer = AuthOK -> flagReadonly cfg = false ->
  resolve path = Some [] -> fs_wf (ds_fs s) ->
  main_handler cfg s empty_writer (mkRequest "DELETE" path h "") =
    (respond_error (if may_write s (mkRequest "DELETE" path h "") [] DepthInfinity then Forbidden else Locked)
       empty_writer, s).
Proof.
  intros Hc Hro Hr [Hroot _].
  rewrite handler_is_serve by serve_side.
  rewrite (serve_delete_result _ _ _ _ _ [] Hr).
  destruct (may_write _ _ _ _); [|done]. cbn [negb]. unfold fs_delete. by rewrite Hroot.
Qed.

(** C31: over every run from a state where only resources carry dead
    properties, only resources carry dead properties: none is left
    behind by DELETE or MOVE, none appears where nothing was copied. *)
Theorem sys_props_wf (cfg : Flags) (s0 s : DavState) :
  props_wf s0 -> rtc (sys_step cfg) s0 s -> props_wf s.
Proof. intros H0. apply (sys_rtc_serve_ind cfg props_wf); [apply serve_props_wf | intros s1 H1; exact H1 | done]. Qed.

(** C32: an authenticated MOVE of a resource to an absent path under a
    collection, which the locks allow, answers 201 and carries the dead
    properties: the destination has exactly those of the source, and
    the source none. *)
Theorem handler_move_carries_props (cfg : Flags) (s : DavState) (path : string) (hd : Header) (p q : Path)
    (d : ReqDepth) (n : Node) :
  check_auth cfg (mkRequest "MOVE" path hd "") empty_writer = AuthOK -> flagReadonly cfg = false ->
  resolve path = Some p -> resolve (dest_path (header_get "Destination" hd)) = Some q ->
  (header_get "Destination" hd ==s "") = false -> parse_depth (header_get "Depth" hd) = Some d ->
  may_write s (mkRequest "MOVE" path hd "") q DepthInfinity = true ->
  may_write s (mkRequest "MOVE" path hd "") p DepthInfinity = true ->
  fs_get (ds_fs s) p = Some n -> fs_get (ds_fs s) q = None ->
  is_dir (ds_fs s) (parent q) = true -> ~ p `prefix_of` q -> ~ q `prefix_of` p ->
  let '(w1, s1) := main_handler cfg s empty_writer (mkRequest "MOVE" path hd "") in
  resp_status w1 = StatusCreated /\
  props_of (ds_props s1) q = props_of (ds_props s) p /\ props_of (ds_props s1) p = [].
Proof.
  intros Hc Hro Hr Hq Hdn Hd Hwq Hwp Hp Hqa Hpar Hpq Hqp.
  destruct (serve_move_props s empty_writer (mkRequest "MOVE" path hd "") p q d n) as (Hw & Hq' & Hp');
    try done.
  rewrite handler_is_serve by serve_side.
  destruct (serve s empty_writer (mkRequest "MOVE" path hd "")) as [w1 s1]. cbn in Hw, Hq', Hp'.
  split; [by rewrite Hw | done].
Qed.

(** C33: after an authenticated PROPPATCH of an existing resource that
    the locks allow and that names no live property, the answer is 207,
    a PROPFIND of depth 0 answers with the multi-status entry of the
    resource, and the properties that entry lists are the live ones and
    then the dead ones as the patch left them. *)
Theorem handler_proppatch_then_propfind (cfg : Flags) (s : DavState) (path b : string) (h : Header) (p : Path)
    (n : Node) (ops : list PatchOp) :
  check_auth cfg (mkRequest "PROPPATCH" path h b) empty_writer = AuthOK -> flagReadonly cfg = false ->
  resolve path = Some p -> fs_get (ds_fs s) p = Some n ->
  may_write s (mkRequest "PROPPATCH" path h b) p DepthZero = true ->
  parse_patch b = Some ops -> Forall (fun o => is_live (op_name o) = false) ops ->
  parse_depth (header_get "Depth" h) = Some D0 ->
  let '(w1, s1) := main_handler cfg s empty_writer (mkRequest "PROPPATCH" path h b) in
  resp_status w1 = StatusMultiStatus /\
  w_body (fst (main_handler cfg s1 empty_writer (mkRequest "PROPFIND" path h ""))) = multistatus s1 [p] /\
  props_at s1 p = live_props p n ++ foldl apply_op (props_of (ds_props s) p) ops.
Proof.
  intros Hc Hro Hr Hn Hw Hb Hd Hdepth.
  assert (Hc' : check_auth cfg (mkRequest "PROPFIND" path h "") empty_writer = AuthOK)
    by (rewrite <- Hc; by apply check_auth_header).
  rewrite handler_is_serve by serve_side.
  rewrite (serve_proppatch_result _ _ _ p n ops) by done. cbv beta iota zeta.
  split; [done|]. split.
  - rewrite handler_is_serve by serve_side.
    by rewrite (serve_propfind_depth0 _ _ _ p n).
  - unfold props_at, ps_get. cbn [ds_fs ds_props with_props]. rewrite Hn. by rewrite ps_patch_dead.
Qed.

(** ** Witnesses: the theorems applied to concrete runs *)

Lemma handler_requires_credentials_witness :
  auth_enabled cfg_auth = true /\ BasicAuth r_get_root <> Some (flagUserName cfg_auth, flagPassword cfg_auth) /\
  w_sent empty_writer = None /\
  snd (handler cfg_auth dav_init empty_writer r_get_root) = dav_init /\
  fst (handler cfg_auth dav_init empty_writer r_get_root) =
    mkWriter {[ "Www-Authenticate" := ["Basic realm=" +s dq +s "Restricted" +s dq] ]}
      (Some (StatusUnauthorized, {[ "Www-Authenticate" := ["Basic realm=" +s dq +s "Restricted" +s dq] ]})) "".
Proof.
  assert (H1 : auth_enabled cfg_auth = true) by reflexivity.
  assert (H2 : BasicAuth r_get_root <> Some (flagUserName cfg_auth, flagPassword cfg_auth))
    by (vm_compute; discriminate).
  assert (H3 : w_sent empty_writer = None) by reflexivity.
  destruct (handler_requires_credentials cfg_auth dav_init empty_writer r_get_root H1 H2 H3) as (Hs & _ & Hw).
  split; [exact H1|]. split; [exact H2|]. split; [exact H3|]. split; [exact Hs|].
  rewrite (Hw eq_refl). reflexivity.
Defined.

Lemma handler_readonly_refuses_witness :
  flagReadonly cfg_ro = true /\ (req_method r_put_f ∈ readonly_methods) /\
  snd (handler cfg_ro dav_init empty_writer r_put_f) = dav_init /\
  (check_auth cfg_ro r_put_f empty_writer = AuthOK -> w_sent empty_writer = None ->
     resp_status (fst (handler cfg_ro dav_init empty_writer r_put_f)) = StatusForbidden /\
     w_body (fst (handler cfg_ro dav_init empty_writer r_put_f)) = w_body empty_writer +s "WebDAV: Read Only!!!" +s nl).
Proof.
  assert (H1 : flagReadonly cfg_ro = true) by reflexivity.
  assert (H2 : req_method r_put_f ∈ readonly_methods) by (apply str_mem_spec; reflexivity).
  split; [exact H1|]. split; [exact H2|].
  exact (handler_readonly_refuses cfg_ro dav_init empty_writer r_put_f H1 H2).
Defined.

Lemma readonly_tree_changes_only_by_lock_witness :
  flagReadonly cfg_ro = true /\
  rtc (sys_step cfg_ro) dav_init (tick (snd (main_handler cfg_ro dav_init empty_writer r_lock_new))) /\
  only_empty_additions dav_init (tick (snd (main_handler cfg_ro dav_init empty_writer r_lock_new))).
Proof.
  assert (H1 : flagReadonly cfg_ro = true) by reflexivity.
  assert (H2 : rtc (sys_step cfg_ro) dav_init (tick (snd (main_handler cfg_ro dav_init empty_writer r_lock_new)))).
  { eapply rtc_l; [apply sys_request|]. eapply rtc_l; [apply sys_tick | apply rtc_refl]. }
  split; [exact H1|]. split; [exact H2|].
  exact (readonly_tree_changes_only_by_lock cfg_ro dav_init _ H1 H2).
Defined.

Lemma readonly_lock_creates_resource_witness :
  flagReadonly cfg_ro = true /\
  check_auth cfg_ro (mkRequest "LOCK" "/new" ∅ "exclusive") empty_writer = AuthOK /\
  resolve "/new" = Some ["new"] /\ lt_locks (ds_locks dav_init) = ∅ /\
  fs_get (ds_fs dav_init) ["new"] = None /\ is_dir (ds_fs dav_init) (parent ["new"]) = true /\
  (let '(w, s') := main_handler cfg_ro dav_init empty_writer (mkRequest "LOCK" "/new" ∅ "exclusive") in
   resp_status w = StatusCreated /\ fs_get (ds_fs s') ["new"] = Some (NFile "" (fs_next_etag (ds_fs dav_init)))).
Proof.
  assert (H1 : flagReadonly cfg_ro = true) by reflexivity.
  assert (H2 : check_auth cfg_ro (mkRequest "LOCK" "/new" ∅ "exclusive") empty_writer = AuthOK) by reflexivity.
  assert (H3 : resolve "/new" = Some ["new"]) by reflexivity.
  assert (H4 : lt_locks (ds_locks dav_init) = ∅) by reflexivity.
  assert (H5 : fs_get (ds_fs dav_init) ["new"] = None) by reflexivity.
  assert (H6 : is_dir (ds_fs dav_init) (parent ["new"]) = true) by reflexivity.
  do 6 (split; [assumption|]).
  exact (readonly_lock_creates_resource cfg_ro dav_init "/new" ["new"] H1 H2 H3 H4 H5 H6).
Defined.

Lemma handler_readonly_transparent_witness :
  (req_method (mkRequest "PROPFIND" "/" ∅ "") ∉ readonly_methods) /\
  handler cfg_ro dav_init empty_writer (mkRequest "PROPFIND" "/" ∅ "")
  = handler (set_readonly false cfg_ro) dav_init empty_writer (mkRequest "PROPFIND" "/" ∅ "").
Proof.
  assert (H : req_method (mkRequest "PROPFIND" "/" ∅ "") ∉ readonly_methods)
    by (apply str_mem_false; reflexivity).
  split; [exact H | exact (handler_readonly_transparent cfg_ro dav_init empty_writer _ H)].
Defined.

Lemma readonly_reachable_invariant_witness :
  flagReadonly cfg_ro = true /\
  (forall s w req, ds_now s = 0 -> req_method req ∉ readonly_methods -> ds_now (snd (ServeHTTP s w req)) = 0) /\
  ds_now dav_init = 0 /\ reachable cfg_ro dav_init dav_init /\ ds_now dav_init = 0.
Proof.
  assert (H1 : flagReadonly cfg_ro = true) by reflexivity.
  assert (H2 : forall s w req, ds_now s = 0 -> req_method req ∉ readonly_methods ->
                 ds_now (snd (ServeHTTP s w req)) = 0).
  { intros s w req Hs _. cbn [ServeHTTP dav_server]. by rewrite (proj1 (serve_locks_cases s w req)). }
  assert (H3 : ds_now dav_init = 0) by reflexivity.
  assert (H4 : reachable cfg_ro dav_init dav_init) by apply reach_init.
  do 4 (split; [assumption|]).
  exact (readonly_reachable_invariant cfg_ro (fun s => ds_now s = 0) dav_init dav_init H1 H2 H3 H4).
Defined.

Lemma handler_lists_collections_witness :
  check_auth default_flags r_get_root empty_writer = AuthOK /\ req_method r_get_root = "GET" /\
  OpenFile dav_init (req_path r_get_root) = Some (mkFile (Some (mkFileInfo "/" true)) (Some [])) /\
  stat_allows (mkFile (Some (mkFileInfo "/" true)) (Some [])) /\
  f_readdir (mkFile (Some (mkFileInfo "/" true)) (Some [])) = Some [] /\
  handler default_flags dav_init empty_writer r_get_root
  = (write (listing_body []) (w_set_header "Content-Type" "text/html; charset=utf-8" empty_writer), dav_init).
Proof.
  assert (H1 : check_auth default_flags r_get_root empty_writer = AuthOK) by reflexivity.
  assert (H2 : req_method r_get_root = "GET") by reflexivity.
  assert (H3 : OpenFile dav_init (req_path r_get_root) = Some (mkFile (Some (mkFileInfo "/" true)) (Some [])))
    by (vm_compute; reflexivity).
  assert (H4 : stat_allows (mkFile (Some (mkFileInfo "/" true)) (Some []))) by reflexivity.
  assert (H5 : f_readdir (mkFile (Some (mkFileInfo "/" true)) (Some [])) = Some []) by reflexivity.
  do 5 (split; [assumption|]).
  exact (handler_lists_collections default_flags dav_init empty_writer r_get_root _ [] H1 H2 H3 H4 H5).
Defined.

Lemma handler_open_without_password_witness :
  flagPassword cfg_user_only = "" /\
  handler cfg_user_only dav_init empty_writer r_put_f = serve_after_auth cfg_user_only dav_init empty_writer r_put_f.
Proof.
  assert (H : flagPassword cfg_user_only = "") by reflexivity.
  split; [exact H | exact (handler_open_without_password cfg_user_only dav_init empty_writer r_put_f H)].
Defined.

Lemma handler_put_then_get_witness :
  let '(w1, s1) := main_handler default_flags dav_init empty_writer (mkRequest "PUT" "/f" ∅ "x") in
  let '(w2, s2) := main_handler default_flags s1 empty_writer (mkRequest "GET" "/f" ∅ "") in
  resp_status w1 = StatusCreated /\ resp_status w2 = StatusOK /\ w_body w2 = "x" /\
  header_get "ETag" (resp_header w2) = header_get "ETag" (resp_header w1) /\
  (forall q c e, fs_get (ds_fs dav_init) q = Some (NFile c e) -> header_get "ETag" (resp_header w1) <> etag_string e) /\
  s2 = s1.
Proof.
  apply (handler_put_then_get default_flags dav_init "/f" "x" ∅ ["f"]);
    first [exact fs_empty_wf | vm_compute; reflexivity].
Defined.

Lemma sys_locks_wf_witness :
  dav_locks_wf (tick (snd (main_handler cfg_ro dav_init empty_writer r_lock_new))).
Proof.
  apply (sys_locks_wf cfg_ro).
  eapply rtc_l; [apply sys_request|]. eapply rtc_l; [apply sys_tick | apply rtc_refl].
Defined.

Lemma handler_mkcol_parent_then_child_witness :
  main_handler default_flags dav_init empty_writer (mkRequest "MKCOL" (join_path ["a"; "b"]) ∅ "")
    = (respond_error Conflict empty_writer, dav_init) /\
  let '(w1, s1) := main_handler default_flags dav_init empty_writer (mkRequest "MKCOL" (join_path ["a"]) ∅ "") in
  let '(w2, s2) := main_handler default_flags s1 empty_writer (mkRequest "MKCOL" (join_path ["a"; "b"]) ∅ "") in
  resp_status w1 = StatusCreated /\ resp_status w2 = StatusCreated /\ ("b", NDir) ∈ fs_children (ds_fs s2) ["a"].
Proof.
  apply (handler_mkcol_parent_then_child default_flags dav_init "a" "b" ∅);
    first [exact fs_empty_wf | reflexivity].
Defined.

Lemma handler_delete_locked_witness :
  main_handler default_flags s_locked_f empty_writer (mkRequest "DELETE" "/f" ∅ "")
    = (respond_error Locked empty_writer, s_locked_f).
Proof.
  apply (handler_delete_locked default_flags s_locked_f "/f" ∅ ["f"] 0
           (mkLock ["f"] Exclusive DepthInfinity "" 3600));
    [reflexivity | reflexivity | reflexivity | vm_compute; reflexivity | vm_compute; reflexivity
    | left; vm_compute; reflexivity | vm_compute; apply not_elem_of_nil].
Defined.

Lemma handler_delete_then_get_witness :
  let '(w1, s1) := main_handler default_flags s_locked_f empty_writer (mkRequest "DELETE" "/f" h_token0 "") in
  resp_status w1 = StatusNoContent /\
  (forall q, fs_get (ds_fs s1) q = if decide (["f"] `prefix_of` q) then None else fs_get (ds_fs s_locked_f) q) /\
  resp_status (fst (main_handler default_flags s1 empty_writer (mkRequest "GET" "/f" h_token0 ""))) = 404.
Proof.
  apply (handler_delete_then_get default_flags s_locked_f "/f" h_token0 ["f"]);
    [reflexivity | reflexivity | vm_compute; reflexivity | reflexivity | discriminate | vm_compute; discriminate].
Defined.

Lemma handler_lock_conflict_witness :
  let '(w1, s1) := main_handler default_flags dav_init empty_writer (r_lock_f h_timeout60 "exclusive") in
  let '(w2, s2) := main_handler default_flags (Nat.iter 59 tick s1) empty_writer (r_lock_f ∅ "shared") in
  (resp_status w1 = StatusOK \/ resp_status w1 = StatusCreated) /\ resp_status w2 = 423 /\
  s2 = Nat.iter 59 tick s1.
Proof.
  apply (handler_lock_conflict default_flags dav_init "/f" "shared" h_timeout60 ∅ ["f"] DInf DInf 59);
    [reflexivity | reflexivity | reflexivity | reflexivity | reflexivity | vm_compute; reflexivity
    | vm_compute; reflexivity | reflexivity | vm_compute; lia].
Defined.

Lemma handler_readdir_error_falls_through_witness :
  handler default_flags s_put_f empty_writer (mkRequest "GET" "/f" ∅ "")
  = ServeHTTP s_put_f empty_writer (mkRequest "GET" "/f" ∅ "").
Proof.
  apply (handler_readdir_error_falls_through default_flags s_put_f empty_writer _
           (mkFile (Some (mkFileInfo "f" false)) None)); [reflexivity | reflexivity | vm_compute; reflexivity | reflexivity].
Defined.

Lemma sys_tree_wf_witness :
  fs_wf (ds_fs (tick (snd (main_handler cfg_ro dav_init empty_writer r_lock_new)))).
Proof.
  apply (sys_tree_wf cfg_ro dav_init); [exact fs_empty_wf|].
  eapply rtc_l; [apply sys_request|]. eapply rtc_l; [apply sys_tick | apply rtc_refl].
Defined.

Lemma handler_move_then_get_witness :
  let '(w1, s1) := main_handler default_flags s_put_f empty_writer (mkRequest "MOVE" "/f" h_dest_g "") in
  resp_status w1 = StatusCreated /\
  resp_status (fst (main_handler default_flags s1 empty_writer (mkRequest "GET" "/f" h_dest_g ""))) = 404 /\
  w_body (fst (main_handler default_flags s1 empty_writer
                 (mkRequest "GET" (dest_path (header_get "Destination" h_dest_g)) h_dest_g ""))) = "x".
Proof.
  apply (handler_move_then_get default_flags s_put_f "/f" h_dest_g ["f"] ["g"] DInf "x" 0);
    first [reflexivity | vm_compute; reflexivity | intros [t Ht]; discriminate].
Defined.

Lemma handler_lock_after_expiry_witness :
  let '(w1, s1) := main_handler default_flags dav_init empty_writer (r_lock_f h_timeout60 "exclusive") in
  let '(w2, s2) := main_handler default_flags (Nat.iter 60 tick s1) empty_writer (r_lock_f ∅ "shared") in
  resp_status w2 = StatusOK /\ header_get "Lock-Token" (resp_header w2) = token_string (S (lt_next (ds_locks dav_init))).
Proof.
  apply (handler_lock_after_expiry default_flags dav_init "/f" "shared" h_timeout60 ∅ ["f"] DInf DInf 60);
    first [reflexivity | vm_compute; reflexivity | vm_compute; lia].
Defined.

Lemma handler_unlock_then_lock_witness :
  let '(w1, s1) := main_handler cfg_ro dav_init empty_writer (r_lock_f ∅ "exclusive") in
  let '(w2, s2) := main_handler cfg_ro s1 empty_writer (mkRequest "UNLOCK" "/f" h_unlock0 "") in
  let '(w3, s3) := main_handler cfg_ro s2 empty_writer (r_lock_f ∅ "exclusive") in
  resp_status w2 = StatusNoContent /\ resp_status w3 = StatusOK.
Proof.
  apply (handler_unlock_then_lock cfg_ro dav_init "/f" ∅ h_unlock0 ["f"] DInf);
    first [reflexivity | vm_compute; reflexivity | vm_compute; lia].
Defined.

Lemma sys_path_resolution_consistent_witness :
  resolve (join_path ([] ++ ["new"])) = Some ([] ++ ["new"]) /\
  fs_get (ds_fs (snd (main_handler cfg_ro dav_init empty_writer r_lock_new))) ([] ++ ["new"]) = Some (NFile "" 0).
Proof.
  apply (sys_path_resolution_consistent cfg_ro dav_init _ fs_empty_paths_ok).
  - eapply rtc_l; [apply sys_request | apply rtc_refl].
  - apply list_elem_of_In. vm_compute. by left.
Defined.

Lemma handler_proppatch_all_or_nothing_witness :
  let '(w1, s1) := main_handler default_flags s_put_f empty_writer
                     (mkRequest "PROPPATCH" "/f" ∅ ("set urn:x color blue" +s String "010" "set DAV: getetag x")) in
  resp_status w1 = StatusMultiStatus /\ ds_fs s1 = ds_fs s_put_f /\ ds_locks s1 = ds_locks s_put_f /\
  exists res, w_body w1 = patch_body ["f"] res /\ res.*1 = op_name <$> [PSet ("urn:x", "color") "blue"; PSet ("DAV:", "getetag") "x"] /\
  ((Exists (fun o => is_live (op_name o) = true) [PSet ("urn:x", "color") "blue"; PSet ("DAV:", "getetag") "x"] /\
    ds_props s1 = ds_props s_put_f /\
    Forall (fun r => r.2 = if is_live r.1 then PropForbidden else PropFailedDependency) res)
   \/
   (Forall (fun r => r.2 = PropOK) res /\
    (forall k, dp_lookup k (props_of (ds_props s1) ["f"]) =
               ref_value k [PSet ("urn:x", "color") "blue"; PSet ("DAV:", "getetag") "x"] (dp_lookup k (props_of (ds_props s_put_f) ["f"]))) /\
    (forall q, q <> ["f"] -> ds_props s1 !! q = ds_props s_put_f !! q))).
Proof.
  apply (handler_proppatch_all_or_nothing default_flags s_put_f "/f" ("set urn:x color blue" +s String "010" "set DAV: getetag x")
           ∅ ["f"] (NFile "x" 0) [PSet ("urn:x", "color") "blue"; PSet ("DAV:", "getetag") "x"]);
    vm_compute; reflexivity.
Defined.

Lemma sys_props_wf_witness :
  props_wf (snd (main_handler default_flags s_prop_f empty_writer (mkRequest "DELETE" "/f" ∅ ""))).
Proof.
  apply (sys_props_wf default_flags dav_init); [exact dav_init_props_wf|].
  eapply rtc_l; [apply sys_request|]. eapply rtc_l; [apply sys_request|].
  eapply rtc_l; [apply sys_request | apply rtc_refl].
Defined.

Lemma handler_move_carries_props_witness :
  props_of (ds_props s_prop_f) ["f"] = [(("urn:x", "color"), "blue")] /\
  let '(w1, s1) := main_handler default_flags s_prop_f empty_writer (mkRequest "MOVE" "/f" h_dest_g "") in
  resp_status w1 = StatusCreated /\
  props_of (ds_props s1) ["g"] = props_of (ds_props s_prop_f) ["f"] /\ props_of (ds_props s1) ["f"] = [].
Proof.
  split; [vm_compute; reflexivity|].
  apply (handler_move_carries_props default_flags s_prop_f "/f" h_dest_g ["f"] ["g"] DInf (NFile "x" 0));
    first [reflexivity | vm_compute; reflexivity | intros [t Ht]; discriminate].
Defined.

Lemma handler_proppatch_then_propfind_witness :
  let '(w1, s1) := main_handler default_flags s_put_f empty_writer (mkRequest "PROPPATCH" "/f" h_depth0 "set urn:x color blue") in
  resp_status w1 = StatusMultiStatus /\
  w_body (fst (main_handler default_flags s1 empty_writer (mkRequest "PROPFIND" "/f" h_depth0 ""))) = multistatus s1 [["f"]] /\
  props_at s1 ["f"] = live_props ["f"] (NFile "x" 0) ++ [(("urn:x", "color"), "blue")].
Proof.
  apply (handler_proppatch_then_propfind default_flags s_put_f "/f" "set urn:x color blue" h_depth0 ["f"]
           (NFile "x" 0) [PSet ("urn:x", "color") "blue"]);
    first [reflexivity | vm_compute; reflexivity | repeat constructor].
Defined.

Lemma handler_delete_root_refused_witness :
  main_handler default_flags dav_init empty_writer (mkRequest "DELETE" "/a/.." ∅ "") =
    (respond_error Forbidden empty_writer, dav_init).
Proof. apply (handler_delete_root_refused default_flags dav_init "/a/.." ∅); first [reflexivity | exact fs_empty_wf]. Defined.
